(** * DNS_manager: the reconciliation engine, embedded and verified

    A shallow embedding of the Go sources of the dynamic-DNS updater:
    - [ipchecker.go]   : the public-address resolver ([IPChecker]);
    - the Cloudflare client ([CloudflareClient], record CRUD);
    - [checkAndUpdate] : one reconciliation cycle of the main loop;
    - [config.go]      : [LoadConfig].

    Go strings are byte strings ([string]), Go [int] values are [Z],
    Go [error] values are an inductive type with one constructor per
    [fmt.Errorf] site.  Effects are explicit: a function that talks to the
    outside world threads a [State] (the outside world and the package
    variable [currentIP]) and emits the [Event]s it causes, in order:
    requests, log lines and sleeps. *)

From Stdlib Require Import String Ascii List ZArith NArith Bool Lia.
Import ListNotations.
Local Open Scope string_scope.
Local Open Scope Z_scope.
Local Open Scope list_scope.

(* ===================================================================== *)
(** * Go standard library functions used by the sources *)
(* ===================================================================== *)

Module GoLib.

Definition bytes := list ascii.

Definition byte_is (c : ascii) (n : N) : bool := N.eqb (N_of_ascii c) n.

Definition byte_in (c : ascii) (lo hi : N) : bool :=
  (N.leb lo (N_of_ascii c) && N.leb (N_of_ascii c) hi)%bool.

(** ** [strings.TrimSpace]

    The six ASCII white-space bytes of the fast path. *)
Definition asciiSpace (c : ascii) : bool :=
  (byte_is c 9 || byte_is c 10 || byte_is c 11 || byte_is c 12
   || byte_is c 13 || byte_is c 32)%bool.

(** [unicode.IsSpace] on the runes outside ASCII, given by their UTF-8
    encodings: U+0085 and U+00A0 take two bytes, the others three
    (U+1680, U+2000..U+200A, U+2028, U+2029, U+202F, U+205F, U+3000).
    Any other byte sequence decodes to a rune that is not white space
    (an ill-formed one decodes to U+FFFD). *)
Definition space2 (a b : ascii) : bool :=
  (byte_is a 194 && (byte_is b 133 || byte_is b 160))%bool.

Definition space3 (a b c : ascii) : bool :=
  ((byte_is a 225 && byte_is b 154 && byte_is c 128)
   || (byte_is a 226 && byte_is b 128
       && (byte_in c 128 138 || byte_is c 168 || byte_is c 169 || byte_is c 175))
   || (byte_is a 226 && byte_is b 129 && byte_is c 159)
   || (byte_is a 227 && byte_is b 128 && byte_is c 128))%bool.

(** Leading white space is dropped rune by rune. *)
Fixpoint trimLeft (s : bytes) : bytes :=
  match s with
  | [] => []
  | a :: r =>
      if asciiSpace a then trimLeft r
      else match r with
           | b :: r2 =>
               if space2 a b then trimLeft r2
               else match r2 with
                    | c :: r3 => if space3 a b c then trimLeft r3 else s
                    | [] => s
                    end
           | [] => s
           end
  end.

(** The same from the end, on the reversed byte sequence (the last rune
    is found by [utf8.DecodeLastRuneInString]). *)
Fixpoint trimLeftRev (s : bytes) : bytes :=
  match s with
  | [] => []
  | a :: r =>
      if asciiSpace a then trimLeftRev r
      else match r with
           | b :: r2 =>
               if space2 b a then trimLeftRev r2
               else match r2 with
                    | c :: r3 => if space3 c b a then trimLeftRev r3 else s
                    | [] => s
                    end
           | [] => s
           end
  end.

Definition trimRight (s : bytes) : bytes := rev (trimLeftRev (rev s)).

Definition TrimSpace (s : string) : string :=
  string_of_list_ascii (trimRight (trimLeft (list_ascii_of_string s))).

(** ** [net.ParseIP] and [IP.To4]

    As in go1.21, the version the README asks for: [net.ParseIP] is
    [netip.ParseAddr] followed by [Addr.As16]; an address with a zone is
    refused. *)

Definition isDigit (c : ascii) : bool := byte_in c 48 57.

Definition hexVal (c : ascii) : option N :=
  if byte_in c 48 57 then Some (N_of_ascii c - 48)%N
  else if byte_in c 97 102 then Some (N_of_ascii c - 97 + 10)%N
  else if byte_in c 65 70 then Some (N_of_ascii c - 65 + 10)%N
  else None.

Definition isDot (c : ascii) : bool := byte_is c 46.
Definition isColon (c : ascii) : bool := byte_is c 58.
Definition isPercent (c : ascii) : bool := byte_is c 37.

(** [netip.parseIPv4]: [prev] is the byte before the cursor ([None] at
    index 0), [val] and [digLen] the octet being read, [fields] the
    octets already stored ([pos] is their number). *)
Fixpoint parseIPv4Loop (s : bytes) (prev : option ascii) (val digLen : N)
         (fields : list N) : option (list N) :=
  match s with
  | [] => if (List.length fields <? 3)%nat then None else Some (fields ++ [val])
  | c :: rest =>
      if isDigit c then
        if (N.eqb digLen 1 && N.eqb val 0)%bool then None
        else
          let val' := (val * 10 + (N_of_ascii c - 48))%N in
          if N.ltb 255 val' then None
          else parseIPv4Loop rest (Some c) val' (digLen + 1)%N fields
      else if isDot c then
        let first := match prev with None => true | Some _ => false end in
        let last := match rest with [] => true | _ => false end in
        let afterDot := match prev with Some p => isDot p | None => false end in
        if (first || last || afterDot)%bool then None
        else if (List.length fields =? 3)%nat then None
        else parseIPv4Loop rest (Some c) 0%N 0%N (fields ++ [val])
      else None
  end.

Definition parseIPv4 (s : bytes) : option (list N) :=
  parseIPv4Loop s None 0%N 0%N [].

(** The hexadecimal group at the head of [s]: its value, the number
    [off] of digits read, and the rest of the string.  A fifth digit is
    an error. *)
Fixpoint hexGroup (s : bytes) (off : nat) (acc : N) : option (N * nat * bytes) :=
  match s with
  | [] => Some (acc, off, [])
  | c :: rest =>
      match hexVal c with
      | Some d =>
          let acc' := (acc * 16 + d)%N in
          if (3 <? off)%nat then None
          else if N.ltb 65535 acc' then None
          else hexGroup rest (S off) acc'
      | None => Some (acc, off, s)
      end
  end.

(** Result of the group loop of [netip.parseIPv6]: the bytes written so
    far ([i] is their number), the position of the ellipsis, and the
    unread rest of the string. *)
Fixpoint parseIPv6Loop (fuel : nat) (s : bytes) (ip : list N)
         (ellipsis : option nat) : option (list N * option nat * bytes) :=
  match fuel with
  | O => Some (ip, ellipsis, s)
  | S fuel' =>
      if (16 <=? List.length ip)%nat then Some (ip, ellipsis, s)
      else
        match hexGroup s 0 0%N with
        | None => None
        | Some (acc, off, rest) =>
            if (off =? 0)%nat then None
            else
              match rest with
              | c :: _ =>
                  if isDot c then
                    (* trailing dotted quad *)
                    if (match ellipsis with None => true | Some _ => false end
                        && negb (List.length ip =? 12)%nat)%bool then None
                    else if (16 <? List.length ip + 4)%nat then None
                    else match parseIPv4 s with
                         | None => None
                         | Some quad => Some (ip ++ quad, ellipsis, [])
                         end
                  else
                    let ip' := ip ++ [N.div acc 256; N.modulo acc 256] in
                    if negb (isColon c) then None
                    else match rest with
                         | _ :: [] => None
                         | _ :: (c2 :: rest2) as s2 =>
                             if isColon c2 then
                               match ellipsis with
                               | Some _ => None
                               | None =>
                                   match rest2 with
                                   | [] => Some (ip', Some (List.length ip'), [])
                                   | _ => parseIPv6Loop fuel' rest2 ip' (Some (List.length ip'))
                                   end
                               end
                             else parseIPv6Loop fuel' s2 ip' ellipsis
                         | [] => None
                         end
              | [] => Some (ip ++ [N.div acc 256; N.modulo acc 256], ellipsis, [])
              end
        end
  end.

Fixpoint splitZone (s : bytes) : bytes * option bytes :=
  match s with
  | [] => ([], None)
  | c :: r =>
      if isPercent c then ([], Some r)
      else let (a, z) := splitZone r in (c :: a, z)
  end.

(** [netip.parseIPv6]: the sixteen bytes and the zone. *)
Definition parseIPv6 (input : bytes) : option (list N * bytes) :=
  let (s, z) := splitZone input in
  match z with
  | Some [] => None
  | _ =>
      let zone := match z with Some zn => zn | None => [] end in
      let start :=
        match s with
        | c1 :: c2 :: r =>
            if (isColon c1 && isColon c2)%bool then (r, Some 0%nat, true)
            else (s, None, false)
        | _ => (s, None, false)
        end in
      match start with
      | ([], _, true) => Some (repeat 0%N 16, zone)
      | (s0, ell0, _) =>
          match parseIPv6Loop 8 s0 [] ell0 with
          | None => None
          | Some (ip, ellipsis, rest) =>
              match rest with
              | _ :: _ => None
              | [] =>
                  if (List.length ip <? 16)%nat then
                    match ellipsis with
                    | None => None
                    | Some e =>
                        Some (firstn e ip ++ repeat 0%N (16 - List.length ip)
                                ++ skipn e ip, zone)
                    end
                  else match ellipsis with
                       | Some _ => None
                       | None => Some (ip, zone)
                       end
              end
          end
      end
  end.

Inductive Addr : Type :=
| Addr4 (quad : list N)
| Addr6 (ip16 : list N) (zone : bytes).

(** [netip.ParseAddr]: the first of '.', ':' and '%' decides. *)
Fixpoint parseAddrScan (whole rest : bytes) : option Addr :=
  match rest with
  | [] => None
  | c :: r =>
      if isDot c then option_map Addr4 (parseIPv4 whole)
      else if isColon c then
        option_map (fun p => Addr6 (fst p) (snd p)) (parseIPv6 whole)
      else if isPercent c then None
      else parseAddrScan whole r
  end.

Definition ParseAddr (s : string) : option Addr :=
  parseAddrScan (list_ascii_of_string s) (list_ascii_of_string s).

(** A Go [net.IP] is a byte slice; [None] is the nil slice. *)
Definition IP := option (list N).

Definition ParseIP (s : string) : IP :=
  match ParseAddr s with
  | Some (Addr4 quad) => Some (repeat 0%N 10 ++ [255%N; 255%N] ++ quad)
  | Some (Addr6 ip16 []) => Some ip16
  | Some (Addr6 _ (_ :: _)) => None
  | None => None
  end.

Definition isZeros (p : list N) : bool := forallb (N.eqb 0) p.

Definition To4 (ip : IP) : IP :=
  match ip with
  | None => None
  | Some b =>
      if (List.length b =? 4)%nat then Some b
      else if ((List.length b =? 16)%nat && isZeros (firstn 10 b)
               && N.eqb (nth 10 b 0%N) 255 && N.eqb (nth 11 b 0%N) 255)%bool
           then Some (skipn 12 b)
           else None
  end.

End GoLib.

(* ===================================================================== *)
(** * Data model *)
(* ===================================================================== *)

(** Go [error] values; [None : option error] is [nil].  One constructor
    per [fmt.Errorf] format of the sources, carrying the formatted
    arguments. *)
#[warnings="-register-all"]
Inductive error : Type :=
| ErrTransport (msg : string)                 (* an error of net/http or io *)
| ErrServiceStatus (code : Z)                 (* ipchecker: status code of a service *)
| ErrEmptyBody                                (* ipchecker: empty answer *)
| ErrInvalidIP (ip : string)                  (* ipchecker: invalid address format *)
| ErrAllServicesFailed (last : option error)  (* ipchecker: every service failed, last error *)
| ErrRequestFailed (cause : error)            (* client: request failed *)
| ErrAPIStatus (code : Z) (body : string)     (* client: API status code and body *)
| ErrDecode (cause : string)                  (* client: response does not parse *)
| ErrAPI (errors : list (Z * string))         (* client: success=false, codes and messages *)
| ErrLookupFailed (cause : error)             (* client: looking up the records failed *)
| ErrNoRecord (name : string)                 (* client: no record at the name *)
| ErrNoRecordOfType (type : string)           (* client: no record of the type *)
| ErrContentMismatch (want got : string).     (* client: content differs after update *)

Definition isNil (e : option error) : bool :=
  match e with None => true | Some _ => false end.

(** [type DNSRecord struct] *)
Record DNSRecord : Type := mkDNSRecord {
  ID : string;
  Type_ : string;
  Name : string;
  Content : string;
  TTL : Z;
  Proxied : bool
}.

(** [type DNSRecordUpdateRequest struct] *)
Record DNSRecordUpdateRequest : Type := mkUpdateReq {
  upd_Type : string;
  upd_Name : string;
  upd_Content : string;
  upd_TTL : Z
}.

(** [type DNSRecordCreateRequest struct] *)
Record DNSRecordCreateRequest : Type := mkCreateReq {
  cre_Type : string;
  cre_Name : string;
  cre_Content : string;
  cre_TTL : Z
}.

(** The anonymous [Result] struct decoded by [UpdateDNSRecord]. *)
Record UpdateResult : Type := mkUpdateResult {
  res_ID : string;
  res_Type : string;
  res_Name : string;
  res_Content : string
}.

(** The JSON envelope of the provider: [success], [result], [errors]. *)
Record Envelope (R : Type) : Type := mkEnvelope {
  Success : bool;
  Result : R;
  Errors : list (Z * string)
}.
Arguments mkEnvelope {R}.
Arguments Success {R}.
Arguments Result {R}.
Arguments Errors {R}.

(** What [http.Client.Get] on a discovery service gives back: an error, or
    a status code with a body that [io.ReadAll] reads or fails to read. *)
Inductive Body : Type :=
| BodyBytes (b : string)
| BodyReadError (msg : string).

Inductive GetReply : Type :=
| GetError (msg : string)
| GetResponse (status : Z) (body : Body).

(** What [makeRequest] gives back: an error, or a status code with the raw
    body and, when the body decodes into the expected Go struct, the decoded
    envelope ([inl] holds the decoder's error). *)
Inductive ApiReply (R : Type) : Type :=
| ApiError (cause : error)
| ApiResponse (status : Z) (raw : string) (json : string + Envelope R).
Arguments ApiError {R}.
Arguments ApiResponse {R}.

(** Requests that leave the process. *)
Inductive Call : Type :=
| CallService (url : string)                                        (* GET on a discovery service *)
| CallList (zoneID recordName : string)                             (* GET  /zones/Z/dns_records?name=N *)
| CallPut (zoneID recordID : string) (req : DNSRecordUpdateRequest) (* PUT  /zones/Z/dns_records/ID *)
| CallPost (zoneID : string) (req : DNSRecordCreateRequest).        (* POST /zones/Z/dns_records *)

Definition isProviderCall (c : Call) : bool :=
  match c with CallService _ => false | _ => true end.

Definition isMutation (c : Call) : bool :=
  match c with CallPut _ _ _ | CallPost _ _ => true | _ => false end.

(** Lines handed to [logInfo] and [logError] by [checkAndUpdate], in the
    order of the source. *)
Inductive LogLine : Type :=
| InfoChecking
| ErrorResolveRetry (attempt maxRetries : Z) (err : option error)
| ErrorResolveFailed (err : option error)
| InfoCurrentIP (ip service : string)
| InfoUnchanged (ip : string)
| InfoChangeDetected (old new : string)
| ErrorConfirmFailed (err : option error)
| ErrorConfirmMismatch (ip confirmIP confirmService : string)
| InfoConfirmed (old new : string)
| InfoNoExistingRecords
| InfoFoundRecords (n : nat)
| InfoAlreadyPresent (ip : string)
| InfoNotPresent
| InfoApplying (name ip : string)
| ErrorApplyRetry (attempt maxRetries : Z) (err : option error)
| ErrorApplyFailed (err : option error)
| ErrorVerifyListFailed (err : option error)
| InfoVerified (name ip : string) (n : nat)
| ErrorVerifyMissing (ip : string)
| InfoApplied (name ip : string).

(** [type Config struct] *)
Record Config : Type := mkConfig {
  APIToken : string;
  ZoneID : string;
  RecordName : string;
  RecordType : string
}.

(** [type IPChecker struct] (the HTTP client is the outside world). *)
Record IPChecker : Type := mkIPChecker {
  services : list string;
  primaryService : string
}.

Definition NewIPChecker : IPChecker :=
  {| primaryService := "https://api.ipify.org";
     services := [ "https://api.ipify.org";
                   "https://ifconfig.me/ip";
                   "https://icanhazip.com";
                   "https://api.ip.sb/ip" ] |}.

(** [isValidIPv4] of ipchecker.go. *)
Definition isValidIPv4 (ip : string) : bool :=
  let ip := GoLib.TrimSpace ip in
  let parsedIP := GoLib.ParseIP ip in
  match parsedIP with
  | None => false
  | Some _ => negb (match GoLib.To4 parsedIP with None => true | Some _ => false end)
  end.

(* ===================================================================== *)
(** * The engine over an arbitrary outside world *)
(* ===================================================================== *)

(** The outside world answers requests and may change while doing so. *)
Record Net (W : Type) : Type := mkNet {
  httpGet : string -> W -> GetReply * W;
  apiList : string -> string -> W -> ApiReply (list DNSRecord) * W;
  apiPut : string -> string -> DNSRecordUpdateRequest -> W -> ApiReply UpdateResult * W;
  apiPost : string -> DNSRecordCreateRequest -> W -> ApiReply DNSRecord * W
}.
Arguments httpGet {W}.
Arguments apiList {W}.
Arguments apiPut {W}.
Arguments apiPost {W}.

Definition isPost (c : Call) : bool :=
  match c with CallPost _ _ => true | _ => false end.

(** What the process does that can be seen from outside, in order. *)
Inductive Event : Type :=
| Called (c : Call)
| Logged (l : LogLine)
| Slept (seconds : Z).

Definition callsOf (t : list Event) : list Call :=
  flat_map (fun e => match e with Called c => [c] | _ => [] end) t.

Definition logsOf (t : list Event) : list LogLine :=
  flat_map (fun e => match e with Logged l => [l] | _ => [] end) t.

(** Requests sent to the DNS provider, and those among them that write. *)
Definition providerCalls (t : list Event) : list Call :=
  filter isProviderCall (callsOf t).

Definition mutations (t : list Event) : list Call :=
  filter isMutation (callsOf t).

(** [onlyCreates zoneID req t]: every create request among the events [t]
    is the request [req] on the zone [zoneID]. *)
Definition onlyCreates (zoneID : string) (req : DNSRecordCreateRequest)
           (t : list Event) : Prop :=
  Forall (fun c => c = CallPost zoneID req) (filter isPost (callsOf t)).

(** The state a cycle reads and writes: the outside world and the package
    variable [currentIP] (the last applied address). *)
Record State (W : Type) : Type := mkState {
  world : W;
  currentIP : string
}.
Arguments mkState {W}.
Arguments world {W}.
Arguments currentIP {W}.

(** A finished computation: its result, the state it leaves, and the
    events it emitted. *)
Record Run (W A : Type) : Type := mkRun {
  value : A;
  final : State W;
  trace : list Event
}.
Arguments mkRun {W A}.
Arguments value {W A}.
Arguments final {W A}.
Arguments trace {W A}.

Section Engine.

Context {W : Type}.
Variable net : Net W.

Definition M (A : Type) : Type := State W -> Run W A.

Definition ret {A} (a : A) : M A := fun st => mkRun a st [].

Definition bind {A B} (c : M A) (k : A -> M B) : M B :=
  fun st =>
    let r := c st in
    let r' := k (value r) (final r) in
    mkRun (value r') (final r') (trace r ++ trace r').

Notation "x <- c ;; k" := (bind c (fun x => k))
  (at level 100, c at next level, right associativity).
Notation "' pat <- c ;; k" := (bind c (fun x => match x with pat => k end))
  (at level 100, pat pattern, c at next level, right associativity).
Notation "c ;;; k" := (bind c (fun _ => k))
  (at level 100, right associativity).

Definition logInfo (l : LogLine) : M unit := fun st => mkRun tt st [Logged l].

Definition logError (l : LogLine) : M unit := fun st => mkRun tt st [Logged l].

(** [time.Sleep(n * time.Second)] *)
Definition Sleep (n : Z) : M unit := fun st => mkRun tt st [Slept n].

Definition getCurrentIP : M string := fun st => mkRun (currentIP st) st [].

Definition setCurrentIP (ip : string) : M unit :=
  fun st => mkRun tt (mkState (world st) ip) [].

(** One request: the world answers and moves on. *)
Definition request {A} (c : Call) (h : W -> A * W) : M A :=
  fun st => let (a, w') := h (world st) in
            mkRun a (mkState w' (currentIP st)) [Called c].

(** ** ipchecker.go *)

Definition getIPFromService (url : string) : M (string * option error) :=
  resp <- request (CallService url) (httpGet net url) ;;
  match resp with
  | GetError e => ret ("", Some (ErrTransport e))
  | GetResponse status body =>
      if negb (status =? 200) then ret ("", Some (ErrServiceStatus status))
      else match body with
           | BodyReadError e => ret ("", Some (ErrTransport e))
           | BodyBytes b =>
               let ip := GoLib.TrimSpace b in
               if String.eqb ip "" then ret ("", Some ErrEmptyBody)
               else if negb (isValidIPv4 ip) then ret ("", Some (ErrInvalidIP ip))
               else ret (ip, None)
           end
  end.

(** The condition [err == nil && ip != "" && isValidIPv4(ip)]. *)
Definition accepted (ip : string) (err : option error) : bool :=
  isNil err && negb (String.eqb ip "") && isValidIPv4 ip.

(** The [for _, service := range ic.services] loop of
    [GetPublicIPWithService]; [lastErr] is the loop variable. *)
Fixpoint tryServices (primary : string) (svcs : list string)
         (lastErr : option error) : M (string * string * option error) :=
  match svcs with
  | [] => ret ("", "", Some (ErrAllServicesFailed lastErr))
  | service :: rest =>
      if String.eqb service primary then tryServices primary rest lastErr
      else
        '(ip, err) <- getIPFromService service ;;
        if accepted ip err then ret (ip, service, None)
        else tryServices primary rest err
  end.

Definition GetPublicIPWithService (ic : IPChecker) : M (string * string * option error) :=
  '(ip, err) <- getIPFromService (primaryService ic) ;;
  if accepted ip err then ret (ip, primaryService ic, None)
  else tryServices (primaryService ic) (services ic) None.

(** ** The Cloudflare client

    [json.Marshal] cannot fail on the request structs (strings and an
    int), so the branches that return its error are left out. *)

Definition ListDNSRecords (zoneID recordName : string)
  : M (list DNSRecord * option error) :=
  resp <- request (CallList zoneID recordName) (apiList net zoneID recordName) ;;
  match resp with
  | ApiError e => ret ([], Some (ErrRequestFailed e))
  | ApiResponse status raw json =>
      if negb (status =? 200) then ret ([], Some (ErrAPIStatus status raw))
      else match json with
           | inl e => ret ([], Some (ErrDecode e))
           | inr result =>
               if negb (Success result) then ret ([], Some (ErrAPI (Errors result)))
               else ret (Result result, None)
           end
  end.

Definition hasType (recordType : string) (r : DNSRecord) : bool :=
  String.eqb (Type_ r) recordType.

Definition hasContent (content : string) (r : DNSRecord) : bool :=
  String.eqb (Content r) content.

Definition UpdateDNSRecord (zoneID recordName recordType content : string)
  : M (option error) :=
  '(records, err) <- ListDNSRecords zoneID recordName ;;
  match err with
  | Some e => ret (Some (ErrLookupFailed e))
  | None =>
      if (List.length records =? 0)%nat then ret (Some (ErrNoRecord recordName))
      else
        (* the first record of the type *)
        match find (hasType recordType) records with
        | None => ret (Some (ErrNoRecordOfType recordType))
        | Some targetRecord =>
            if String.eqb (Content targetRecord) content then ret None
            else
              let updateReq :=
                {| upd_Type := recordType; upd_Name := recordName;
                   upd_Content := content; upd_TTL := TTL targetRecord |} in
              resp <- request (CallPut zoneID (ID targetRecord) updateReq)
                              (apiPut net zoneID (ID targetRecord) updateReq) ;;
              match resp with
              | ApiError e => ret (Some (ErrRequestFailed e))
              | ApiResponse status raw json =>
                  if negb (status =? 200) then ret (Some (ErrAPIStatus status raw))
                  else match json with
                       | inl e => ret (Some (ErrDecode e))
                       | inr result =>
                           if negb (Success result)
                           then ret (Some (ErrAPI (Errors result)))
                           else if negb (String.eqb (res_Content (Result result)) content)
                           then ret (Some (ErrContentMismatch content
                                             (res_Content (Result result))))
                           else ret None
                       end
              end
        end
  end.

Definition GetAllDNSRecords (zoneID recordName recordType : string)
  : M (list DNSRecord * option error) :=
  '(records, err) <- ListDNSRecords zoneID recordName ;;
  match err with
  | Some e => ret ([], Some (ErrLookupFailed e))
  | None => ret (filter (hasType recordType) records, None)
  end.

(** Returns a pointer to a [DNSRecord] and an error; [None] is the nil
    pointer. *)
Definition CreateDNSRecord (zoneID recordName recordType content : string) (ttl : Z)
  : M (option DNSRecord * option error) :=
  let createReq :=
    {| cre_Type := recordType; cre_Name := recordName;
       cre_Content := content; cre_TTL := ttl |} in
  resp <- request (CallPost zoneID createReq) (apiPost net zoneID createReq) ;;
  match resp with
  | ApiError e => ret (None, Some (ErrRequestFailed e))
  | ApiResponse status raw json =>
      if negb (status =? 200) then ret (None, Some (ErrAPIStatus status raw))
      else match json with
           | inl e => ret (None, Some (ErrDecode e))
           | inr result =>
               if negb (Success result) then ret (None, Some (ErrAPI (Errors result)))
               else ret (Some (Result result), None)
           end
  end.

Definition UpdateOrCreateDNSRecord (zoneID recordName recordType content : string)
           (ttl : Z) (oldIP : string) : M (option error) :=
  '(records, err) <- GetAllDNSRecords zoneID recordName recordType ;;
  if (negb (isNil err) || (List.length records =? 0)%nat)%bool then
    '(_, err) <- CreateDNSRecord zoneID recordName recordType content ttl ;;
    ret err
  else if existsb (hasContent content) records then ret None
  else if (negb (String.eqb oldIP "") && existsb (hasContent oldIP) records)%bool then
    UpdateDNSRecord zoneID recordName recordType content
  else
    '(_, err) <- CreateDNSRecord zoneID recordName recordType content ttl ;;
    ret err.

(** ** [checkAndUpdate]: one reconciliation cycle *)

Variable config : Config.
Variable ipChecker : IPChecker.

Definition maxRetries : Z := 3.

(** The first [for i := 0; i < maxRetries; i++] loop; [remaining] is
    [maxRetries - i], [r] holds [ip, serviceName, err]. *)
Fixpoint resolveLoop (remaining : nat) (i : Z) (r : string * string * option error)
  : M (string * string * option error) :=
  match remaining with
  | O => ret r
  | S k =>
      r <- GetPublicIPWithService ipChecker ;;
      match snd r with
      | None => ret r
      | Some _ =>
          (if i <? maxRetries - 1
           then logError (ErrorResolveRetry (i + 1) maxRetries (snd r)) ;;; Sleep 1
           else ret tt) ;;;
          resolveLoop k (i + 1) r
      end
  end.

(** The second retry loop; the result is [updateSuccess, lastErr]. *)
Fixpoint applyLoop (ip : string) (defaultTTL : Z) (remaining : nat) (i : Z)
         (lastErr : option error) : M (bool * option error) :=
  match remaining with
  | O => ret (false, lastErr)
  | S k =>
      cur <- getCurrentIP ;;
      lastErr <- UpdateOrCreateDNSRecord (ZoneID config) (RecordName config)
                   (RecordType config) ip defaultTTL cur ;;
      match lastErr with
      | None => ret (true, lastErr)
      | Some _ =>
          (if i <? maxRetries - 1
           then logError (ErrorApplyRetry (i + 1) maxRetries lastErr) ;;; Sleep 2
           else ret tt) ;;;
          applyLoop ip defaultTTL k (i + 1) lastErr
      end
  end.

Definition defaultTTLOf (allRecords : list DNSRecord) : Z :=
  match allRecords with
  | r :: _ => TTL r
  | [] => 3600
  end.

(** The cycle, phase by phase.  [observe]: the first resolution, with
    its retries. *)
Definition observe : M (string * string * option error) :=
  logInfo InfoChecking ;;;
  resolveLoop (Z.to_nat maxRetries) 0 ("", "", None).

(** [confirm]: wait three seconds and resolve again. *)
Definition confirm (ip : string) : M (string * string * option error) :=
  cur <- getCurrentIP ;;
  logInfo (InfoChangeDetected cur ip) ;;;
  Sleep 3 ;;;
  GetPublicIPWithService ipChecker.

(** [inspect]: fetch the live records of the configured type and name. *)
Definition inspect (ip : string) : M (list DNSRecord * option error) :=
  cur <- getCurrentIP ;;
  logInfo (InfoConfirmed cur ip) ;;;
  GetAllDNSRecords (ZoneID config) (RecordName config) (RecordType config).

(** [mutate]: choose the default TTL, then update or create, with
    retries. *)
Definition mutate (ip : string) (allRecords : list DNSRecord)
  : M (bool * option error) :=
  logInfo (InfoApplying (RecordName config) ip) ;;;
  let defaultTTL := defaultTTLOf allRecords in
  applyLoop ip defaultTTL (Z.to_nat maxRetries) 0 None.

(** [verify]: list the records again and log what is found. *)
Definition verify (ip : string) : M unit :=
  '(verifyRecords, err) <- GetAllDNSRecords (ZoneID config) (RecordName config)
                             (RecordType config) ;;
  match err with
  | Some _ => logError (ErrorVerifyListFailed err)
  | None =>
      if existsb (hasContent ip) verifyRecords
      then logInfo (InfoVerified (RecordName config) ip (List.length verifyRecords))
      else logError (ErrorVerifyMissing ip)
  end.

(** From the choice of the default TTL to the end of the function. *)
Definition applyChange (ip : string) (allRecords : list DNSRecord) : M unit :=
  '(updateSuccess, lastErr) <- mutate ip allRecords ;;
  if negb updateSuccess then logError (ErrorApplyFailed lastErr)
  else
    verify ip ;;;
    logInfo (InfoApplied (RecordName config) ip) ;;;
    setCurrentIP ip.

(** After the confirmation: inspect the live records, then adopt the
    record that is already there, or update or create. *)
Definition reconcile (ip : string) : M unit :=
  '(allRecords, err) <- inspect ip ;;
  match err with
  | Some _ =>
      logInfo InfoNoExistingRecords ;;;
      applyChange ip allRecords
  | None =>
      logInfo (InfoFoundRecords (List.length allRecords)) ;;;
      if existsb (hasContent ip) allRecords then
        logInfo (InfoAlreadyPresent ip) ;;;
        setCurrentIP ip
      else
        logInfo InfoNotPresent ;;;
        applyChange ip allRecords
  end.

Definition checkAndUpdate : M unit :=
  '(ip, serviceName, err) <- observe ;;
  match err with
  | Some _ => logError (ErrorResolveFailed err)
  | None =>
      logInfo (InfoCurrentIP ip serviceName) ;;;
      cur <- getCurrentIP ;;
      if String.eqb ip cur then logInfo (InfoUnchanged ip)
      else
        '(confirmIP, confirmService, err) <- confirm ip ;;
        match err with
        | Some _ => logError (ErrorConfirmFailed err)
        | None =>
            if negb (String.eqb confirmIP ip)
            then logError (ErrorConfirmMismatch ip confirmIP confirmService)
            else reconcile ip
        end
  end.

(** ** The resolver's contract, as a relation

    [otherServices]: the endpoints of the list that are not the primary. *)
Definition otherServices (ic : IPChecker) : list string :=
  filter (fun service => negb (String.eqb service (primaryService ic))) (services ic).

(** [TryInOrder urls st last r st' tried]: querying [urls] one after the
    other from state [st], stopping at the first endpoint whose answer
    [getIPFromService] accepts, gives the result [r] in state [st'] after querying
    exactly [tried]; when every endpoint fails, the error carries the error
    of the last one ([last] when there is none). *)
Inductive TryInOrder : list string -> State W -> option error ->
                       string * string * option error -> State W ->
                       list string -> Prop :=
| TryNone : forall st last,
    TryInOrder [] st last ("", "", Some (ErrAllServicesFailed last)) st []
| TryHit : forall url urls st last ip st1 t,
    getIPFromService url st = mkRun (ip, None) st1 t ->
    isValidIPv4 ip = true ->
    TryInOrder (url :: urls) st last (ip, url, None) st1 [url]
| TryMiss : forall url urls st last e st1 t r st2 tried,
    getIPFromService url st = mkRun ("", Some e) st1 t ->
    TryInOrder urls st1 (Some e) r st2 tried ->
    TryInOrder (url :: urls) st last r st2 (url :: tried).

(** [creating zoneID req st r]: the run [r], started in [st], sent no
    create request but [req], and left [currentIP] as it was. *)
Definition creating {A} (zoneID : string) (req : DNSRecordCreateRequest)
           (st : State W) (r : Run W A) : Prop :=
  onlyCreates zoneID req (trace r) /\ currentIP (final r) = currentIP st.

(** [quiet st r]: the run [r], started in [st], sent nothing to the
    provider and left [currentIP] as it was. *)
Definition quiet {A} (st : State W) (r : Run W A) : Prop :=
  providerCalls (trace r) = [] /\ currentIP (final r) = currentIP st.

End Engine.

(* ===================================================================== *)
(** * config.go *)
(* ===================================================================== *)

Section ConfigFile.

(** The operating system as [LoadConfig] sees it, and the library
    functions it calls ([path/filepath], [encoding/json]); [None] is a
    nil error. *)
Variable UserHomeDir : string * option string.
Variable MkdirAll : string -> option string.
Variable ReadFile : string -> string * option string.
Variable filepath_Join : list string -> string.
Variable filepath_Dir : string -> string.
Variable json_Unmarshal : string -> Config -> Config * option string.

(** Lines printed on standard output. *)
Inductive Warning : Type :=
| WarnCannotCreateDir (err : string)
| WarnBadFormat (err : string).

Definition getConfigPath : string :=
  match UserHomeDir with
  | (_, Some _) => "config.json"
  | (homeDir, None) => filepath_Join [homeDir; ".go_dns_manager"; "config.json"]
  end.

Definition zeroConfig : Config :=
  {| APIToken := ""; ZoneID := ""; RecordName := ""; RecordType := "" |}.

Definition setRecordType (c : Config) (t : string) : Config :=
  {| APIToken := APIToken c; ZoneID := ZoneID c;
     RecordName := RecordName c; RecordType := t |}.

(** The result is a pointer: [None] would be nil. *)
Definition LoadConfig : option Config * list Warning :=
  let configPath := getConfigPath in
  let configDir := filepath_Dir configPath in
  let out1 := match MkdirAll configDir with
              | Some e => [WarnCannotCreateDir e]
              | None => []
              end in
  match ReadFile configPath with
  | (_, Some _) =>
      (Some (setRecordType zeroConfig "A"), out1)
  | (data, None) =>
      match json_Unmarshal data zeroConfig with
      | (_, Some e) =>
          (Some (setRecordType zeroConfig "A"), out1 ++ [WarnBadFormat e])
      | (config, None) =>
          let config :=
            if String.eqb (RecordType config) "" then setRecordType config "A"
            else config in
          (Some config, out1)
      end
  end.

End ConfigFile.

(* ===================================================================== *)
(** * A simulated outside world, for concrete runs *)
(* ===================================================================== *)

Module Sim.

(** The discovery services answer from a script, whichever is asked; the
    provider keeps a record list.  [keepsWrites = false] and
    [echoes = Some c] give a provider that reports success without
    storing the record, or echoes the content [c] whatever was sent. *)
Record World : Type := mkWorld {
  script : list GetReply;
  records : list DNSRecord;
  keepsWrites : bool;
  echoes : option string
}.

Definition get (url : string) (w : World) : GetReply * World :=
  match script w with
  | [] => (GetError "unreachable", w)
  | r :: rest => (r, mkWorld rest (records w) (keepsWrites w) (echoes w))
  end.

Definition ok {R} (result : R) : ApiReply R :=
  ApiResponse 200 "" (inr (mkEnvelope true result [])).

Definition list_ (zoneID recordName : string) (w : World)
  : ApiReply (list DNSRecord) * World :=
  (ok (filter (fun r => String.eqb (Name r) recordName) (records w)), w).

Definition overwrite (recordID : string) (req : DNSRecordUpdateRequest)
           (r : DNSRecord) : DNSRecord :=
  if String.eqb (ID r) recordID
  then mkDNSRecord (ID r) (upd_Type req) (upd_Name req) (upd_Content req)
                   (upd_TTL req) (Proxied r)
  else r.

Definition put (zoneID recordID : string) (req : DNSRecordUpdateRequest)
           (w : World) : ApiReply UpdateResult * World :=
  if existsb (fun r => String.eqb (ID r) recordID) (records w) then
    let content := match echoes w with Some c => c | None => upd_Content req end in
    (ok (mkUpdateResult recordID (upd_Type req) (upd_Name req) content),
     if keepsWrites w
     then mkWorld (script w) (map (overwrite recordID req) (records w))
                  (keepsWrites w) (echoes w)
     else w)
  else (ApiResponse 404 "record not found" (inl "not JSON"), w).

Definition post (zoneID : string) (req : DNSRecordCreateRequest) (w : World)
  : ApiReply DNSRecord * World :=
  let r := mkDNSRecord (String.append "new-" (cre_Content req)) (cre_Type req)
                       (cre_Name req) (cre_Content req) (cre_TTL req) false in
  (ok r,
   if keepsWrites w
   then mkWorld (script w) (records w ++ [r]) (keepsWrites w) (echoes w)
   else w).

Definition net : Net World := mkNet World get list_ put post.

Definition answers (ip : string) : GetReply := GetResponse 200 (BodyBytes ip).

Definition config : Config :=
  {| APIToken := "token"; ZoneID := "zone"; RecordName := "host.example.com";
     RecordType := "A" |}.

Definition A (id content : string) (ttl : Z) : DNSRecord :=
  mkDNSRecord id "A" "host.example.com" content ttl false.

Definition start (replies : list GetReply) (recs : list DNSRecord)
           (lastApplied : string) : State World :=
  mkState (mkWorld replies recs true None) lastApplied.

(** The same with a provider that acknowledges writes without storing
    them. *)
Definition startLossy (replies : list GetReply) (recs : list DNSRecord)
           (lastApplied : string) : State World :=
  mkState (mkWorld replies recs false None) lastApplied.

Definition cycle (st : State World) : Run World unit :=
  checkAndUpdate net config NewIPChecker st.

End Sim.

(** The provider of [Sim] behind a connection that drops: while [outage]
    is positive a listing fails with a transport error and counts one down;
    the other requests go through. *)
Module SimOutage.

Record World : Type := mkWorld {
  inner : Sim.World;
  outage : nat
}.

Definition lift {R} (f : Sim.World -> R * Sim.World) (w : World) : R * World :=
  let '(r, i) := f (inner w) in (r, mkWorld i (outage w)).

Definition get (url : string) : World -> GetReply * World := lift (Sim.get url).

Definition list_ (zoneID recordName : string) (w : World)
  : ApiReply (list DNSRecord) * World :=
  match outage w with
  | O => lift (Sim.list_ zoneID recordName) w
  | S k => (ApiError (ErrTransport "connection reset"), mkWorld (inner w) k)
  end.

Definition put (zoneID recordID : string) (req : DNSRecordUpdateRequest)
  : World -> ApiReply UpdateResult * World := lift (Sim.put zoneID recordID req).

Definition post (zoneID : string) (req : DNSRecordCreateRequest)
  : World -> ApiReply DNSRecord * World := lift (Sim.post zoneID req).

Definition net : Net World := mkNet World get list_ put post.

End SimOutage.


(* ===================================================================== *)
(** * The rest of the resolver, of the client and of the main program *)
(* ===================================================================== *)

(** [headClean s]: no white-space rune starts the byte sequence [s];
    [tailClean s] is the same for the last rune, on the reversed sequence. *)
Definition headClean (s : GoLib.bytes) : Prop :=
  match s with
  | [] => True
  | a :: r =>
      GoLib.asciiSpace a = false
      /\ match r with
         | [] => True
         | b :: r2 =>
             GoLib.space2 a b = false
             /\ match r2 with
                | [] => True
                | c :: _ => GoLib.space3 a b c = false
                end
         end
  end.

Definition tailClean (s : GoLib.bytes) : Prop :=
  match s with
  | [] => True
  | a :: r =>
      GoLib.asciiSpace a = false
      /\ match r with
         | [] => True
         | b :: r2 =>
             GoLib.space2 b a = false
             /\ match r2 with
                | [] => True
                | c :: _ => GoLib.space3 c b a = false
                end
         end
  end.

(** [type CloudflareClient struct]; of the [http.Client] only the timeout,
    in seconds, is kept. *)
Record CloudflareClient : Type := mkClient {
  apiToken : string;
  clientTimeout : Z;
  baseURL : string
}.

(** Errors of the start-up and configuration code. *)
Inductive setupError : Type :=
| ErrTokenEmpty                      (* API Token must not be empty *)
| ErrZoneEmpty                       (* Zone ID must not be empty *)
| ErrNameEmpty                       (* record name must not be empty *)
| ErrBadRecordType                   (* record type must be A or AAAA *)
| ErrClientInit (cause : setupError) (* initialising the client failed *)
| ErrAPIUnreachable (cause : error). (* the API cannot be reached or the configuration is wrong *)

Definition NewCloudflareClient (token : string)
  : option CloudflareClient * option setupError :=
  if String.eqb token "" then (None, Some ErrTokenEmpty)
  else (Some {| apiToken := token; clientTimeout := 30;
                baseURL := "https://api.cloudflare.com/client/v4" |}, None).

(** The package variables [config] and [cfClient]. *)
Record Globals : Type := mkGlobals {
  g_config : Config;
  g_cfClient : option CloudflareClient
}.

(** The condition [c.APIToken == "" || c.ZoneID == "" || c.RecordName == ""]. *)
Definition incomplete (c : Config) : bool :=
  (String.eqb (APIToken c) "" || String.eqb (ZoneID c) ""
   || String.eqb (RecordName c) "")%bool.

(** Lines logged by [reloadConfig]. *)
Inductive ReloadLog : Type :=
| ReloadInvalidKeptOld
| ReloadClientInitFailed (err : option setupError)
| ReloadClientReinitialised
| ReloadDone.

(** [reloadConfig], given what [LoadConfig] returned; [None] as result is
    the panic of a nil dereference. *)
Definition reloadConfigWith (loaded : option Config) (g : Globals)
  : option (Globals * list ReloadLog) :=
  match loaded with
  | None => None
  | Some newConfig =>
      if incomplete newConfig then Some (g, [ReloadInvalidKeptOld])
      else if negb (String.eqb (APIToken newConfig) (APIToken (g_config g))) then
        match NewCloudflareClient (APIToken newConfig) with
        | (client, Some e) =>
            Some (mkGlobals (g_config g) client, [ReloadClientInitFailed (Some e)])
        | (client, None) =>
            Some (mkGlobals newConfig client, [ReloadClientReinitialised; ReloadDone])
        end
      else Some (mkGlobals newConfig (g_cfClient g), [ReloadDone])
  end.

(** [clientMatches g]: the client holds the token of the configuration. *)
Definition clientMatches (g : Globals) : Prop :=
  exists client, g_cfClient g = Some client /\ apiToken client = APIToken (g_config g).

(** The record types [verifyConfig] lets through. *)
Definition knownRecordType (c : Config) : bool :=
  (String.eqb (RecordType c) "A" || String.eqb (RecordType c) "AAAA")%bool.

Section ConfigStore.

(** The file system behind [config.go]: a state [FS] and the calls of
    package [os] on it; permissions are passed as the source writes them. *)
Variable FS : Type.
Variable UserHomeDir : string * option string.
Variable MkdirAll : string -> Z -> FS -> option string * FS.
Variable ReadFile : string -> FS -> string * option string.
Variable WriteFile : string -> string -> Z -> FS -> option string * FS.
Variable Remove : string -> FS -> option string * FS.

(** [os.Stat] followed by [os.IsNotExist] on its error. *)
Inductive StatResult : Type :=
| StatFound
| StatNotExist
| StatOtherError (err : string).

Variable Stat : string -> FS -> StatResult.
Variable filepath_Join : list string -> string.
Variable filepath_Dir : string -> string.
Variable json_MarshalIndent : Config -> string * option string.
Variable json_Unmarshal : string -> Config -> Config * option string.

Inductive configError : Type :=
| ErrCreateDir (cause : string)
| ErrMarshal (cause : string)
| ErrWriteFile (cause : string)
| ErrRemoveFile (cause : string).

Definition configPath : string := getConfigPath UserHomeDir filepath_Join.

(** [LoadConfig] on the file system: the directory is created first, the
    file is read in the state that leaves. *)
Definition LoadConfigIn (fs : FS) : (option Config * list Warning) * FS :=
  let fs1 := snd (MkdirAll (filepath_Dir configPath) 493 fs) in
  (LoadConfig UserHomeDir
              (fun dir => fst (MkdirAll dir 493 fs))
              (fun path => ReadFile path fs1)
              filepath_Join filepath_Dir json_Unmarshal,
   fs1).

Definition SaveConfig (config : Config) (fs : FS) : option configError * FS :=
  let configDir := filepath_Dir configPath in
  match MkdirAll configDir 493 fs with
  | (Some e, fs1) => (Some (ErrCreateDir e), fs1)
  | (None, fs1) =>
      match json_MarshalIndent config with
      | (_, Some e) => (Some (ErrMarshal e), fs1)
      | (data, None) =>
          match WriteFile configPath data 384 fs1 with
          | (Some e, fs2) => (Some (ErrWriteFile e), fs2)
          | (None, fs2) => (None, fs2)
          end
      end
  end.

Definition DeleteConfig (fs : FS) : option configError * FS :=
  match Stat configPath fs with
  | StatNotExist => (None, fs)
  | _ =>
      match Remove configPath fs with
      | (Some e, fs1) => (Some (ErrRemoveFile e), fs1)
      | (None, fs1) => (None, fs1)
      end
  end.

(** [reloadConfig] of the main program, reading the file. *)
Definition reloadConfig (g : Globals) (fs : FS)
  : option (Globals * list ReloadLog) * FS :=
  let '(loaded, _, fs1) := LoadConfigIn fs in
  (reloadConfigWith loaded g, fs1).

End ConfigStore.

Section MoreEngine.

Context {W : Type}.
Variable net : Net W.

Notation "x <- c ;; k" := (bind c (fun x => k))
  (at level 100, c at next level, right associativity).
Notation "' pat <- c ;; k" := (bind c (fun x => match x with pat => k end))
  (at level 100, pat pattern, c at next level, right associativity).
Notation "c ;;; k" := (bind c (fun _ => k))
  (at level 100, right associativity).

(** ** ipchecker.go: [GetPublicIP] *)

Fixpoint tryServicesIP (primary : string) (svcs : list string)
         (lastErr : option error) : @M W (string * option error) :=
  match svcs with
  | [] => ret ("", Some (ErrAllServicesFailed lastErr))
  | service :: rest =>
      if String.eqb service primary then tryServicesIP primary rest lastErr
      else
        '(ip, err) <- getIPFromService net service ;;
        if accepted ip err then ret (ip, None)
        else tryServicesIP primary rest err
  end.

Definition GetPublicIP (ic : IPChecker) : @M W (string * option error) :=
  '(ip, err) <- getIPFromService net (primaryService ic) ;;
  if accepted ip err then ret (ip, None)
  else tryServicesIP (primaryService ic) (services ic) None.

(** ** The Cloudflare client: the two remaining lookups *)

Definition GetCurrentDNSRecord (zoneID recordName recordType : string)
  : @M W (string * option error) :=
  '(records, err) <- ListDNSRecords net zoneID recordName ;;
  match err with
  | Some e => ret ("", Some (ErrLookupFailed e))
  | None =>
      match find (hasType recordType) records with
      | Some record => ret (Content record, None)
      | None => ret ("", Some (ErrNoRecordOfType recordType))
      end
  end.

Definition FindOrCreateDNSRecord (zoneID recordName recordType content : string)
           (ttl : Z) : @M W (option DNSRecord * option error) :=
  '(records, err) <- GetAllDNSRecords net zoneID recordName recordType ;;
  match err with
  | Some _ => CreateDNSRecord net zoneID recordName recordType content ttl
  | None =>
      match find (hasContent content) records with
      | Some record => ret (Some record, None)
      | None => CreateDNSRecord net zoneID recordName recordType content ttl
      end
  end.

(** ** The main program: [verifyConfig] and [updateDNSNow] *)

Definition verifyConfig (g : Globals) : @M W (option setupError * Globals) :=
  let config := g_config g in
  if String.eqb (APIToken config) "" then ret (Some ErrTokenEmpty, g)
  else if String.eqb (ZoneID config) "" then ret (Some ErrZoneEmpty, g)
  else if String.eqb (RecordName config) "" then ret (Some ErrNameEmpty, g)
  else if (negb (String.eqb (RecordType config) "A")
           && negb (String.eqb (RecordType config) "AAAA"))%bool
  then ret (Some ErrBadRecordType, g)
  else
    let init :=
      match g_cfClient g with
      | Some _ => (g, None)
      | None =>
          let (client, err) := NewCloudflareClient (APIToken config) in
          (mkGlobals config client, err)
      end in
    match snd init with
    | Some e => ret (Some (ErrClientInit e), fst init)
    | None =>
        '(_, err) <- ListDNSRecords net (ZoneID config) (RecordName config) ;;
        match err with
        | Some e => ret (Some (ErrAPIUnreachable e), fst init)
        | None => ret (None, fst init)
        end
    end.

(** Lines printed by [updateDNSNow]. *)
Inductive Printed : Type :=
| PrintFetching
| PrintResolveFailed (err : option error)
| PrintCurrentIP (ip service : string)
| PrintUpdating (name : string)
| PrintUpdateFailed (err : option error)
| PrintUpdated (name ip : string).

(** [updateDNSNow]; the value is what it printed, in order. *)
Definition updateDNSNow (config : Config) (ipChecker : IPChecker)
  : @M W (list Printed) :=
  '(ip, service, err) <- GetPublicIPWithService net ipChecker ;;
  match err with
  | Some _ => ret [PrintFetching; PrintResolveFailed err]
  | None =>
      err <- UpdateDNSRecord net (ZoneID config) (RecordName config)
               (RecordType config) ip ;;
      match err with
      | Some _ =>
          ret [PrintFetching; PrintCurrentIP ip service;
               PrintUpdating (RecordName config); PrintUpdateFailed err]
      | None =>
          setCurrentIP ip ;;;
          ret [PrintFetching; PrintCurrentIP ip service;
               PrintUpdating (RecordName config);
               PrintUpdated (RecordName config) ip]
      end
  end.

(** ** Measures on traces *)

(** Seconds slept. *)
Definition sleptOf (t : list Event) : Z :=
  fold_right (fun e acc => match e with Slept n => n + acc | _ => acc end) 0 t.

(** Requests sent to the discovery service [url]. *)
Definition queriesTo (url : string) (t : list Event) : nat :=
  List.length (filter (fun c => match c with
                                | CallService u => String.eqb u url
                                | _ => false
                                end) (callsOf t)).

(** [callsOnly t]: the events [t] are requests, no log line and no sleep. *)
Definition callsOnly (t : list Event) : Prop :=
  Forall (fun e => match e with Called _ => True | _ => False end) t.

(** [carries zoneID recordType recordName content c]: if [c] writes, it
    writes [content] under the given zone, type and name. *)
Definition carries (zoneID recordType recordName content : string) (c : Call) : Prop :=
  match c with
  | CallPut z _ req =>
      z = zoneID /\ upd_Type req = recordType /\ upd_Name req = recordName
      /\ upd_Content req = content
  | CallPost z req =>
      z = zoneID /\ cre_Type req = recordType /\ cre_Name req = recordName
      /\ cre_Content req = content
  | _ => True
  end.

(** [writing ... n st r]: the run [r], started in [st], sent at most [n]
    writes, all of them carrying [content], and left [currentIP] as it
    was. *)
Definition writing {A} (zoneID recordType recordName content : string) (n : nat)
           (st : State W) (r : Run W A) : Prop :=
  Forall (carries zoneID recordType recordName content) (mutations (trace r))
  /\ (List.length (mutations (trace r)) <= n)%nat
  /\ currentIP (final r) = currentIP st.

End MoreEngine.

Arguments GetPublicIP : simpl never.
Arguments GetCurrentDNSRecord : simpl never.
Arguments FindOrCreateDNSRecord : simpl never.
Arguments verifyConfig : simpl never.
Arguments updateDNSNow : simpl never.

(** A file system for concrete runs: the content of each path, if any;
    directories always exist. *)
Module SimFS.

Definition FS : Type := string -> option string.

Definition empty : FS := fun _ => None.

Definition MkdirAll (dir : string) (perm : Z) (fs : FS) : option string * FS :=
  (None, fs).

Definition ReadFile (path : string) (fs : FS) : string * option string :=
  match fs path with
  | Some data => (data, None)
  | None => ("", Some "no such file")
  end.

Definition WriteFile (path data : string) (perm : Z) (fs : FS) : option string * FS :=
  (None, fun p => if String.eqb p path then Some data else fs p).

Definition Remove (path : string) (fs : FS) : option string * FS :=
  match fs path with
  | Some _ => (None, fun p => if String.eqb p path then None else fs p)
  | None => (Some "no such file", fs)
  end.

Definition Stat (path : string) (fs : FS) : StatResult :=
  match fs path with
  | Some _ => StatFound
  | None => StatNotExist
  end.

Definition home : string * option string := ("/root", None).

Definition Join (parts : list string) : string := String.concat "/" parts.

Definition Dir (path : string) : string := "/root/.go_dns_manager".

(** A codec that knows one configuration. *)
Definition sample : Config := mkConfig "token" "zone" "host.example.com" "".

Definition MarshalIndent (c : Config) : string * option string := ("{sample}", None).

Definition Unmarshal (data : string) (c : Config) : Config * option string :=
  if String.eqb data "{sample}" then (sample, None) else (c, Some "invalid character").

End SimFS.

(** The functions of the engine are unfolded by name only. *)
Arguments getIPFromService : simpl never.
Arguments GetPublicIPWithService : simpl never.
Arguments ListDNSRecords : simpl never.
Arguments GetAllDNSRecords : simpl never.
Arguments UpdateDNSRecord : simpl never.
Arguments CreateDNSRecord : simpl never.
Arguments UpdateOrCreateDNSRecord : simpl never.
Arguments observe : simpl never.
Arguments confirm : simpl never.
Arguments inspect : simpl never.
Arguments mutate : simpl never.
Arguments verify : simpl never.
Arguments applyChange : simpl never.
Arguments reconcile : simpl never.
Arguments checkAndUpdate : simpl never.

(** Closed facts about concrete runs are settled by evaluation. *)
Ltac evaluate := vm_compute; first [reflexivity | discriminate].

(* ===================================================================== *)
(** * Properties *)
(* ===================================================================== *)

(** ** Traces *)

Lemma Some_not_None {A} (a : A) : Some a <> None.
Proof. discriminate. Qed.

Lemma eqb_neq_false (a b : string) : a <> b -> String.eqb a b = false.
Proof. intros H. now apply String.eqb_neq. Qed.

Lemma callsOf_app (a b : list Event) : callsOf (a ++ b) = callsOf a ++ callsOf b.
Proof. unfold callsOf. now rewrite flat_map_app. Qed.

Lemma providerCalls_app (a b : list Event) :
  providerCalls (a ++ b) = providerCalls a ++ providerCalls b.
Proof. unfold providerCalls. now rewrite callsOf_app, filter_app. Qed.

Lemma mutations_app (a b : list Event) : mutations (a ++ b) = mutations a ++ mutations b.
Proof. unfold mutations. now rewrite callsOf_app, filter_app. Qed.

Lemma mutation_is_provider_call (c : Call) : isMutation c = true -> isProviderCall c = true.
Proof. now destruct c. Qed.

Lemma no_provider_call_no_mutation (t : list Event) :
  providerCalls t = [] -> mutations t = [].
Proof.
  unfold providerCalls, mutations. induction (callsOf t) as [|c l IH]; simpl; auto.
  destruct (isProviderCall c) eqn:E; try discriminate.
  intros H. destruct (isMutation c) eqn:E'.
  - apply mutation_is_provider_call in E'. congruence.
  - auto.
Qed.


Section Properties.

Context {W : Type}.
Variable net : Net W.

(** ** The monad *)

Lemma bind_run {A B} (c : M A) (k : A -> M B) (st s : State W) (v : A)
      (t : list Event) :
  c st = mkRun v s t ->
  bind c k st = mkRun (value (k v s)) (final (k v s)) (t ++ trace (k v s)).
Proof. intros E. unfold bind. rewrite E. reflexivity. Qed.

(** ** The resolver *)

(** One attempt issues one request, leaves [currentIP] alone, and yields
    either a non-empty validated address and no error, or the empty string
    and an error. *)
Lemma getIPFromService_spec (url : string) (st : State W) :
  exists v st1,
    getIPFromService net url st = mkRun v st1 [Called (CallService url)]
    /\ currentIP st1 = currentIP st
    /\ ((exists ip, v = (ip, None) /\ ip <> "" /\ isValidIPv4 ip = true)
        \/ (exists e, v = ("", Some e))).
Proof.
  unfold getIPFromService, bind, request.
  destruct (httpGet net url (world st)) as [resp w']; simpl.
  destruct resp as [e|status body]; simpl; [now eauto 8|].
  destruct (negb (status =? 200)); simpl; [now eauto 8|].
  destruct body; simpl; [|now eauto 8].
  destruct (String.eqb _ _) eqn:E1; simpl; [now eauto 8|].
  destruct (isValidIPv4 _) eqn:E2; simpl; [|now eauto 8].
  do 2 eexists. split; [reflexivity|]. split; [reflexivity|].
  left. eexists. split; [reflexivity|]. split; auto.
  intros H. rewrite H in E1. discriminate.
Qed.

(** What an accepted answer is: status 200, a readable body, and the
    trimmed body passes [isValidIPv4]; the address returned is the trimmed
    body itself. *)
Lemma getIPFromService_accepts_only_validated (url ip : string) (st : State W) :
  value (getIPFromService net url st) = (ip, None) ->
  exists b,
    fst (httpGet net url (world st)) = GetResponse 200 (BodyBytes b)
    /\ ip = GoLib.TrimSpace b
    /\ isValidIPv4 (GoLib.TrimSpace b) = true.
Proof.
  unfold getIPFromService, bind, request.
  destruct (httpGet net url (world st)) as [resp w']; simpl.
  destruct resp as [e|status body]; simpl; [discriminate|].
  destruct (status =? 200) eqn:Es; simpl; [|discriminate].
  apply Z.eqb_eq in Es. subst status.
  destruct body as [b|e]; simpl; [|discriminate].
  destruct (String.eqb _ _); simpl; [discriminate|].
  destruct (isValidIPv4 _) eqn:Ev; simpl; [|discriminate].
  intros H. inversion H; subst. exists b. auto.
Qed.

Lemma accepted_valid (ip : string) :
  ip <> "" -> isValidIPv4 ip = true -> accepted ip None = true.
Proof.
  intros Hne Hv. unfold accepted. rewrite Hv. simpl.
  destruct (String.eqb ip "") eqn:E; auto.
  apply String.eqb_eq in E. contradiction.
Qed.

(** The loop skips the primary: it runs over [otherServices]. *)
Lemma tryServices_skips_primary (primary : string) (svcs : list string)
      (last : option error) (st : State W) :
  tryServices net primary svcs last st
  = tryServices net primary
      (filter (fun s => negb (String.eqb s primary)) svcs) last st.
Proof.
  revert last st. induction svcs as [|s svcs IH]; intros last st; simpl; auto.
  destruct (String.eqb s primary) eqn:E; simpl.
  - apply IH.
  - rewrite E. unfold bind.
    destruct (value (getIPFromService net s st)) as [ip err].
    destruct (accepted ip err); auto.
    now rewrite IH.
Qed.

Lemma TryInOrder_last_irrelevant (url : string) (urls : list string) (st st' : State W)
      (last last' : option error) r (tried : list string) :
  TryInOrder net (url :: urls) st last r st' tried ->
  TryInOrder net (url :: urls) st last' r st' tried.
Proof.
  intros H. inversion H; subst.
  - eapply TryHit; eauto.
  - eapply TryMiss; eauto.
Qed.

Lemma TryInOrder_prefix (urls : list string) (st st' : State W) (last : option error)
      r (tried : list string) :
  TryInOrder net urls st last r st' tried ->
  (exists rest, urls = tried ++ rest)
  /\ (snd r <> None -> tried = urls).
Proof.
  induction 1 as [st last|url urls st last ip st1 t Hrun Hv
                  |url urls st last e st1 t r st2 tried Hrun Hrest [[rest IH1] IH2]].
  - split; [now exists []|auto].
  - split; [now exists urls|]. simpl. congruence.
  - split.
    + exists rest. simpl. now rewrite IH1.
    + intros Hr. now rewrite (IH2 Hr).
Qed.

Lemma TryInOrder_currentIP (urls : list string) (st st' : State W) (last : option error)
      r (tried : list string) :
  TryInOrder net urls st last r st' tried -> currentIP st' = currentIP st.
Proof.
  induction 1 as [st last|url urls st last ip st1 t Hrun Hv
                  |url urls st last e st1 t r st2 tried Hrun Hrest IH]; auto.
  - destruct (getIPFromService_spec url st) as (v & s & E & Hc & _).
    rewrite E in Hrun. now inversion Hrun; subst.
  - destruct (getIPFromService_spec url st) as (v & s & E & Hc & _).
    rewrite E in Hrun. inversion Hrun; subst. congruence.
Qed.

Lemma tryServices_in_order (primary : string) (urls : list string) :
  forallb (fun s => negb (String.eqb s primary)) urls = true ->
  forall (last : option error) (st : State W),
  exists r st' tried,
    tryServices net primary urls last st
    = mkRun r st' (map (fun url => Called (CallService url)) tried)
    /\ TryInOrder net urls st last r st' tried.
Proof.
  induction urls as [|url urls IH]; intros Hne last st.
  - exists ("", "", Some (ErrAllServicesFailed last)), st, [].
    split; [reflexivity|constructor].
  - cbn [forallb] in Hne. apply andb_true_iff in Hne. destruct Hne as [Hu Hne].
    apply negb_true_iff in Hu. cbn [tryServices]. rewrite Hu.
    destruct (getIPFromService_spec url st)
      as (v & st1 & E & Hcur & [(ip & -> & Hnz & Hv)|(e & ->)]);
      unfold bind; rewrite E; cbn [value final trace].
    + rewrite (accepted_valid ip Hnz Hv).
      exists (ip, url, None), st1, [url]. split; [reflexivity|].
      eapply TryHit; eauto.
    + unfold accepted; cbn [isNil andb].
      destruct (IH Hne (Some e) st1) as (r & st' & tried & E' & Hrel).
      rewrite E'. exists r, st', (url :: tried). split; [reflexivity|].
      eapply TryMiss; eauto.
Qed.

Lemma otherServices_not_primary (ic : IPChecker) :
  forallb (fun s => negb (String.eqb s (primaryService ic))) (otherServices ic) = true.
Proof.
  unfold otherServices. apply forallb_forall. intros s Hs.
  now apply filter_In in Hs.
Qed.

(** What [GetPublicIPWithService] does, for any list of services. *)
Lemma GetPublicIPWithService_spec (ic : IPChecker) (st : State W) :
  otherServices ic <> [] ->
  exists r st' tried,
    GetPublicIPWithService net ic st
    = mkRun r st' (map (fun url => Called (CallService url)) tried)
    /\ TryInOrder net (primaryService ic :: otherServices ic) st None r st' tried.
Proof.
  intros Hothers. unfold GetPublicIPWithService.
  destruct (getIPFromService_spec (primaryService ic) st)
    as (v & st1 & E & Hcur & [(ip & -> & Hnz & Hv)|(e & ->)]);
    unfold bind; rewrite E; cbn [value final trace].
  - rewrite (accepted_valid ip Hnz Hv).
    exists (ip, primaryService ic, None), st1, [primaryService ic].
    split; [reflexivity|]. eapply TryHit; eauto.
  - unfold accepted; cbn [isNil andb].
    rewrite tryServices_skips_primary. fold (otherServices ic).
    destruct (tryServices_in_order (primaryService ic) (otherServices ic)
                (otherServices_not_primary ic) None st1)
      as (r & st' & tried & E' & Hrel).
    rewrite E'. exists r, st', (primaryService ic :: tried).
    split; [reflexivity|].
    eapply TryMiss; eauto.
    destruct (otherServices ic) as [|u us]; [contradiction|].
    eapply TryInOrder_last_irrelevant; eauto.
Qed.

(** X23.  The resolver queries the primary endpoint first and returns its
    answer when [getIPFromService] accepts it (status 200 and a body that,
    trimmed, is not empty and passes [isValidIPv4]), without asking anyone
    else; otherwise it asks the remaining endpoints in list order and
    returns the first answer accepted; when all fail the error carries the
    error of the last endpoint asked.  The requests issued are exactly the
    endpoints tried, a prefix of the list primary-then-others, all of it on
    failure. *)
Theorem X23_resolver_tries_in_order (ic : IPChecker) (st : State W) :
  otherServices ic <> [] ->
  let run := GetPublicIPWithService net ic st in
  exists tried,
    TryInOrder net (primaryService ic :: otherServices ic) st None
               (value run) (final run) tried
    /\ trace run = map (fun url => Called (CallService url)) tried
    /\ (exists rest, primaryService ic :: otherServices ic = tried ++ rest)
    /\ (snd (value run) <> None -> tried = primaryService ic :: otherServices ic)
    /\ (forall ip st1 t,
          getIPFromService net (primaryService ic) st = mkRun (ip, None) st1 t ->
          run = mkRun (ip, primaryService ic, None) st1
                      [Called (CallService (primaryService ic))]).
Proof.
  intros Hothers run.
  destruct (GetPublicIPWithService_spec ic st Hothers) as (r & st' & tried & E & Hrel).
  subst run. rewrite E. cbn [value final trace].
  exists tried. split; [exact Hrel|]. split; [reflexivity|].
  destruct (TryInOrder_prefix _ _ _ _ _ _ Hrel) as [Hpre Hall].
  split; [exact Hpre|]. split; [exact Hall|].
  intros ip st1 t Hprim.
  inversion Hrel; subst;
    match goal with
    | H : getIPFromService _ _ _ = _ |- _ => rewrite Hprim in H; inversion H; subst
    end.
  reflexivity.
Qed.

(** ** Frame conditions *)

Lemma quiet_bind {A B} (c : M A) (k : A -> M B) (st : State W) :
  quiet st (c st) ->
  (forall v s, currentIP s = currentIP st -> quiet s (k v s)) ->
  quiet st (bind c k st).
Proof.
  intros [Hc1 Hc2] Hk. destruct (Hk (value (c st)) (final (c st)) Hc2) as [Hk1 Hk2].
  unfold quiet, bind; cbn [trace final]. rewrite providerCalls_app, Hc1, Hk1.
  split; [reflexivity|congruence].
Qed.

Lemma quiet_silent {A} (a : A) (st : State W) (t : list Event) :
  providerCalls t = [] -> quiet st (mkRun a st t).
Proof. intros H. split; auto. Qed.

Lemma quiet_getIPFromService (url : string) (st : State W) :
  quiet st (getIPFromService net url st).
Proof.
  destruct (getIPFromService_spec url st) as (v & st1 & E & Hcur & _).
  rewrite E. split; auto.
Qed.

Lemma quiet_tryServices (primary : string) (svcs : list string) :
  forall (last : option error) (st : State W),
    quiet st (tryServices net primary svcs last st).
Proof.
  induction svcs as [|s svcs IH]; intros last st; cbn [tryServices].
  - now apply quiet_silent.
  - destruct (String.eqb s primary); [apply IH|].
    apply quiet_bind; [apply quiet_getIPFromService|].
    intros [ip err] s1 _. destruct (accepted ip err); [now apply quiet_silent|apply IH].
Qed.

Lemma quiet_GetPublicIPWithService (ic : IPChecker) (st : State W) :
  quiet st (GetPublicIPWithService net ic st).
Proof.
  unfold GetPublicIPWithService.
  apply quiet_bind; [apply quiet_getIPFromService|].
  intros [ip err] s1 _.
  destruct (accepted ip err); [now apply quiet_silent|apply quiet_tryServices].
Qed.

(** A successful resolution yields a non-empty, valid IPv4 address. *)
Lemma tryServices_success (primary : string) (svcs : list string) :
  forall (last : option error) (st : State W) ip svc,
    value (tryServices net primary svcs last st) = (ip, svc, None) ->
    ip <> "" /\ isValidIPv4 ip = true.
Proof.
  induction svcs as [|s svcs IH]; intros last st ip svc; cbn [tryServices].
  - cbn. discriminate.
  - destruct (String.eqb s primary); [apply IH|].
    destruct (getIPFromService_spec s st)
      as (v & st1 & E & _ & [(ip' & -> & Hnz & Hv)|(e & ->)]);
      unfold bind; rewrite E; cbn [value final trace].
    + rewrite (accepted_valid ip' Hnz Hv). cbn. intros H; inversion H; subst; auto.
    + unfold accepted; cbn [isNil andb]. apply IH.
Qed.

Lemma GetPublicIPWithService_success (ic : IPChecker) (st : State W) ip svc :
  value (GetPublicIPWithService net ic st) = (ip, svc, None) ->
  ip <> "" /\ isValidIPv4 ip = true.
Proof.
  unfold GetPublicIPWithService.
  destruct (getIPFromService_spec (primaryService ic) st)
    as (v & st1 & E & _ & [(ip' & -> & Hnz & Hv)|(e & ->)]);
    unfold bind; rewrite E; cbn [value final trace].
  - rewrite (accepted_valid ip' Hnz Hv). cbn. intros H; inversion H; subst; auto.
  - unfold accepted; cbn [isNil andb]. apply tryServices_success.
Qed.

(** ** The Cloudflare client *)

Lemma ListDNSRecords_spec (zoneID recordName : string) (st : State W) :
  exists v st1,
    ListDNSRecords net zoneID recordName st
    = mkRun v st1 [Called (CallList zoneID recordName)]
    /\ currentIP st1 = currentIP st.
Proof.
  unfold ListDNSRecords, bind, request.
  destruct (apiList net zoneID recordName (world st)) as [resp w']; simpl.
  destruct resp as [e|status raw json]; simpl; [now eauto|].
  destruct (negb (status =? 200)); simpl; [now eauto|].
  destruct json as [e|result]; simpl; [now eauto|].
  destruct (negb (Success result)); simpl; now eauto.
Qed.

Lemma GetAllDNSRecords_spec (zoneID recordName recordType : string) (st : State W) :
  exists v st1,
    GetAllDNSRecords net zoneID recordName recordType st
    = mkRun v st1 [Called (CallList zoneID recordName)]
    /\ currentIP st1 = currentIP st
    /\ (snd v <> None -> fst v = []).
Proof.
  unfold GetAllDNSRecords.
  destruct (ListDNSRecords_spec zoneID recordName st) as ([recs err] & st1 & E & Hc).
  unfold bind. rewrite E. cbn [value final trace].
  destruct err; cbn; do 2 eexists; (split; [reflexivity|]); split; auto.
  intros H; contradiction.
Qed.

Lemma CreateDNSRecord_spec (zoneID recordName recordType content : string) (ttl : Z)
      (st : State W) :
  exists v st1,
    CreateDNSRecord net zoneID recordName recordType content ttl st
    = mkRun v st1
        [Called (CallPost zoneID (mkCreateReq recordType recordName content ttl))]
    /\ currentIP st1 = currentIP st.
Proof.
  unfold CreateDNSRecord, bind, request.
  destruct (apiPost net zoneID _ (world st)) as [resp w']; simpl.
  destruct resp as [e|status raw json]; simpl; [now eauto|].
  destruct (negb (status =? 200)); simpl; [now eauto|].
  destruct json as [e|result]; simpl; [now eauto|].
  destruct (negb (Success result)); simpl; now eauto.
Qed.

(** A create call that the provider answers with status 200 and
    [success = true] returns the new record and no error. *)
Lemma CreateDNSRecord_success (zoneID recordName recordType content : string) (ttl : Z)
      (st : State W) (raw : string) (env : Envelope DNSRecord) (w' : W) :
  apiPost net zoneID (mkCreateReq recordType recordName content ttl) (world st)
  = (ApiResponse 200 raw (inr env), w') ->
  Success env = true ->
  CreateDNSRecord net zoneID recordName recordType content ttl st
  = mkRun (Some (Result env), None) (mkState w' (currentIP st))
      [Called (CallPost zoneID (mkCreateReq recordType recordName content ttl))].
Proof.
  intros Hpost Hok. unfold CreateDNSRecord, bind, request. rewrite Hpost. cbn.
  rewrite Hok. reflexivity.
Qed.

Lemma UpdateDNSRecord_spec (zoneID recordName recordType content : string)
      (st : State W) :
  exists v st1 t,
    UpdateDNSRecord net zoneID recordName recordType content st = mkRun v st1 t
    /\ currentIP st1 = currentIP st
    /\ filter isPost (callsOf t) = [].
Proof.
  unfold UpdateDNSRecord.
  destruct (ListDNSRecords_spec zoneID recordName st) as ([recs err] & st1 & E & Hc).
  unfold bind at 1. rewrite E. cbn [value final trace].
  destruct err; cbn; [now eauto 6|].
  destruct (List.length recs =? 0)%nat; cbn; [now eauto 6|].
  destruct (find (hasType recordType) recs) as [target|]; cbn; [|now eauto 6].
  destruct (String.eqb (Content target) content); cbn; [now eauto 6|].
  unfold bind, request.
  destruct (apiPut net zoneID (ID target) _ (world st1)) as [resp w']; cbn.
  destruct resp as [e|status raw json]; cbn; [now eauto 6|].
  destruct (negb (status =? 200)); cbn; [now eauto 6|].
  destruct json as [e|result]; cbn; [now eauto 6|].
  destruct (negb (Success result)); cbn; [now eauto 6|].
  destruct (negb (String.eqb _ content)); cbn; now eauto 6.
Qed.

(** C7.  An update call whose write is answered with status 200 and
    [success = true] returns an error exactly when the content echoed in
    the answer differs from the content requested; the error is the
    content mismatch. *)
Theorem C7_update_checks_echoed_content
        (zoneID recordName recordType content : string) (st st1 : State W)
        (records : list DNSRecord) (t1 : list Event) (target : DNSRecord)
        (raw : string) (env : Envelope UpdateResult) (w2 : W) :
  ListDNSRecords net zoneID recordName st = mkRun (records, None) st1 t1 ->
  find (hasType recordType) records = Some target ->
  Content target <> content ->
  let req := mkUpdateReq recordType recordName content (TTL target) in
  apiPut net zoneID (ID target) req (world st1) = (ApiResponse 200 raw (inr env), w2) ->
  Success env = true ->
  let run := UpdateDNSRecord net zoneID recordName recordType content st in
  trace run = t1 ++ [Called (CallPut zoneID (ID target) req)]
  /\ (value run <> None <-> res_Content (Result env) <> content)
  /\ (res_Content (Result env) <> content ->
      value run = Some (ErrContentMismatch content (res_Content (Result env)))).
Proof.
  intros Hlist Hfind Hdiff req Hput Hok run.
  assert (Hlen : (List.length records =? 0)%nat = false).
  { destruct records; [discriminate|reflexivity]. }
  assert (E : run = mkRun
                (if String.eqb (res_Content (Result env)) content then None
                 else Some (ErrContentMismatch content (res_Content (Result env))))
                (mkState w2 (currentIP st1))
                (t1 ++ [Called (CallPut zoneID (ID target) req)])).
  { subst run. unfold UpdateDNSRecord, bind at 1. rewrite Hlist. cbn [value final trace].
    rewrite Hlen, Hfind, (eqb_neq_false _ _ Hdiff).
    unfold bind, request. fold req. rewrite Hput. cbn. rewrite Hok. cbn.
    destruct (String.eqb (res_Content (Result env)) content); reflexivity. }
  rewrite E. cbn [value trace]. split; [reflexivity|].
  destruct (String.eqb (res_Content (Result env)) content) eqn:Eq.
  - apply String.eqb_eq in Eq. split; [|contradiction].
    split; intros H; [now contradiction H|contradiction].
  - apply String.eqb_neq in Eq. split; [|reflexivity].
    split; intros _; [exact Eq|discriminate].
Qed.

Lemma onlyCreates_app (zoneID : string) (req : DNSRecordCreateRequest)
      (a b : list Event) :
  onlyCreates zoneID req a -> onlyCreates zoneID req b ->
  onlyCreates zoneID req (a ++ b).
Proof.
  unfold onlyCreates. intros Ha Hb.
  rewrite callsOf_app, filter_app. apply Forall_app. now split.
Qed.

Lemma onlyCreates_no_post (zoneID : string) (req : DNSRecordCreateRequest)
      (t : list Event) :
  filter isPost (callsOf t) = [] -> onlyCreates zoneID req t.
Proof. unfold onlyCreates. intros ->. constructor. Qed.

Lemma no_provider_call_no_post (t : list Event) :
  providerCalls t = [] -> filter isPost (callsOf t) = [].
Proof.
  unfold providerCalls. induction (callsOf t) as [|c l IH]; simpl; auto.
  destruct (isProviderCall c) eqn:E; try discriminate.
  intros H. destruct c; try discriminate. simpl. auto.
Qed.

Lemma onlyCreates_In (zoneID : string) (req : DNSRecordCreateRequest)
      (t : list Event) (z : string) (r : DNSRecordCreateRequest) :
  onlyCreates zoneID req t -> In (CallPost z r) (callsOf t) ->
  z = zoneID /\ r = req.
Proof.
  unfold onlyCreates. intros H Hin.
  rewrite Forall_forall in H.
  assert (E : CallPost z r = CallPost zoneID req).
  { apply H. apply filter_In. split; auto. }
  inversion E; auto.
Qed.

Lemma creating_bind {A B} (zoneID : string) (req : DNSRecordCreateRequest)
      (c : M A) (k : A -> M B) (st : State W) :
  creating zoneID req st (c st) ->
  (forall v s, currentIP s = currentIP st -> creating zoneID req s (k v s)) ->
  creating zoneID req st (bind c k st).
Proof.
  intros [Hc1 Hc2] Hk. destruct (Hk (value (c st)) (final (c st)) Hc2) as [Hk1 Hk2].
  unfold creating, bind; cbn [trace final].
  split; [now apply onlyCreates_app|congruence].
Qed.

Lemma creating_silent {A} (zoneID : string) (req : DNSRecordCreateRequest)
      (a : A) (st : State W) (t : list Event) :
  filter isPost (callsOf t) = [] -> creating zoneID req st (mkRun a st t).
Proof. intros H. split; auto. now apply onlyCreates_no_post. Qed.

Lemma creating_GetAllDNSRecords zoneID req (zone name type : string) (st : State W) :
  creating zoneID req st (GetAllDNSRecords net zone name type st).
Proof.
  destruct (GetAllDNSRecords_spec zone name type st) as (v & st1 & E & Hc & _).
  rewrite E. split; auto. now apply onlyCreates_no_post.
Qed.

Lemma creating_CreateDNSRecord (zone name type content : string) (ttl : Z)
      (st : State W) :
  creating zone (mkCreateReq type name content ttl) st
           (CreateDNSRecord net zone name type content ttl st).
Proof.
  destruct (CreateDNSRecord_spec zone name type content ttl st) as (v & st1 & E & Hc).
  rewrite E. split; auto. unfold onlyCreates. cbn. now constructor.
Qed.

Lemma creating_UpdateDNSRecord zoneID req (zone name type content : string)
      (st : State W) :
  creating zoneID req st (UpdateDNSRecord net zone name type content st).
Proof.
  destruct (UpdateDNSRecord_spec zone name type content st) as (v & st1 & t & E & Hc & Hp).
  rewrite E. split; auto. now apply onlyCreates_no_post.
Qed.

(** [UpdateOrCreateDNSRecord] creates nothing but the record it was asked
    for, with the TTL it was given. *)
Lemma creating_UpdateOrCreateDNSRecord (zone name type content : string) (ttl : Z)
      (oldIP : string) (st : State W) :
  creating zone (mkCreateReq type name content ttl) st
           (UpdateOrCreateDNSRecord net zone name type content ttl oldIP st).
Proof.
  unfold UpdateOrCreateDNSRecord.
  apply creating_bind; [apply creating_GetAllDNSRecords|].
  intros [records err] s1 _.
  destruct (negb (isNil err) || (List.length records =? 0)%nat)%bool.
  { apply creating_bind; [apply creating_CreateDNSRecord|].
    intros [? ?] s2 _. now apply creating_silent. }
  destruct (existsb (hasContent content) records); [now apply creating_silent|].
  destruct (negb (String.eqb oldIP "") && existsb (hasContent oldIP) records)%bool.
  { apply creating_UpdateDNSRecord. }
  apply creating_bind; [apply creating_CreateDNSRecord|].
  intros [? ?] s2 _. now apply creating_silent.
Qed.

(** With no record of the type listed (or a failed listing) and a provider
    that accepts the create request, [UpdateOrCreateDNSRecord] lists,
    creates, and returns no error. *)
Lemma UpdateOrCreateDNSRecord_creates
      (zone name type content : string) (ttl : Z) (oldIP : string)
      (st st4 : State W) (recs2 : list DNSRecord) (err2 : option error)
      (t4 : list Event) (raw : string) (env : Envelope DNSRecord) (w5 : W) :
  GetAllDNSRecords net zone name type st = mkRun (recs2, err2) st4 t4 ->
  err2 <> None \/ recs2 = [] ->
  apiPost net zone (mkCreateReq type name content ttl) (world st4)
  = (ApiResponse 200 raw (inr env), w5) ->
  Success env = true ->
  UpdateOrCreateDNSRecord net zone name type content ttl oldIP st
  = mkRun None (mkState w5 (currentIP st4))
      (t4 ++ [Called (CallPost zone (mkCreateReq type name content ttl))]).
Proof.
  intros Hget Hempty Hpost Hok.
  assert (Hc : (negb (isNil err2) || (List.length recs2 =? 0)%nat)%bool = true).
  { destruct Hempty as [He| ->].
    - destruct err2; [reflexivity|contradiction].
    - apply orb_true_r. }
  unfold UpdateOrCreateDNSRecord. rewrite (bind_run _ _ _ _ _ _ Hget).
  cbn beta iota. rewrite Hc.
  rewrite (bind_run _ _ _ _ _ _ (CreateDNSRecord_success _ _ _ _ _ _ _ _ _ Hpost Hok)).
  cbn. reflexivity.
Qed.

Lemma no_mutation_no_post (t : list Event) :
  mutations t = [] -> filter isPost (callsOf t) = [].
Proof.
  unfold mutations. induction (callsOf t) as [|c cs IH]; [reflexivity|].
  destruct c; cbn; intros H; try discriminate; auto.
Qed.

(** The create branches of [UpdateOrCreateDNSRecord]: its listing fails or
    is empty, or no listed record holds the content or the old address. *)
Lemma UpdateOrCreateDNSRecord_falls_back
      (zone name type content : string) (ttl : Z) (oldIP : string)
      (st st4 : State W) (recs2 : list DNSRecord) (err2 : option error)
      (t4 : list Event) :
  GetAllDNSRecords net zone name type st = mkRun (recs2, err2) st4 t4 ->
  err2 <> None \/ recs2 = []
  \/ (existsb (hasContent content) recs2 = false
      /\ (oldIP = "" \/ existsb (hasContent oldIP) recs2 = false)) ->
  let cr := CreateDNSRecord net zone name type content ttl st4 in
  UpdateOrCreateDNSRecord net zone name type content ttl oldIP st
  = mkRun (snd (value cr)) (final cr) (t4 ++ trace cr).
Proof.
  intros Hget Hfb cr. subst cr.
  unfold UpdateOrCreateDNSRecord. rewrite (bind_run _ _ _ _ _ _ Hget).
  cbn beta iota.
  assert (Hcr : forall s,
             bind (CreateDNSRecord net zone name type content ttl)
                  (fun x => match x with (_, err) => ret err end) s
             = mkRun (snd (value (CreateDNSRecord net zone name type content ttl s)))
                     (final (CreateDNSRecord net zone name type content ttl s))
                     (trace (CreateDNSRecord net zone name type content ttl s))).
  { intros s. unfold bind.
    destruct (CreateDNSRecord net zone name type content ttl s) as [[rec cerr] s5 t5].
    cbn. now rewrite app_nil_r. }
  destruct (negb (isNil err2) || (List.length recs2 =? 0)%nat)%bool eqn:Hc.
  - rewrite Hcr. reflexivity.
  - destruct Hfb as [He | [-> | [Hex Hold]]].
    + destruct err2; [discriminate Hc|now contradiction He].
    + rewrite orb_true_r in Hc. discriminate.
    + rewrite Hex.
      assert (Hno : (negb (String.eqb oldIP "") && existsb (hasContent oldIP) recs2)%bool
                    = false).
      { destruct Hold as [-> | ->]; [reflexivity|apply andb_false_r]. }
      rewrite Hno, Hcr. reflexivity.
Qed.

Section Cycle.

Variable config : Config.
Variable ipChecker : IPChecker.

Lemma quiet_resolveLoop (remaining : nat) :
  forall (i : Z) r (st : State W),
    quiet st (resolveLoop net ipChecker remaining i r st).
Proof.
  induction remaining as [|k IH]; intros i r st; cbn [resolveLoop].
  - now apply quiet_silent.
  - apply quiet_bind; [apply quiet_GetPublicIPWithService|].
    intros [[ip svc] err] s1 _. cbn [snd].
    destruct err; [|now apply quiet_silent].
    apply quiet_bind.
    + destruct (i <? maxRetries - 1); [|now apply quiet_silent].
      apply quiet_bind; intros; now apply quiet_silent.
    + intros _ s2 _. apply IH.
Qed.

Lemma resolveLoop_success (remaining : nat) :
  forall (i : Z) r (st : State W) ip svc,
    remaining <> O ->
    value (resolveLoop net ipChecker remaining i r st) = (ip, svc, None) ->
    ip <> "" /\ isValidIPv4 ip = true.
Proof.
  induction remaining as [|k IH]; intros i r st ip svc Hpos; [contradiction|].
  cbn [resolveLoop]. unfold bind at 1. cbn [value].
  pose proof (GetPublicIPWithService_success ipChecker st) as Hok.
  destruct (GetPublicIPWithService net ipChecker st) as [[[ip' svc'] err'] s1 t1].
  cbn [value final snd] in *. destruct err' as [e|].
  - destruct k as [|k'].
    + cbn. discriminate.
    + unfold bind at 1. cbn [value]. apply IH. discriminate.
  - cbn. intros H. inversion H; subst. eapply Hok; eauto.
Qed.

Lemma quiet_observe (st : State W) : quiet st (observe net ipChecker st).
Proof.
  unfold observe. apply quiet_bind; [now apply quiet_silent|].
  intros _ s _. apply quiet_resolveLoop.
Qed.

Lemma observe_success (st : State W) ip svc :
  value (observe net ipChecker st) = (ip, svc, None) ->
  ip <> "" /\ isValidIPv4 ip = true.
Proof.
  unfold observe, bind. cbn [value final logInfo].
  apply resolveLoop_success. discriminate.
Qed.

Lemma quiet_confirm (ip : string) (st : State W) :
  quiet st (confirm net ipChecker ip st).
Proof.
  unfold confirm.
  apply quiet_bind; [now apply quiet_silent|]. intros cur s1 _.
  apply quiet_bind; [now apply quiet_silent|]. intros _ s2 _.
  apply quiet_bind; [now apply quiet_silent|]. intros _ s3 _.
  apply quiet_GetPublicIPWithService.
Qed.

Lemma quiet_run {A} (c : M A) (st st1 : State W) (v : A) (t : list Event) :
  quiet st (c st) -> c st = mkRun v st1 t ->
  providerCalls t = [] /\ currentIP st1 = currentIP st.
Proof. intros H E. rewrite E in H. exact H. Qed.

(** *** The phases after the confirmation *)

Lemma inspect_spec (ip : string) (st : State W) :
  exists v st1,
    inspect net config ip st
    = mkRun v st1 [Logged (InfoConfirmed (currentIP st) ip);
                   Called (CallList (ZoneID config) (RecordName config))]
    /\ currentIP st1 = currentIP st
    /\ (snd v <> None -> fst v = []).
Proof.
  unfold inspect, bind. cbn [getCurrentIP logInfo value final trace].
  destruct (GetAllDNSRecords_spec (ZoneID config) (RecordName config)
              (RecordType config) st) as (v & st1 & E & Hc & Hv).
  rewrite E. cbn. eauto.
Qed.

Lemma verify_spec (ip : string) (st : State W) :
  exists st1 l,
    verify net config ip st
    = mkRun tt st1 [Called (CallList (ZoneID config) (RecordName config)); Logged l]
    /\ currentIP st1 = currentIP st.
Proof.
  unfold verify, bind.
  destruct (GetAllDNSRecords_spec (ZoneID config) (RecordName config)
              (RecordType config) st) as ([recs err] & st1 & E & Hc & Hv).
  rewrite E. cbn [value final trace].
  destruct err; cbn; [now eauto|].
  destruct (existsb (hasContent ip) recs); cbn; now eauto.
Qed.

Lemma creating_applyLoop (ip : string) (ttl : Z) (remaining : nat) :
  forall (i : Z) (last : option error) (st : State W),
    creating (ZoneID config)
             (mkCreateReq (RecordType config) (RecordName config) ip ttl) st
             (applyLoop net config ip ttl remaining i last st).
Proof.
  induction remaining as [|k IH]; intros i last st; cbn [applyLoop].
  - now apply creating_silent.
  - apply creating_bind; [now apply creating_silent|]. intros cur s1 _.
    apply creating_bind; [apply creating_UpdateOrCreateDNSRecord|].
    intros err s2 _. destruct err; [|now apply creating_silent].
    apply creating_bind.
    + destruct (i <? maxRetries - 1); [|now apply creating_silent].
      apply creating_bind; intros; now apply creating_silent.
    + intros _ s3 _. apply IH.
Qed.

Lemma creating_mutate (ip : string) (allRecords : list DNSRecord) (st : State W) :
  creating (ZoneID config)
           (mkCreateReq (RecordType config) (RecordName config) ip
                        (defaultTTLOf allRecords)) st
           (mutate net config ip allRecords st).
Proof.
  unfold mutate. apply creating_bind; [now apply creating_silent|].
  intros _ s _. apply creating_applyLoop.
Qed.

Lemma applyLoop_succeeds_at_once (ip : string) (ttl : Z) (k : nat) (i : Z)
      (last : option error) (st s : State W) (t : list Event) :
  UpdateOrCreateDNSRecord net (ZoneID config) (RecordName config) (RecordType config)
                          ip ttl (currentIP st) st
  = mkRun None s t ->
  applyLoop net config ip ttl (S k) i last st = mkRun (true, None) s t.
Proof.
  intros H. cbn [applyLoop].
  rewrite (bind_run getCurrentIP _ st st (currentIP st) [] eq_refl).
  cbn beta. rewrite (bind_run _ _ _ _ _ _ H). cbn. now rewrite app_nil_r.
Qed.

Lemma mutate_succeeds_at_once (ip : string) (allRecords : list DNSRecord)
      (st s : State W) (t : list Event) :
  UpdateOrCreateDNSRecord net (ZoneID config) (RecordName config) (RecordType config)
                          ip (defaultTTLOf allRecords) (currentIP st) st
  = mkRun None s t ->
  mutate net config ip allRecords st
  = mkRun (true, None) s (Logged (InfoApplying (RecordName config) ip) :: t).
Proof.
  intros H. unfold mutate. change (Z.to_nat maxRetries) with 3%nat.
  rewrite (bind_run (logInfo _) _ st st tt _ eq_refl).
  cbn beta. rewrite (applyLoop_succeeds_at_once _ _ _ _ _ _ _ _ H). reflexivity.
Qed.

(** The trace of [applyChange] starts with the first attempt of the
    update-or-create call. *)
Lemma applyChange_first_attempt (ip : string) (allRecords : list DNSRecord)
      (st s : State W) (v : option error) (t : list Event) :
  UpdateOrCreateDNSRecord net (ZoneID config) (RecordName config) (RecordType config)
                          ip (defaultTTLOf allRecords) (currentIP st) st
  = mkRun v s t ->
  exists rest,
    trace (applyChange net config ip allRecords st)
    = Logged (InfoApplying (RecordName config) ip) :: t ++ rest.
Proof.
  intros H. unfold applyChange, bind at 1. cbn [trace].
  unfold mutate. change (Z.to_nat maxRetries) with 3%nat.
  rewrite (bind_run (logInfo _) _ st st tt _ eq_refl).
  cbn beta. cbn [applyLoop].
  rewrite (bind_run getCurrentIP _ st st (currentIP st) [] eq_refl).
  cbn beta. rewrite (bind_run _ _ _ _ _ _ H). cbn [trace app].
  rewrite <- app_assoc. eexists. reflexivity.
Qed.

(** Everything [applyChange] creates is the confirmed address with the
    configured type and name and the default TTL. *)
Lemma applyChange_creates (ip : string) (allRecords : list DNSRecord) (st : State W) :
  onlyCreates (ZoneID config)
              (mkCreateReq (RecordType config) (RecordName config) ip
                           (defaultTTLOf allRecords))
              (trace (applyChange net config ip allRecords st)).
Proof.
  unfold applyChange, bind at 1. cbn [trace].
  destruct (creating_mutate ip allRecords st) as [Hm _].
  apply onlyCreates_app; [exact Hm|].
  destruct (value (mutate net config ip allRecords st)) as [ok lastErr].
  destruct ok; cbn [negb].
  - unfold bind. cbn [trace value final].
    destruct (verify_spec ip (final (mutate net config ip allRecords st)))
      as (s1 & l & E & _).
    rewrite E. cbn. now apply onlyCreates_no_post.
  - now apply onlyCreates_no_post.
Qed.

(** When the mutation succeeded, [applyChange] verifies, logs, and sets
    [currentIP], whatever the verification found. *)
Lemma applyChange_after_success (ip : string) (allRecords : list DNSRecord)
      (st st4 : State W) (lastErr : option error) (t4 : list Event) :
  mutate net config ip allRecords st = mkRun (true, lastErr) st4 t4 ->
  applyChange net config ip allRecords st
  = mkRun tt (mkState (world (final (verify net config ip st4))) ip)
      (t4 ++ trace (verify net config ip st4)
          ++ [Logged (InfoApplied (RecordName config) ip)]).
Proof.
  intros Hm. unfold applyChange, bind. rewrite Hm. cbn. reflexivity.
Qed.

(** The cycle up to the confirmation. *)
Lemma cycle_confirmed
      (st st1 st2 : State W) (ip svc svc2 : string) (t1 t2 : list Event) :
  observe net ipChecker st = mkRun (ip, svc, None) st1 t1 ->
  ip <> currentIP st ->
  confirm net ipChecker ip st1 = mkRun (ip, svc2, None) st2 t2 ->
  checkAndUpdate net config ipChecker st
  = mkRun (value (reconcile net config ip st2)) (final (reconcile net config ip st2))
      (t1 ++ [Logged (InfoCurrentIP ip svc)] ++ t2
          ++ trace (reconcile net config ip st2)).
Proof.
  intros Hobs Hne Hconf.
  destruct (quiet_run _ _ _ _ _ (quiet_observe st) Hobs) as [_ Hc1].
  unfold checkAndUpdate, bind. rewrite Hobs. cbn.
  rewrite Hc1, (eqb_neq_false _ _ Hne), Hconf. cbn.
  rewrite String.eqb_refl. cbn. reflexivity.
Qed.

Lemma reconcile_already_present
      (st2 st3 : State W) (ip : string) (t3 : list Event)
      (allRecords : list DNSRecord) :
  inspect net config ip st2 = mkRun (allRecords, None) st3 t3 ->
  existsb (hasContent ip) allRecords = true ->
  reconcile net config ip st2
  = mkRun tt (mkState (world st3) ip)
      (t3 ++ [Logged (InfoFoundRecords (List.length allRecords));
              Logged (InfoAlreadyPresent ip)]).
Proof.
  intros Hins Hex. unfold reconcile, bind. rewrite Hins. cbn. rewrite Hex. cbn.
  reflexivity.
Qed.

Lemma reconcile_reaches_apply
      (st2 st3 : State W) (ip : string) (t3 : list Event)
      (allRecords : list DNSRecord) (err : option error) :
  inspect net config ip st2 = mkRun (allRecords, err) st3 t3 ->
  err <> None \/ existsb (hasContent ip) allRecords = false ->
  exists l,
    callsOf l = []
    /\ reconcile net config ip st2
       = mkRun tt (final (applyChange net config ip allRecords st3))
           (t3 ++ l ++ trace (applyChange net config ip allRecords st3)).
Proof.
  intros Hins Hmiss. unfold reconcile, bind. rewrite Hins. cbn [value final trace].
  destruct err as [e|].
  - exists [Logged InfoNoExistingRecords]. split; [reflexivity|].
    cbn [logInfo value final trace].
    destruct (value (applyChange net config ip allRecords st3)). reflexivity.
  - destruct Hmiss as [Hmiss|Hmiss]; [contradiction|]. rewrite Hmiss.
    exists [Logged (InfoFoundRecords (List.length allRecords)); Logged InfoNotPresent].
    split; [reflexivity|].
    cbn [logInfo value final trace].
    destruct (value (applyChange net config ip allRecords st3)). reflexivity.
Qed.

(** The cycle up to the inspection of the live records. *)
Lemma cycle_already_present
      (st st1 st2 st3 : State W) (ip svc svc2 : string) (t1 t2 t3 : list Event)
      (allRecords : list DNSRecord) :
  observe net ipChecker st = mkRun (ip, svc, None) st1 t1 ->
  ip <> currentIP st ->
  confirm net ipChecker ip st1 = mkRun (ip, svc2, None) st2 t2 ->
  inspect net config ip st2 = mkRun (allRecords, None) st3 t3 ->
  existsb (hasContent ip) allRecords = true ->
  checkAndUpdate net config ipChecker st
  = mkRun tt (mkState (world st3) ip)
      (t1 ++ [Logged (InfoCurrentIP ip svc)] ++ t2 ++ t3
          ++ [Logged (InfoFoundRecords (List.length allRecords));
              Logged (InfoAlreadyPresent ip)]).
Proof.
  intros Hobs Hne Hconf Hins Hex.
  rewrite (cycle_confirmed _ _ _ _ _ _ _ _ Hobs Hne Hconf).
  rewrite (reconcile_already_present _ _ _ _ _ Hins Hex). reflexivity.
Qed.

Lemma cycle_reaches_apply
      (st st1 st2 st3 : State W) (ip svc svc2 : string) (t1 t2 t3 : list Event)
      (allRecords : list DNSRecord) (err : option error) :
  observe net ipChecker st = mkRun (ip, svc, None) st1 t1 ->
  ip <> currentIP st ->
  confirm net ipChecker ip st1 = mkRun (ip, svc2, None) st2 t2 ->
  inspect net config ip st2 = mkRun (allRecords, err) st3 t3 ->
  err <> None \/ existsb (hasContent ip) allRecords = false ->
  exists l,
    callsOf l = []
    /\ checkAndUpdate net config ipChecker st
       = mkRun tt (final (applyChange net config ip allRecords st3))
           (t1 ++ [Logged (InfoCurrentIP ip svc)] ++ t2 ++ t3 ++ l
               ++ trace (applyChange net config ip allRecords st3)).
Proof.
  intros Hobs Hne Hconf Hins Hmiss.
  destruct (reconcile_reaches_apply _ _ _ _ _ _ Hins Hmiss) as (l & Hl & E).
  exists l. split; [exact Hl|].
  rewrite (cycle_confirmed _ _ _ _ _ _ _ _ Hobs Hne Hconf), E. reflexivity.
Qed.

(** C3.  When the first observation differs from the last applied address
    and the confirmation observes yet another address, the cycle ends
    there: nothing is sent to the provider, so no create and no update,
    and the last applied address is unchanged. *)
Theorem C3_confirmation_mismatch_aborts
        (st st1 st2 : State W) (ip svc ip2 svc2 : string) (t1 t2 : list Event) :
  observe net ipChecker st = mkRun (ip, svc, None) st1 t1 ->
  ip <> currentIP st ->
  confirm net ipChecker ip st1 = mkRun (ip2, svc2, None) st2 t2 ->
  ip2 <> ip ->
  let run := checkAndUpdate net config ipChecker st in
  mutations (trace run) = []
  /\ providerCalls (trace run) = []
  /\ currentIP (final run) = currentIP st.
Proof.
  intros Hobs Hne Hconf Hne2 run.
  destruct (quiet_run _ _ _ _ _ (quiet_observe st) Hobs) as [Hq1 Hc1].
  destruct (quiet_run _ _ _ _ _ (quiet_confirm ip st1) Hconf) as [Hq2 Hc2].
  assert (E : run = mkRun tt st2
                (t1 ++ [Logged (InfoCurrentIP ip svc)] ++ t2
                    ++ [Logged (ErrorConfirmMismatch ip ip2 svc2)])).
  { subst run. unfold checkAndUpdate, bind. rewrite Hobs. cbn.
    rewrite Hc1, (eqb_neq_false _ _ Hne), Hconf. cbn.
    rewrite (eqb_neq_false _ _ Hne2). cbn. reflexivity. }
  rewrite E. cbn [trace final].
  assert (Hp : providerCalls (t1 ++ [Logged (InfoCurrentIP ip svc)] ++ t2
                                 ++ [Logged (ErrorConfirmMismatch ip ip2 svc2)]) = []).
  { rewrite !providerCalls_app, Hq1, Hq2. reflexivity. }
  split; [now apply no_provider_call_no_mutation|].
  split; [exact Hp|congruence].
Qed.

(** C4.  When the observed address equals the last applied address the
    cycle does nothing: no list, create or update request is sent and the
    last applied address stays.  Hence a cycle that follows any other cycle
    and observes the address that cycle left as last applied sends no
    mutation. *)
Theorem C4_unchanged_address_is_noop :
  (forall (st st1 : State W) (ip svc : string) (t1 : list Event),
      observe net ipChecker st = mkRun (ip, svc, None) st1 t1 ->
      ip = currentIP st ->
      let run := checkAndUpdate net config ipChecker st in
      providerCalls (trace run) = []
      /\ currentIP (final run) = currentIP st)
  /\ (forall (st0 st1 : State W) (ip svc : string) (t1 : list Event),
         let first := checkAndUpdate net config ipChecker st0 in
         observe net ipChecker (final first) = mkRun (ip, svc, None) st1 t1 ->
         ip = currentIP (final first) ->
         mutations (trace (checkAndUpdate net config ipChecker (final first))) = []).
Proof.
  assert (Main : forall (st st1 : State W) (ip svc : string) (t1 : list Event),
      observe net ipChecker st = mkRun (ip, svc, None) st1 t1 ->
      ip = currentIP st ->
      let run := checkAndUpdate net config ipChecker st in
      providerCalls (trace run) = []
      /\ currentIP (final run) = currentIP st).
  { intros st st1 ip svc t1 Hobs Heq run.
    destruct (quiet_run _ _ _ _ _ (quiet_observe st) Hobs) as [Hq1 Hc1].
    assert (E : run = mkRun tt st1
                  (t1 ++ [Logged (InfoCurrentIP ip svc); Logged (InfoUnchanged ip)])).
    { subst run. unfold checkAndUpdate, bind. rewrite Hobs. cbn.
      rewrite Hc1, <- Heq, String.eqb_refl. cbn. reflexivity. }
    rewrite E. cbn [trace final]. rewrite providerCalls_app, Hq1. auto. }
  split; [exact Main|].
  intros st0 st1 ip svc t1 first Hobs Heq.
  apply no_provider_call_no_mutation.
  now destruct (Main _ _ _ _ _ Hobs Heq).
Qed.

Lemma inspect_trace (ip : string) (st st3 : State W) v (t3 : list Event) :
  inspect net config ip st = mkRun v st3 t3 ->
  t3 = [Logged (InfoConfirmed (currentIP st) ip);
        Called (CallList (ZoneID config) (RecordName config))]
  /\ currentIP st3 = currentIP st.
Proof.
  intros H. destruct (inspect_spec ip st) as (v' & s' & E & Hc & _).
  rewrite E in H. inversion H; subst. auto.
Qed.

(** C9.  With a confirmed change, when the freshly fetched records of the
    configured type and name contain one whose content is the confirmed
    address, the cycle sets the last applied address to it and stops: the
    only request sent to the provider is the listing, no create and no
    update. *)
Theorem C9_record_already_present
        (st st1 st2 st3 : State W) (ip svc svc2 : string) (t1 t2 t3 : list Event)
        (allRecords : list DNSRecord) :
  observe net ipChecker st = mkRun (ip, svc, None) st1 t1 ->
  ip <> currentIP st ->
  confirm net ipChecker ip st1 = mkRun (ip, svc2, None) st2 t2 ->
  inspect net config ip st2 = mkRun (allRecords, None) st3 t3 ->
  (exists r, In r allRecords /\ Content r = ip) ->
  let run := checkAndUpdate net config ipChecker st in
  currentIP (final run) = ip
  /\ mutations (trace run) = []
  /\ providerCalls (trace run) = [CallList (ZoneID config) (RecordName config)]
  /\ world (final run) = world st3.
Proof.
  intros Hobs Hne Hconf Hins (r & Hin & Hr) run.
  assert (Hex : existsb (hasContent ip) allRecords = true).
  { apply existsb_exists. exists r. split; auto.
    unfold hasContent. now apply String.eqb_eq. }
  destruct (quiet_run _ _ _ _ _ (quiet_observe st) Hobs) as [Hq1 _].
  destruct (quiet_run _ _ _ _ _ (quiet_confirm ip st1) Hconf) as [Hq2 _].
  destruct (inspect_trace _ _ _ _ _ Hins) as [Ht3 _].
  subst run. rewrite (cycle_already_present _ _ _ _ _ _ _ _ _ _ _ Hobs Hne Hconf Hins Hex).
  cbn [final trace currentIP world].
  assert (Hp : providerCalls
                 (t1 ++ [Logged (InfoCurrentIP ip svc)] ++ t2 ++ t3
                     ++ [Logged (InfoFoundRecords (List.length allRecords));
                         Logged (InfoAlreadyPresent ip)])
               = [CallList (ZoneID config) (RecordName config)]).
  { rewrite !providerCalls_app, Hq1, Hq2, Ht3. reflexivity. }
  split; [reflexivity|]. split; [|split; [exact Hp|reflexivity]].
  rewrite !mutations_app, (no_provider_call_no_mutation _ Hq1),
    (no_provider_call_no_mutation _ Hq2), Ht3. reflexivity.
Qed.

(** C2, as the code has it.  When the create-or-update call succeeded and
    the listing made afterwards holds no record with the confirmed content,
    the cycle logs that the verification failed and sets the last applied
    address to the confirmed address all the same. *)
Theorem C2_failed_verification_still_applies
        (st st1 st2 st3 st4 st5 : State W) (ip svc svc2 : string)
        (t1 t2 t3 t4 t5 : list Event)
        (allRecords verifyRecords : list DNSRecord) (err lastErr : option error) :
  observe net ipChecker st = mkRun (ip, svc, None) st1 t1 ->
  ip <> currentIP st ->
  confirm net ipChecker ip st1 = mkRun (ip, svc2, None) st2 t2 ->
  inspect net config ip st2 = mkRun (allRecords, err) st3 t3 ->
  err <> None \/ existsb (hasContent ip) allRecords = false ->
  mutate net config ip allRecords st3 = mkRun (true, lastErr) st4 t4 ->
  GetAllDNSRecords net (ZoneID config) (RecordName config) (RecordType config) st4
  = mkRun (verifyRecords, None) st5 t5 ->
  existsb (hasContent ip) verifyRecords = false ->
  let run := checkAndUpdate net config ipChecker st in
  currentIP (final run) = ip
  /\ In (Logged (ErrorVerifyMissing ip)) (trace run)
  /\ In (Logged (InfoApplied (RecordName config) ip)) (trace run).
Proof.
  intros Hobs Hne Hconf Hins Hmiss Hmut Hver Hnone run.
  destruct (cycle_reaches_apply _ _ _ _ _ _ _ _ _ _ _ _ Hobs Hne Hconf Hins Hmiss)
    as (l & _ & E).
  subst run. rewrite E, (applyChange_after_success _ _ _ _ _ _ Hmut).
  assert (Ev : verify net config ip st4
               = mkRun tt st5 (t5 ++ [Logged (ErrorVerifyMissing ip)])).
  { unfold verify, bind. rewrite Hver. cbn. rewrite Hnone. reflexivity. }
  rewrite Ev. cbn [final trace currentIP].
  split; [reflexivity|].
  split; repeat (rewrite in_app_iff || cbn [In]); auto 20.
Qed.

(** C8.  A cycle that reaches fallback creation: the address is
    confirmed, the cycle's listing of the records fails or holds no record
    with the confirmed address, and the listing made by the update-or-create
    call fails, is empty, or holds no record with the confirmed address nor
    with the (non-empty) last applied address.  Then the first write of the
    cycle is the create request with the confirmed address, the configured
    type and name and, as TTL, the TTL of the first record the cycle's
    listing returned, or 3600 when it failed or returned none; every create
    request of the cycle is that request; and when the provider accepts it,
    it is the only write and the last applied address is the confirmed
    address afterwards. *)
Theorem C8_fallback_creation
        (st st1 st2 st3 st4 : State W) (ip svc svc2 : string)
        (t1 t2 t3 t4 : list Event)
        (allRecords recs2 : list DNSRecord) (err err2 : option error) :
  observe net ipChecker st = mkRun (ip, svc, None) st1 t1 ->
  ip <> currentIP st ->
  confirm net ipChecker ip st1 = mkRun (ip, svc2, None) st2 t2 ->
  inspect net config ip st2 = mkRun (allRecords, err) st3 t3 ->
  err <> None \/ existsb (hasContent ip) allRecords = false ->
  GetAllDNSRecords net (ZoneID config) (RecordName config) (RecordType config) st3
  = mkRun (recs2, err2) st4 t4 ->
  err2 <> None \/ recs2 = []
  \/ (existsb (hasContent ip) recs2 = false
      /\ (currentIP st = "" \/ existsb (hasContent (currentIP st)) recs2 = false)) ->
  let run := checkAndUpdate net config ipChecker st in
  let ttl := match allRecords with r :: _ => TTL r | [] => 3600 end in
  let req := mkCreateReq (RecordType config) (RecordName config) ip ttl in
  (exists rest, mutations (trace run) = CallPost (ZoneID config) req :: rest)
  /\ (err <> None -> ttl = 3600)
  /\ (forall zoneID r,
         In (CallPost zoneID r) (callsOf (trace run)) ->
         zoneID = ZoneID config /\ r = req)
  /\ (forall (raw : string) (env : Envelope DNSRecord) (w5 : W),
         apiPost net (ZoneID config) req (world st4)
         = (ApiResponse 200 raw (inr env), w5) ->
         Success env = true ->
         mutations (trace run) = [CallPost (ZoneID config) req]
         /\ currentIP (final run) = ip).
Proof.
  intros Hobs Hne Hconf Hins Hmiss Hget Hfb run ttl req.
  destruct (quiet_run _ _ _ _ _ (quiet_observe st) Hobs) as [Hq1 Hc1].
  destruct (quiet_run _ _ _ _ _ (quiet_confirm ip st1) Hconf) as [Hq2 Hc2].
  destruct (inspect_trace _ _ _ _ _ Hins) as [Ht3 Hc3].
  assert (Hcur : currentIP st3 = currentIP st) by congruence.
  destruct (cycle_reaches_apply _ _ _ _ _ _ _ _ _ _ _ _ Hobs Hne Hconf Hins Hmiss)
    as (l & Hl & E).
  assert (Hml : mutations l = []) by (unfold mutations; now rewrite Hl).
  assert (Ht4 : t4 = [Called (CallList (ZoneID config) (RecordName config))]).
  { destruct (GetAllDNSRecords_spec (ZoneID config) (RecordName config)
                (RecordType config) st3) as (v & s & E' & _).
    rewrite E' in Hget. now inversion Hget. }
  assert (Hfb' : err2 <> None \/ recs2 = []
                 \/ (existsb (hasContent ip) recs2 = false
                     /\ (currentIP st3 = ""
                         \/ existsb (hasContent (currentIP st3)) recs2 = false)))
    by now rewrite Hcur.
  pose proof (UpdateOrCreateDNSRecord_falls_back
                (ZoneID config) (RecordName config) (RecordType config) ip
                (defaultTTLOf allRecords) (currentIP st3) st3 st4 recs2 err2 t4
                Hget Hfb') as Hcall.
  cbv zeta in Hcall.
  assert (Hpre : mutations (t1 ++ [Logged (InfoCurrentIP ip svc)] ++ t2 ++ t3 ++ l)
                 = []).
  { rewrite !mutations_app, (no_provider_call_no_mutation _ Hq1),
      (no_provider_call_no_mutation _ Hq2), Hml, Ht3. reflexivity. }
  split; [|split; [|split]].
  - (* the first write *)
    destruct (CreateDNSRecord_spec (ZoneID config) (RecordName config)
                (RecordType config) ip (defaultTTLOf allRecords) st4)
      as (cv & st5 & Ec & _).
    rewrite Ec in Hcall. cbn [value final trace] in Hcall.
    destruct (applyChange_first_attempt _ _ _ _ _ _ Hcall) as (rest & Hrest).
    exists (mutations rest). subst run. rewrite E. cbn [trace].
    replace (t1 ++ [Logged (InfoCurrentIP ip svc)] ++ t2 ++ t3 ++ l
                ++ trace (applyChange net config ip allRecords st3))
      with ((t1 ++ [Logged (InfoCurrentIP ip svc)] ++ t2 ++ t3 ++ l)
              ++ trace (applyChange net config ip allRecords st3))
      by (now rewrite <- !app_assoc).
    rewrite mutations_app, Hpre, Hrest, Ht4.
    change (Logged (InfoApplying (RecordName config) ip)
              :: ([Called (CallList (ZoneID config) (RecordName config))]
                    ++ [Called (CallPost (ZoneID config)
                          (mkCreateReq (RecordType config) (RecordName config) ip
                                       (defaultTTLOf allRecords)))])
              ++ rest)
      with ([Logged (InfoApplying (RecordName config) ip);
             Called (CallList (ZoneID config) (RecordName config));
             Called (CallPost (ZoneID config)
                       (mkCreateReq (RecordType config) (RecordName config) ip
                                    (defaultTTLOf allRecords)))]
              ++ rest).
    rewrite mutations_app. reflexivity.
  - (* a failed listing gives the fixed default *)
    intros Herr. subst ttl.
    destruct (inspect_spec ip st2) as (v & s & E' & _ & Hnil).
    rewrite E' in Hins. inversion Hins as [[Hv Hs]]. rewrite Hv in Hnil.
    specialize (Hnil Herr). cbn [fst] in Hnil. now rewrite Hnil.
  - (* every create request *)
    assert (Hall : onlyCreates (ZoneID config) req (trace run)).
    { subst run. rewrite E. cbn [trace].
      replace (t1 ++ [Logged (InfoCurrentIP ip svc)] ++ t2 ++ t3 ++ l
                  ++ trace (applyChange net config ip allRecords st3))
        with ((t1 ++ [Logged (InfoCurrentIP ip svc)] ++ t2 ++ t3 ++ l)
                ++ trace (applyChange net config ip allRecords st3))
        by (now rewrite <- !app_assoc).
      apply onlyCreates_app; [|apply applyChange_creates].
      apply onlyCreates_no_post. exact (no_mutation_no_post _ Hpre). }
    intros zoneID r Hin. exact (onlyCreates_In _ _ _ _ _ Hall Hin).
  - (* the provider accepts the create request *)
    intros raw env w5 Hpost Hok.
    rewrite (CreateDNSRecord_success (ZoneID config) (RecordName config)
               (RecordType config) ip (defaultTTLOf allRecords) st4 raw env w5
               Hpost Hok) in Hcall.
    cbn [value final trace snd] in Hcall.
    pose proof (mutate_succeeds_at_once _ _ _ _ _ Hcall) as Hmut.
    destruct (verify_spec ip (mkState w5 (currentIP st4))) as (s6 & line & Ev & _).
    subst run. rewrite E, (applyChange_after_success _ _ _ _ _ _ Hmut), Ev, Ht4, Ht3.
    cbn [final trace currentIP]. split; [|reflexivity].
    rewrite !mutations_app, (no_provider_call_no_mutation _ Hq1),
      (no_provider_call_no_mutation _ Hq2), Hml. reflexivity.
Qed.

End Cycle.

End Properties.

(* ===================================================================== *)
(** * config.go: [LoadConfig] *)
(* ===================================================================== *)

(** C10.  [LoadConfig] always returns a configuration, never nil, and its
    [RecordType] is never empty: it is "A" when the file cannot be read,
    when the JSON does not parse, and when the field is empty; otherwise it
    is the field of the file, like the three other fields. *)
Theorem C10_LoadConfig_defaults_record_type
        (UserHomeDir : string * option string)
        (MkdirAll : string -> option string)
        (ReadFile : string -> string * option string)
        (filepath_Join : list string -> string)
        (filepath_Dir : string -> string)
        (json_Unmarshal : string -> Config -> Config * option string) :
  let path := getConfigPath UserHomeDir filepath_Join in
  exists c,
    fst (LoadConfig UserHomeDir MkdirAll ReadFile filepath_Join filepath_Dir
                    json_Unmarshal) = Some c
    /\ RecordType c <> ""
    /\ (snd (ReadFile path) <> None -> c = mkConfig "" "" "" "A")
    /\ (forall data e,
           ReadFile path = (data, None) ->
           snd (json_Unmarshal data zeroConfig) = Some e ->
           c = mkConfig "" "" "" "A")
    /\ (forall data parsed,
           ReadFile path = (data, None) ->
           json_Unmarshal data zeroConfig = (parsed, None) ->
           APIToken c = APIToken parsed /\ ZoneID c = ZoneID parsed
           /\ RecordName c = RecordName parsed
           /\ RecordType c = (if String.eqb (RecordType parsed) "" then "A"
                              else RecordType parsed)).
Proof.
  intros path. unfold LoadConfig. fold path.
  destruct (ReadFile path) as [data [e|]] eqn:Eread; cbn [fst snd].
  - exists (mkConfig "" "" "" "A"). split; [reflexivity|].
    split; [discriminate|]. split; [reflexivity|].
    split; intros; discriminate.
  - destruct (json_Unmarshal data zeroConfig) as [parsed [e|]] eqn:Ejson; cbn [fst].
    + exists (mkConfig "" "" "" "A"). split; [reflexivity|].
      split; [discriminate|]. split; [reflexivity|].
      split; [reflexivity|].
      intros data' parsed' Hd Hp. inversion Hd; subst. rewrite Ejson in Hp. discriminate.
    + eexists. split; [reflexivity|].
      split.
      { destruct (String.eqb (RecordType parsed) "") eqn:E; cbn; [discriminate|].
        now apply String.eqb_neq in E. }
      split; [intros H; now contradiction H|].
      split.
      { intros data' e Hd He. inversion Hd; subst. rewrite Ejson in He. discriminate. }
      intros data' parsed' Hd Hp. inversion Hd; subst. rewrite Ejson in Hp.
      inversion Hp; subst.
      destruct (String.eqb (RecordType parsed') ""); cbn; auto.
Qed.

(* ===================================================================== *)
(** * Concrete runs *)
(* ===================================================================== *)

(** The two examples of the specification. *)
Example first_run_creates :
  let run := Sim.cycle (Sim.start [Sim.answers "1.2.3.4"; Sim.answers "1.2.3.4"] [] "") in
  mutations (trace run)
  = [CallPost "zone" (mkCreateReq "A" "host.example.com" "1.2.3.4" 3600)]
  /\ currentIP (final run) = "1.2.3.4".
Proof. vm_compute. split; reflexivity. Qed.

Example address_change_updates :
  let run := Sim.cycle (Sim.start [Sim.answers "5.6.7.8"; Sim.answers "5.6.7.8"]
                                  [Sim.A "r1" "1.2.3.4" 600] "1.2.3.4") in
  mutations (trace run)
  = [CallPut "zone" "r1" (mkUpdateReq "A" "host.example.com" "5.6.7.8" 600)]
  /\ currentIP (final run) = "5.6.7.8".
Proof. vm_compute. split; reflexivity. Qed.

(** Addresses and non-addresses. *)
Example dotted_quad_is_valid : isValidIPv4 "203.0.113.7" = true.
Proof. vm_compute. reflexivity. Qed.

Example plain_ipv6_is_refused : isValidIPv4 "2001:db8::68" = false.
Proof. vm_compute. reflexivity. Qed.

Example malformed_is_refused :
  isValidIPv4 "1.2.3" = false /\ isValidIPv4 "1.2.3.256" = false
  /\ isValidIPv4 "01.2.3.4" = false /\ isValidIPv4 "<html>" = false.
Proof. vm_compute. repeat split; reflexivity. Qed.

(** C6, failing input.  The body "::ffff:1.2.3.4" is an IPv6 literal:
    [netip.ParseAddr] reads it through its IPv6 branch.  [To4] is not nil on
    it, so [isValidIPv4] holds and the resolver accepts the body and returns
    the literal itself as the address. *)
Theorem C6_ipv4_mapped_ipv6_literal_is_accepted :
  GoLib.ParseAddr "::ffff:1.2.3.4"
  = Some (GoLib.Addr6 [0; 0; 0; 0; 0; 0; 0; 0; 0; 0; 255; 255; 1; 2; 3; 4]%N [])
  /\ isValidIPv4 "::ffff:1.2.3.4" = true
  /\ value (getIPFromService Sim.net "https://api.ipify.org"
              (Sim.start [Sim.answers " ::ffff:1.2.3.4 "] [] ""))
     = ("::ffff:1.2.3.4", None)
  /\ value (GetPublicIPWithService Sim.net NewIPChecker
              (Sim.start [Sim.answers " ::ffff:1.2.3.4 "] [] ""))
     = ("::ffff:1.2.3.4", "https://api.ipify.org", None).
Proof. vm_compute. repeat split; reflexivity. Qed.

(** C5, failing input.  The primary answers the IPv6 literal
    "::ffff:1.2.3.4" while the next endpoint would answer 203.0.113.7: the
    resolver returns the literal at once, after that one request.  With the
    primary down and the second endpoint answering "::ffff:102:304", the
    literal is returned and the third endpoint, which would answer
    203.0.113.7, is never asked.  Neither answer is an IPv4 address:
    [netip.ParseAddr] reads both through its IPv6 branch. *)
Theorem C5_resolver_returns_ipv6_literal :
  let primary := "https://api.ipify.org" in
  let second := "https://ifconfig.me/ip" in
  let st1 := Sim.start [Sim.answers "::ffff:1.2.3.4"; Sim.answers "203.0.113.7"]
                       [] "" in
  let run1 := GetPublicIPWithService Sim.net NewIPChecker st1 in
  let st2 := Sim.start [GetError "timeout"; Sim.answers "::ffff:102:304";
                        Sim.answers "203.0.113.7"] [] "" in
  let run2 := GetPublicIPWithService Sim.net NewIPChecker st2 in
  let mapped := GoLib.Addr6 [0; 0; 0; 0; 0; 0; 0; 0; 0; 0; 255; 255; 1; 2; 3; 4]%N [] in
  primaryService NewIPChecker = primary
  /\ otherServices NewIPChecker
     = [second; "https://icanhazip.com"; "https://api.ip.sb/ip"]
  /\ GoLib.ParseAddr "::ffff:1.2.3.4" = Some mapped
  /\ value run1 = ("::ffff:1.2.3.4", primary, None)
  /\ trace run1 = [Called (CallService primary)]
  /\ Sim.script (world (final run1)) = [Sim.answers "203.0.113.7"]
  /\ GoLib.ParseAddr "::ffff:102:304" = Some mapped
  /\ value run2 = ("::ffff:102:304", second, None)
  /\ trace run2 = [Called (CallService primary); Called (CallService second)]
  /\ Sim.script (world (final run2)) = [Sim.answers "203.0.113.7"].
Proof. vm_compute. repeat split; reflexivity. Qed.

(** C1, failing input.  Two hosts share the name: record r2 holds
    10.0.0.2 and record r1 holds 10.0.0.1, the last applied address of this
    host, whose address becomes 10.0.0.9.  No record holds 10.0.0.9 and r1
    holds the last applied address, yet the update is sent to r2, the first
    record of the type, with the TTL of r2: the other host's record is
    overwritten and r1 keeps the old address. *)
Theorem C1_update_overwrites_first_record_of_type :
  let r1 := Sim.A "r1" "10.0.0.1" 600 in
  let r2 := Sim.A "r2" "10.0.0.2" 300 in
  let st := Sim.start [Sim.answers "10.0.0.9"; Sim.answers "10.0.0.9"]
                      [r2; r1] "10.0.0.1" in
  let run := Sim.cycle st in
  existsb (hasContent "10.0.0.9") [r2; r1] = false
  /\ find (hasContent (currentIP st)) [r2; r1] = Some r1
  /\ mutations (trace run)
     = [CallPut "zone" "r2" (mkUpdateReq "A" "host.example.com" "10.0.0.9" 300)]
  /\ Sim.records (world (final run))
     = [Sim.A "r2" "10.0.0.9" 300; Sim.A "r1" "10.0.0.1" 600]
  /\ currentIP (final run) = "10.0.0.9".
Proof. vm_compute. repeat split; reflexivity. Qed.

(** C2, counterexample.  The provider acknowledges the create request
    without storing the record: the mutation call succeeds, the listing made
    afterwards is empty, and the last applied address changes from the empty
    string to the confirmed address. *)
Lemma C2_counterexample_lossy_provider :
  let st := Sim.startLossy [Sim.answers "1.2.3.4"; Sim.answers "1.2.3.4"] [] "" in
  let ob := observe Sim.net NewIPChecker st in
  let co := confirm Sim.net NewIPChecker "1.2.3.4" (final ob) in
  let ins := inspect Sim.net Sim.config "1.2.3.4" (final co) in
  let mu := mutate Sim.net Sim.config "1.2.3.4" [] (final ins) in
  let ve := GetAllDNSRecords Sim.net "zone" "host.example.com" "A" (final mu) in
  let run := Sim.cycle st in
  value ob = ("1.2.3.4", "https://api.ipify.org", None)
  /\ value co = ("1.2.3.4", "https://api.ipify.org", None)
  /\ value ins = ([], None)
  /\ value mu = (true, None)
  /\ value ve = ([], None)
  /\ currentIP st = ""
  /\ currentIP (final run) = "1.2.3.4"
  /\ currentIP (final run) <> currentIP st.
Proof. vm_compute. repeat split; try reflexivity. discriminate. Qed.

(** C8, counterexample.  The connection to the provider drops for the
    cycle's listing of the records and is back for the listing made by the
    update-or-create call, which shows the record r2 of another host with
    TTL 300.  No record holds the confirmed address and nothing was applied
    before, so the cycle creates a record: with TTL 3600, not with the TTL
    of the record that exists at the name. *)
Lemma C8_counterexample_failed_listing :
  let r2 := Sim.A "r2" "10.0.0.2" 300 in
  let st := mkState (SimOutage.mkWorld
                       (Sim.mkWorld [Sim.answers "5.6.7.8"; Sim.answers "5.6.7.8"]
                                    [r2] true None) 1) "" in
  let ob := observe SimOutage.net NewIPChecker st in
  let co := confirm SimOutage.net NewIPChecker "5.6.7.8" (final ob) in
  let ins := inspect SimOutage.net Sim.config "5.6.7.8" (final co) in
  let ls := GetAllDNSRecords SimOutage.net "zone" "host.example.com" "A" (final ins) in
  let run := checkAndUpdate SimOutage.net Sim.config NewIPChecker st in
  value ob = ("5.6.7.8", "https://api.ipify.org", None)
  /\ value co = ("5.6.7.8", "https://api.ipify.org", None)
  /\ value ins
     = ([], Some (ErrLookupFailed
                    (ErrRequestFailed (ErrTransport "connection reset"))))
  /\ value ls = ([r2], None)
  /\ existsb (hasContent "5.6.7.8") [r2] = false
  /\ currentIP st = ""
  /\ TTL r2 = 300
  /\ mutations (trace run)
     = [CallPost "zone" (mkCreateReq "A" "host.example.com" "5.6.7.8" 3600)]
  /\ Sim.records (SimOutage.inner (world (final run)))
     = [r2; mkDNSRecord "new-5.6.7.8" "A" "host.example.com" "5.6.7.8" 3600 false]
  /\ currentIP (final run) = "5.6.7.8".
Proof. vm_compute. repeat split; reflexivity. Qed.

(* ===================================================================== *)
(** * The theorems at concrete inputs *)
(* ===================================================================== *)

(** The primary times out, the second endpoint answers a web page, the
    third answers an address. *)
Lemma X23_witness :
  let st := Sim.start [GetError "timeout"; Sim.answers "<html>";
                       Sim.answers "203.0.113.7"] [] "" in
  let run := GetPublicIPWithService Sim.net NewIPChecker st in
  otherServices NewIPChecker <> []
  /\ value run = ("203.0.113.7", "https://icanhazip.com", None)
  /\ exists tried,
      TryInOrder Sim.net (primaryService NewIPChecker :: otherServices NewIPChecker)
                 st None (value run) (final run) tried
      /\ trace run = map (fun url => Called (CallService url)) tried.
Proof.
  intros st run.
  assert (H : otherServices NewIPChecker <> []) by evaluate.
  split; [exact H|]. split; [evaluate|].
  destruct (X23_resolver_tries_in_order Sim.net NewIPChecker st H)
    as (tried & Hrel & Htrace & _).
  exists tried. split; [exact Hrel|exact Htrace].
Defined.

(** The address changes from 1.2.3.4 to 5.6.7.8, and the confirmation
    sees 9.9.9.9. *)
Lemma C3_witness :
  let st := Sim.start [Sim.answers "5.6.7.8"; Sim.answers "9.9.9.9"]
                      [Sim.A "r1" "1.2.3.4" 600] "1.2.3.4" in
  let ob := observe Sim.net NewIPChecker st in
  let co := confirm Sim.net NewIPChecker "5.6.7.8" (final ob) in
  let run := Sim.cycle st in
  (ob = mkRun ("5.6.7.8", "https://api.ipify.org", None) (final ob) (trace ob)
   /\ "5.6.7.8" <> currentIP st
   /\ co = mkRun ("9.9.9.9", "https://api.ipify.org", None) (final co) (trace co)
   /\ "9.9.9.9" <> "5.6.7.8")
  /\ mutations (trace run) = []
  /\ providerCalls (trace run) = []
  /\ currentIP (final run) = currentIP st.
Proof.
  intros st ob co run.
  assert (H1 : ob = mkRun ("5.6.7.8", "https://api.ipify.org", None)
                          (final ob) (trace ob)) by evaluate.
  assert (H2 : "5.6.7.8" <> currentIP st) by evaluate.
  assert (H3 : co = mkRun ("9.9.9.9", "https://api.ipify.org", None)
                          (final co) (trace co)) by evaluate.
  assert (H4 : "9.9.9.9" <> "5.6.7.8") by evaluate.
  split; [now repeat split|].
  exact (C3_confirmation_mismatch_aborts Sim.net Sim.config NewIPChecker
           st _ _ _ _ _ _ _ _ H1 H2 H3 H4).
Defined.

(** A cycle that observes the last applied address, and a second cycle
    after a first one that created the record. *)
Lemma C4_witness :
  let st := Sim.start [Sim.answers "1.2.3.4"] [Sim.A "r1" "1.2.3.4" 600] "1.2.3.4" in
  let ob := observe Sim.net NewIPChecker st in
  let st0 := Sim.start [Sim.answers "1.2.3.4"; Sim.answers "1.2.3.4";
                        Sim.answers "1.2.3.4"] [] "" in
  let first := Sim.cycle st0 in
  let ob2 := observe Sim.net NewIPChecker (final first) in
  (ob = mkRun ("1.2.3.4", "https://api.ipify.org", None) (final ob) (trace ob)
   /\ "1.2.3.4" = currentIP st
   /\ ob2 = mkRun ("1.2.3.4", "https://api.ipify.org", None) (final ob2) (trace ob2)
   /\ "1.2.3.4" = currentIP (final first))
  /\ (providerCalls (trace (Sim.cycle st)) = []
      /\ currentIP (final (Sim.cycle st)) = currentIP st)
  /\ mutations (trace first)
     = [CallPost "zone" (mkCreateReq "A" "host.example.com" "1.2.3.4" 3600)]
  /\ mutations (trace (Sim.cycle (final first))) = [].
Proof.
  intros st ob st0 first ob2.
  assert (H1 : ob = mkRun ("1.2.3.4", "https://api.ipify.org", None)
                          (final ob) (trace ob)) by evaluate.
  assert (H2 : "1.2.3.4" = currentIP st) by evaluate.
  assert (H3 : ob2 = mkRun ("1.2.3.4", "https://api.ipify.org", None)
                           (final ob2) (trace ob2)) by evaluate.
  assert (H4 : "1.2.3.4" = currentIP (final first)) by evaluate.
  split; [now repeat split|].
  destruct (C4_unchanged_address_is_noop Sim.net Sim.config NewIPChecker) as [P1 P2].
  split; [exact (P1 st _ _ _ _ H1 H2)|].
  split; [evaluate|].
  exact (P2 st0 _ _ _ _ H3 H4).
Defined.

(** The provider answers the write with success but echoes 0.0.0.0. *)
Lemma C7_witness :
  let r1 := Sim.A "r1" "1.2.3.4" 600 in
  let st := mkState (Sim.mkWorld [] [r1] true (Some "0.0.0.0")) "" in
  let req := mkUpdateReq "A" "host.example.com" "5.6.7.8" 600 in
  let env := mkEnvelope true
               (mkUpdateResult "r1" "A" "host.example.com" "0.0.0.0") [] in
  let w2 := snd (Sim.put "zone" "r1" req (world st)) in
  let run := UpdateDNSRecord Sim.net "zone" "host.example.com" "A" "5.6.7.8" st in
  (ListDNSRecords Sim.net "zone" "host.example.com" st
   = mkRun ([r1], None) st [Called (CallList "zone" "host.example.com")]
   /\ find (hasType "A") [r1] = Some r1
   /\ Content r1 <> "5.6.7.8"
   /\ apiPut Sim.net "zone" (ID r1) req (world st) = (ApiResponse 200 "" (inr env), w2)
   /\ Success env = true)
  /\ trace run = [Called (CallList "zone" "host.example.com");
                  Called (CallPut "zone" "r1" req)]
  /\ value run = Some (ErrContentMismatch "5.6.7.8" "0.0.0.0").
Proof.
  intros r1 st req env w2 run.
  assert (H1 : ListDNSRecords Sim.net "zone" "host.example.com" st
               = mkRun ([r1], None) st [Called (CallList "zone" "host.example.com")])
    by evaluate.
  assert (H2 : find (hasType "A") [r1] = Some r1) by evaluate.
  assert (H3 : Content r1 <> "5.6.7.8") by evaluate.
  assert (H4 : apiPut Sim.net "zone" (ID r1) req (world st)
               = (ApiResponse 200 "" (inr env), w2)) by evaluate.
  assert (H5 : Success env = true) by reflexivity.
  split; [now repeat split|].
  destruct (C7_update_checks_echoed_content Sim.net "zone" "host.example.com" "A"
              "5.6.7.8" st st [r1] _ r1 "" env w2 H1 H2 H3 H4 H5)
    as (Ht & _ & Hv).
  split; [exact Ht|]. apply Hv. evaluate.
Defined.

(** Another host's record, with TTL 300, is at the name and this host has
    applied nothing yet; and the first run of the specification: nothing
    applied, no record. *)
Lemma C8_witness :
  let r2 := Sim.A "r2" "10.0.0.2" 300 in
  let st := Sim.start [Sim.answers "5.6.7.8"; Sim.answers "5.6.7.8"] [r2] "" in
  let ob := observe Sim.net NewIPChecker st in
  let co := confirm Sim.net NewIPChecker "5.6.7.8" (final ob) in
  let ins := inspect Sim.net Sim.config "5.6.7.8" (final co) in
  let ls := GetAllDNSRecords Sim.net "zone" "host.example.com" "A" (final ins) in
  let req := mkCreateReq "A" "host.example.com" "5.6.7.8" 300 in
  let env := mkEnvelope true
               (mkDNSRecord "new-5.6.7.8" "A" "host.example.com" "5.6.7.8" 300 false)
               [] in
  let w5 := snd (Sim.post "zone" req (world (final ls))) in
  let run := Sim.cycle st in
  let st' := Sim.start [Sim.answers "1.2.3.4"; Sim.answers "1.2.3.4"] [] "" in
  let ob' := observe Sim.net NewIPChecker st' in
  let co' := confirm Sim.net NewIPChecker "1.2.3.4" (final ob') in
  let ins' := inspect Sim.net Sim.config "1.2.3.4" (final co') in
  let ls' := GetAllDNSRecords Sim.net "zone" "host.example.com" "A" (final ins') in
  let req' := mkCreateReq "A" "host.example.com" "1.2.3.4" 3600 in
  let env' := mkEnvelope true
                (mkDNSRecord "new-1.2.3.4" "A" "host.example.com" "1.2.3.4" 3600 false)
                [] in
  let w5' := snd (Sim.post "zone" req' (world (final ls'))) in
  let run' := Sim.cycle st' in
  (ob = mkRun ("5.6.7.8", "https://api.ipify.org", None) (final ob) (trace ob)
   /\ "5.6.7.8" <> currentIP st
   /\ co = mkRun ("5.6.7.8", "https://api.ipify.org", None) (final co) (trace co)
   /\ ins = mkRun ([r2], None) (final ins) (trace ins)
   /\ existsb (hasContent "5.6.7.8") [r2] = false
   /\ ls = mkRun ([r2], None) (final ls) (trace ls)
   /\ currentIP st = ""
   /\ apiPost Sim.net "zone" req (world (final ls)) = (ApiResponse 200 "" (inr env), w5)
   /\ Success env = true)
  /\ (ob' = mkRun ("1.2.3.4", "https://api.ipify.org", None) (final ob') (trace ob')
      /\ "1.2.3.4" <> currentIP st'
      /\ co' = mkRun ("1.2.3.4", "https://api.ipify.org", None) (final co') (trace co')
      /\ ins' = mkRun ([], None) (final ins') (trace ins')
      /\ ls' = mkRun ([], None) (final ls') (trace ls')
      /\ apiPost Sim.net "zone" req' (world (final ls'))
         = (ApiResponse 200 "" (inr env'), w5')
      /\ Success env' = true)
  /\ (forall zoneID r, In (CallPost zoneID r) (callsOf (trace run)) ->
                       zoneID = "zone" /\ r = req)
  /\ mutations (trace run) = [CallPost "zone" req]
  /\ currentIP (final run) = "5.6.7.8"
  /\ mutations (trace run') = [CallPost "zone" req']
  /\ currentIP (final run') = "1.2.3.4".
Proof.
  intros r2 st ob co ins ls req env w5 run st' ob' co' ins' ls' req' env' w5' run'.
  assert (H1 : ob = mkRun ("5.6.7.8", "https://api.ipify.org", None)
                          (final ob) (trace ob)) by evaluate.
  assert (H2 : "5.6.7.8" <> currentIP st) by evaluate.
  assert (H3 : co = mkRun ("5.6.7.8", "https://api.ipify.org", None)
                          (final co) (trace co)) by evaluate.
  assert (H4 : ins = mkRun ([r2], None) (final ins) (trace ins)) by evaluate.
  assert (H5 : existsb (hasContent "5.6.7.8") [r2] = false) by reflexivity.
  assert (H6 : ls = mkRun ([r2], None) (final ls) (trace ls)) by evaluate.
  assert (H7 : currentIP st = "") by reflexivity.
  assert (H8 : apiPost Sim.net "zone" req (world (final ls))
               = (ApiResponse 200 "" (inr env), w5)) by evaluate.
  assert (H9 : Success env = true) by reflexivity.
  assert (H1' : ob' = mkRun ("1.2.3.4", "https://api.ipify.org", None)
                            (final ob') (trace ob')) by evaluate.
  assert (H2' : "1.2.3.4" <> currentIP st') by evaluate.
  assert (H3' : co' = mkRun ("1.2.3.4", "https://api.ipify.org", None)
                            (final co') (trace co')) by evaluate.
  assert (H4' : ins' = mkRun ([], None) (final ins') (trace ins')) by evaluate.
  assert (H6' : ls' = mkRun ([], None) (final ls') (trace ls')) by evaluate.
  assert (H8' : apiPost Sim.net "zone" req' (world (final ls'))
                = (ApiResponse 200 "" (inr env'), w5')) by evaluate.
  assert (H9' : Success env' = true) by reflexivity.
  split; [now repeat split|]. split; [now repeat split|].
  pose proof (C8_fallback_creation Sim.net Sim.config NewIPChecker
                st _ _ _ _ _ _ _ _ _ _ _ _ _ _ _ H1 H2 H3 H4 (or_intror H5) H6
                (or_intror (or_intror (conj H5 (or_introl H7))))) as P.
  pose proof (C8_fallback_creation Sim.net Sim.config NewIPChecker
                st' _ _ _ _ _ _ _ _ _ _ _ _ _ _ _ H1' H2' H3' H4'
                (or_intror eq_refl) H6' (or_intror (or_introl eq_refl))) as P'.
  cbv zeta in P, P'.
  destruct P as (_ & _ & Pall & Pok). destruct P' as (_ & _ & _ & Pok').
  destruct (Pok _ _ _ H8 H9) as [Pm Pc]. destruct (Pok' _ _ _ H8' H9') as [Pm' Pc'].
  split; [exact Pall|]. split; [exact Pm|]. split; [exact Pc|].
  split; [exact Pm'|exact Pc'].
Defined.

(** Another process already published 5.6.7.8. *)
Lemma C9_witness :
  let r1 := Sim.A "r1" "5.6.7.8" 600 in
  let st := Sim.start [Sim.answers "5.6.7.8"; Sim.answers "5.6.7.8"] [r1] "1.2.3.4" in
  let ob := observe Sim.net NewIPChecker st in
  let co := confirm Sim.net NewIPChecker "5.6.7.8" (final ob) in
  let ins := inspect Sim.net Sim.config "5.6.7.8" (final co) in
  let run := Sim.cycle st in
  (ob = mkRun ("5.6.7.8", "https://api.ipify.org", None) (final ob) (trace ob)
   /\ "5.6.7.8" <> currentIP st
   /\ co = mkRun ("5.6.7.8", "https://api.ipify.org", None) (final co) (trace co)
   /\ ins = mkRun ([r1], None) (final ins) (trace ins)
   /\ (exists r, In r [r1] /\ Content r = "5.6.7.8"))
  /\ currentIP (final run) = "5.6.7.8"
  /\ mutations (trace run) = []
  /\ providerCalls (trace run) = [CallList "zone" "host.example.com"]
  /\ world (final run) = world (final ins).
Proof.
  intros r1 st ob co ins run.
  assert (H1 : ob = mkRun ("5.6.7.8", "https://api.ipify.org", None)
                          (final ob) (trace ob)) by evaluate.
  assert (H2 : "5.6.7.8" <> currentIP st) by evaluate.
  assert (H3 : co = mkRun ("5.6.7.8", "https://api.ipify.org", None)
                          (final co) (trace co)) by evaluate.
  assert (H4 : ins = mkRun ([r1], None) (final ins) (trace ins)) by evaluate.
  assert (H5 : exists r, In r [r1] /\ Content r = "5.6.7.8").
  { exists r1. split; [now left|reflexivity]. }
  split; [now repeat split|].
  exact (C9_record_already_present Sim.net Sim.config NewIPChecker
           st _ _ _ _ _ _ _ _ _ _ H1 H2 H3 H4 H5).
Defined.

(** The provider acknowledges the create request without storing it. *)
Lemma C2_witness :
  let st := Sim.startLossy [Sim.answers "1.2.3.4"; Sim.answers "1.2.3.4"] [] "" in
  let ob := observe Sim.net NewIPChecker st in
  let co := confirm Sim.net NewIPChecker "1.2.3.4" (final ob) in
  let ins := inspect Sim.net Sim.config "1.2.3.4" (final co) in
  let mu := mutate Sim.net Sim.config "1.2.3.4" [] (final ins) in
  let ve := GetAllDNSRecords Sim.net "zone" "host.example.com" "A" (final mu) in
  let run := Sim.cycle st in
  (ob = mkRun ("1.2.3.4", "https://api.ipify.org", None) (final ob) (trace ob)
   /\ "1.2.3.4" <> currentIP st
   /\ co = mkRun ("1.2.3.4", "https://api.ipify.org", None) (final co) (trace co)
   /\ ins = mkRun ([], None) (final ins) (trace ins)
   /\ existsb (hasContent "1.2.3.4") [] = false
   /\ mu = mkRun (true, None) (final mu) (trace mu)
   /\ ve = mkRun ([], None) (final ve) (trace ve))
  /\ currentIP (final run) = "1.2.3.4"
  /\ In (Logged (ErrorVerifyMissing "1.2.3.4")) (trace run)
  /\ In (Logged (InfoApplied "host.example.com" "1.2.3.4")) (trace run).
Proof.
  intros st ob co ins mu ve run.
  assert (H1 : ob = mkRun ("1.2.3.4", "https://api.ipify.org", None)
                          (final ob) (trace ob)) by evaluate.
  assert (H2 : "1.2.3.4" <> currentIP st) by evaluate.
  assert (H3 : co = mkRun ("1.2.3.4", "https://api.ipify.org", None)
                          (final co) (trace co)) by evaluate.
  assert (H4 : ins = mkRun ([], None) (final ins) (trace ins)) by evaluate.
  assert (H5 : existsb (hasContent "1.2.3.4") [] = false) by reflexivity.
  assert (H6 : mu = mkRun (true, None) (final mu) (trace mu)) by evaluate.
  assert (H7 : ve = mkRun ([], None) (final ve) (trace ve)) by evaluate.
  split; [now repeat split|].
  exact (C2_failed_verification_still_applies Sim.net Sim.config NewIPChecker
           st _ _ _ _ _ _ _ _ _ _ _ _ _ _ _ _ _ H1 H2 H3 H4 (or_intror H5) H6 H7
           eq_refl).
Defined.

(** A configuration file whose JSON leaves the record type out. *)
Lemma C10_witness :
  let home := ("/root", @None string) in
  let mkdir := fun _ : string => @None string in
  let read := fun _ : string => ("{}", @None string) in
  let join := fun parts : list string => String.concat "/" parts in
  let dir := fun _ : string => "/root/.go_dns_manager" in
  let parse := fun (_ : string) (c : Config) =>
                 (mkConfig "token" "zone" "host.example.com" "", @None string) in
  (read (getConfigPath home join) = ("{}", None)
   /\ parse "{}" zeroConfig = (mkConfig "token" "zone" "host.example.com" "", None))
  /\ exists c,
      fst (LoadConfig home mkdir read join dir parse) = Some c
      /\ RecordType c <> ""
      /\ APIToken c = "token"
      /\ RecordType c = "A".
Proof.
  intros home mkdir read join dir parse.
  assert (H1 : read (getConfigPath home join) = ("{}", None)) by reflexivity.
  assert (H2 : parse "{}" zeroConfig
               = (mkConfig "token" "zone" "host.example.com" "", None)) by reflexivity.
  split; [now split|].
  destruct (C10_LoadConfig_defaults_record_type home mkdir read join dir parse)
    as (c & Hc & Hne & _ & _ & Hparsed).
  destruct (Hparsed _ _ H1 H2) as (Ha & Hz & Hn & Ht).
  exists c. repeat split; assumption.
Defined.

(* ===================================================================== *)
(** * Further properties of the resolver and of the client *)
(* ===================================================================== *)

Section MoreProperties.

Context {W : Type}.
Variable net : Net W.

(** ** [GetPublicIP] and [GetPublicIPWithService] *)

Lemma tryServicesIP_agrees (primary : string) (svcs : list string) :
  forall (last : option error) (st : State W),
    tryServicesIP net primary svcs last st
    = mkRun (fst (fst (value (tryServices net primary svcs last st))),
             snd (value (tryServices net primary svcs last st)))
            (final (tryServices net primary svcs last st))
            (trace (tryServices net primary svcs last st)).
Proof.
  induction svcs as [|s svcs IH]; intros last st; cbn [tryServicesIP tryServices].
  - reflexivity.
  - destruct (String.eqb s primary); [apply IH|].
    destruct (getIPFromService_spec net s st) as ([ip err] & st1 & E & _).
    rewrite !(bind_run _ _ _ _ _ _ E).
    destruct (accepted ip err); [reflexivity|].
    rewrite IH. reflexivity.
Qed.

(** X1.  [GetPublicIP] and [GetPublicIPWithService] are the same
    resolution: started in the same state they send the same requests,
    leave the same state, and return the same address and error. *)
Theorem X1_GetPublicIP_agrees_with_service_variant (ic : IPChecker) (st : State W) :
  let a := GetPublicIP net ic st in
  let b := GetPublicIPWithService net ic st in
  value a = (fst (fst (value b)), snd (value b))
  /\ final a = final b
  /\ trace a = trace b.
Proof.
  intros a b. subst a b. unfold GetPublicIP, GetPublicIPWithService.
  destruct (getIPFromService_spec net (primaryService ic) st)
    as ([ip err] & st1 & E & _).
  rewrite !(bind_run _ _ _ _ _ _ E).
  destruct (accepted ip err); [now cbn|].
  rewrite tryServicesIP_agrees. cbn. auto.
Qed.

Lemma tryServices_failure_shape (primary : string) (svcs : list string) :
  forall (last : option error) (st : State W) ip svc e,
    value (tryServices net primary svcs last st) = (ip, svc, Some e) ->
    ip = "" /\ svc = "" /\ exists l, e = ErrAllServicesFailed l.
Proof.
  induction svcs as [|s svcs IH]; intros last st ip svc e; cbn [tryServices].
  - cbn. intros H; inversion H; subst. eauto.
  - destruct (String.eqb s primary); [apply IH|].
    destruct (getIPFromService_spec net s st) as ([ip' err'] & st1 & E & _).
    rewrite (bind_run _ _ _ _ _ _ E). cbn [value].
    destruct (accepted ip' err'); [cbn; discriminate|apply IH].
Qed.

Lemma tryServices_success_service (primary : string) (svcs : list string) :
  forall (last : option error) (st : State W) ip svc,
    value (tryServices net primary svcs last st) = (ip, svc, None) ->
    In svc svcs /\ svc <> primary.
Proof.
  induction svcs as [|s svcs IH]; intros last st ip svc; cbn [tryServices].
  - cbn. discriminate.
  - destruct (String.eqb s primary) eqn:Es.
    + intros H. destruct (IH _ _ _ _ H). split; [now right|assumption].
    + destruct (getIPFromService_spec net s st) as ([ip' err'] & st1 & E & _).
      rewrite (bind_run _ _ _ _ _ _ E). cbn [value].
      destruct (accepted ip' err').
      * cbn. intros H; inversion H; subst. split; [now left|].
        now apply String.eqb_neq.
      * intros H. destruct (IH _ _ _ _ H). split; [now right|assumption].
Qed.

(** X2.  What a resolution returns: either an address with no error, and
    then the address is non-empty and passes [isValidIPv4] and the service
    named is the primary or another endpoint of the list; or the empty
    address, the empty service name and the error that every service
    failed. *)
Theorem X2_resolution_result_shape (ic : IPChecker) (st : State W) :
  let run := GetPublicIPWithService net ic st in
  (exists ip svc,
      value run = (ip, svc, None)
      /\ ip <> "" /\ isValidIPv4 ip = true
      /\ (svc = primaryService ic
          \/ (In svc (services ic) /\ svc <> primaryService ic)))
  \/ (exists last, value run = ("", "", Some (ErrAllServicesFailed last))).
Proof.
  intros run.
  destruct (value run) as [[ip svc] [e|]] eqn:Ev.
  - right. subst run. unfold GetPublicIPWithService in Ev.
    destruct (getIPFromService_spec net (primaryService ic) st)
      as ([ip' err'] & st1 & E & _).
    rewrite (bind_run _ _ _ _ _ _ E) in Ev. cbn [value] in Ev.
    destruct (accepted ip' err'); [cbn in Ev; discriminate|].
    destruct (tryServices_failure_shape _ _ _ _ _ _ _ Ev) as (-> & -> & l & ->).
    now exists l.
  - left. exists ip, svc. split; [reflexivity|].
    destruct (GetPublicIPWithService_success net ic st ip svc Ev) as [Hne Hv].
    split; [exact Hne|]. split; [exact Hv|].
    subst run. unfold GetPublicIPWithService in Ev.
    destruct (getIPFromService_spec net (primaryService ic) st)
      as ([ip' err'] & st1 & E & _).
    rewrite (bind_run _ _ _ _ _ _ E) in Ev. cbn [value] in Ev.
    destruct (accepted ip' err').
    + cbn in Ev. inversion Ev; subst. now left.
    + right. exact (tryServices_success_service _ _ _ _ _ _ Ev).
Qed.

Lemma queriesTo_others (primary : string) (tried : list string) :
  (forall u, In u tried -> String.eqb u primary = false) ->
  queriesTo primary (map (fun url => Called (CallService url)) tried) = 0%nat.
Proof.
  unfold queriesTo. induction tried as [|u tried IH]; intros H; [reflexivity|].
  cbn. rewrite (H u (or_introl eq_refl)). apply IH.
  intros v Hv. apply H. now right.
Qed.

Lemma GetPublicIPWithService_requests (ic : IPChecker) (st : State W) :
  let run := GetPublicIPWithService net ic st in
  exists tried rest,
    trace run = Called (CallService (primaryService ic))
                :: map (fun url => Called (CallService url)) tried
    /\ otherServices ic = tried ++ rest
    /\ (snd (value run) <> None -> rest = [])
    /\ queriesTo (primaryService ic) (trace run) = 1%nat
    /\ (List.length (trace run) <= 1 + List.length (otherServices ic))%nat
    /\ providerCalls (trace run) = []
    /\ currentIP (final run) = currentIP st.
Proof.
  intros run.
  destruct (quiet_GetPublicIPWithService net ic st) as [Hq Hc]. fold run in Hq, Hc.
  assert (Hshape : exists tried rest,
             trace run = Called (CallService (primaryService ic))
                         :: map (fun url => Called (CallService url)) tried
             /\ otherServices ic = tried ++ rest
             /\ (snd (value run) <> None -> rest = [])).
  { subst run. unfold GetPublicIPWithService.
    destruct (getIPFromService_spec net (primaryService ic) st)
      as ([ip err] & st1 & E & _).
    rewrite (bind_run _ _ _ _ _ _ E).
    destruct (accepted ip err).
    - exists [], (otherServices ic). cbn. repeat split; auto. intros H; now contradiction H.
    - rewrite tryServices_skips_primary. fold (otherServices ic).
      destruct (tryServices_in_order net (primaryService ic) (otherServices ic)
                  (otherServices_not_primary ic) None st1)
        as (r & st' & tried & E' & Hrel).
      rewrite E'. cbn [value final trace].
      destruct (TryInOrder_prefix net _ _ _ _ _ _ Hrel) as [[rest Hrest] Hall].
      exists tried, rest. split; [reflexivity|]. split; [exact Hrest|].
      intros Hr. specialize (Hall Hr). rewrite Hall in Hrest.
      rewrite <- (app_nil_r (otherServices ic)) in Hrest at 1.
      now apply app_inv_head in Hrest. }
  destruct Hshape as (tried & rest & Ht & Ho & Hf).
  exists tried, rest. split; [exact Ht|]. split; [exact Ho|]. split; [exact Hf|].
  split; [|split; [|split; [exact Hq|exact Hc]]].
  - rewrite Ht.
    change (Called (CallService (primaryService ic))
            :: map (fun url => Called (CallService url)) tried)
      with ([Called (CallService (primaryService ic))]
              ++ map (fun url => Called (CallService url)) tried).
    unfold queriesTo. rewrite callsOf_app, filter_app, length_app.
    fold (queriesTo (primaryService ic)
            (map (fun url => Called (CallService url)) tried)).
    rewrite queriesTo_others.
    + cbn. now rewrite String.eqb_refl.
    + intros u Hu.
      pose proof (otherServices_not_primary ic) as Hall.
      rewrite forallb_forall in Hall.
      apply negb_true_iff, Hall. rewrite Ho. apply in_or_app. now left.
  - rewrite Ht, Ho. cbn [List.length]. rewrite length_map, length_app. lia.
Qed.

(** X3.  A resolution sends its first request to the primary and never
    asks the primary again; the other requests go to the remaining
    endpoints in list order, so at most one request per endpoint is sent;
    when the resolution fails every endpoint has been asked.  Nothing is
    sent to the DNS provider and [currentIP] is not touched. *)
Theorem X3_resolution_requests (ic : IPChecker) (st : State W) :
  let run := GetPublicIPWithService net ic st in
  exists tried rest,
    trace run = Called (CallService (primaryService ic))
                :: map (fun url => Called (CallService url)) tried
    /\ otherServices ic = tried ++ rest
    /\ (snd (value run) <> None -> rest = [])
    /\ queriesTo (primaryService ic) (trace run) = 1%nat
    /\ (List.length (trace run) <= 1 + List.length (otherServices ic))%nat
    /\ providerCalls (trace run) = []
    /\ currentIP (final run) = currentIP st.
Proof. exact (GetPublicIPWithService_requests ic st). Qed.

(** ** [UpdateDNSRecord] *)

Lemma UpdateDNSRecord_writes
      (zoneID recordName recordType content : string) (st : State W) :
  let listing := ListDNSRecords net zoneID recordName st in
  let records := fst (value listing) in
  let run := UpdateDNSRecord net zoneID recordName recordType content st in
  (mutations (trace run) = []
   \/ exists target,
       snd (value listing) = None
       /\ find (hasType recordType) records = Some target
       /\ Content target <> content
       /\ mutations (trace run)
          = [CallPut zoneID (ID target)
                     (mkUpdateReq recordType recordName content (TTL target))])
  /\ ((snd (value listing) <> None \/ find (hasType recordType) records = None) ->
      value run <> None /\ trace run = trace listing)
  /\ currentIP (final run) = currentIP st.
Proof.
  intros listing records run. subst listing records run.
  destruct (ListDNSRecords_spec net zoneID recordName st) as ([recs err] & st1 & E & Hc).
  unfold UpdateDNSRecord. rewrite (bind_run _ _ _ _ _ _ E). rewrite E.
  cbn [value final trace fst snd].
  destruct err as [e|].
  { cbn. split; [now left|]. split; [|exact Hc]. intros _. split; [discriminate|reflexivity]. }
  destruct recs as [|r0 recs'].
  { cbn. split; [now left|]. split; [|exact Hc]. intros _. split; [discriminate|reflexivity]. }
  cbn [List.length Nat.eqb].
  destruct (find (hasType recordType) (r0 :: recs')) as [target|] eqn:Ef.
  2:{ cbn. split; [now left|]. split; [|exact Hc]. intros _. split; [discriminate|reflexivity]. }
  assert (Hfound : @None error <> None \/ Some target = None ->
                   forall (v : option error) (t t' : list Event), v <> None /\ t = t').
  { intros [H|H]; [now contradiction H|discriminate]. }
  destruct (String.eqb (Content target) content) eqn:Ec.
  { cbn. split; [now left|]. split; [|exact Hc]. intros H. now apply Hfound. }
  apply String.eqb_neq in Ec.
  unfold bind, request.
  destruct (apiPut net zoneID (ID target) _ (world st1)) as [resp w']. cbn [value final trace].
  assert (Hput : forall t : list Event,
             t = [] ->
             exists target0,
               @None error = None /\ Some target = Some target0
               /\ Content target0 <> content
               /\ mutations ([Called (CallList zoneID recordName)]
                               ++ [Called (CallPut zoneID (ID target)
                                     (mkUpdateReq recordType recordName content
                                                  (TTL target)))] ++ t)
                  = [CallPut zoneID (ID target0)
                       (mkUpdateReq recordType recordName content (TTL target0))]).
  { intros t ->. exists target. repeat split; auto. }
  destruct resp as [e|status raw json]; cbn [value final trace currentIP];
    [|destruct (negb (status =? 200)); cbn [value final trace currentIP];
      [|destruct json as [e|result]; cbn [value final trace currentIP];
        [|destruct (negb (Success result)); cbn [value final trace currentIP];
          [|destruct (negb (String.eqb (res_Content (Result result)) content));
            cbn [value final trace currentIP]]]]];
    (split; [right; now apply Hput|]; split; [|exact Hc]; intros H; now apply Hfound).
Qed.

(** X4.  [UpdateDNSRecord] sends at most one write, an update, never a
    create.  The update goes to the first record of the requested type in
    the listing, whatever its content (provided it differs from the
    requested one), and carries the requested type, name and content and
    that record's TTL.  When the listing fails or holds no record of the
    type, an error is returned and nothing is sent but the listing. *)
Theorem X4_update_targets_first_record_of_type
        (zoneID recordName recordType content : string) (st : State W) :
  let listing := ListDNSRecords net zoneID recordName st in
  let records := fst (value listing) in
  let run := UpdateDNSRecord net zoneID recordName recordType content st in
  (mutations (trace run) = []
   \/ exists target,
       snd (value listing) = None
       /\ find (hasType recordType) records = Some target
       /\ Content target <> content
       /\ mutations (trace run)
          = [CallPut zoneID (ID target)
                     (mkUpdateReq recordType recordName content (TTL target))])
  /\ ((snd (value listing) <> None \/ find (hasType recordType) records = None) ->
      value run <> None /\ trace run = trace listing)
  /\ currentIP (final run) = currentIP st.
Proof. exact (UpdateDNSRecord_writes zoneID recordName recordType content st). Qed.

(** X5.  When [UpdateDNSRecord] returns no error, the listing succeeded and
    held a record of the type, and for the first such record either it
    already had the requested content, and then nothing was written, or the
    provider answered the update with status 200, [success = true] and the
    requested content echoed. *)
Theorem X5_update_nil_means_content_in_place
        (zoneID recordName recordType content : string) (st : State W) :
  let listing := ListDNSRecords net zoneID recordName st in
  let records := fst (value listing) in
  let run := UpdateDNSRecord net zoneID recordName recordType content st in
  value run = None ->
  exists target,
    snd (value listing) = None
    /\ find (hasType recordType) records = Some target
    /\ ((Content target = content /\ trace run = trace listing)
        \/ (exists raw env w',
               apiPut net zoneID (ID target)
                      (mkUpdateReq recordType recordName content (TTL target))
                      (world (final listing))
               = (ApiResponse 200 raw (inr env), w')
               /\ Success env = true
               /\ res_Content (Result env) = content
               /\ final run = mkState w' (currentIP st))).
Proof.
  intros listing records run. subst listing records run.
  destruct (ListDNSRecords_spec net zoneID recordName st) as ([recs err] & st1 & E & Hc).
  unfold UpdateDNSRecord. rewrite (bind_run _ _ _ _ _ _ E). rewrite E.
  cbn [value final trace fst snd].
  destruct err as [e|]; [cbn; discriminate|].
  destruct recs as [|r0 recs']; [cbn; discriminate|].
  cbn [List.length Nat.eqb].
  destruct (find (hasType recordType) (r0 :: recs')) as [target|] eqn:Ef;
    [|cbn; discriminate].
  destruct (String.eqb (Content target) content) eqn:Ec.
  { apply String.eqb_eq in Ec. cbn. intros _. exists target. repeat split; auto. }
  unfold bind, request.
  destruct (apiPut net zoneID (ID target) _ (world st1)) as [resp w'] eqn:Ep.
  cbn [value final trace].
  destruct resp as [e|status raw json]; [cbn; discriminate|].
  destruct (status =? 200) eqn:Es; [|cbn; discriminate]. cbn [negb].
  apply Z.eqb_eq in Es. subst status.
  destruct json as [e|result]; [cbn; discriminate|].
  destruct (Success result) eqn:Eok; [|cbn; discriminate]. cbn [negb].
  destruct (String.eqb (res_Content (Result result)) content) eqn:Eecho;
    [|cbn; discriminate].
  apply String.eqb_eq in Eecho. cbn. intros _.
  exists target. split; [reflexivity|]. split; [reflexivity|]. right.
  exists raw, result, w'. rewrite Hc. repeat split; auto.
Qed.

(** ** [GetCurrentDNSRecord], [GetAllDNSRecords], [FindOrCreateDNSRecord] *)

Lemma find_is_head_of_filter {A} (f : A -> bool) (l : list A) :
  find f l = hd_error (filter f l).
Proof.
  induction l as [|x l IH]; [reflexivity|]. cbn. destruct (f x); [reflexivity|exact IH].
Qed.

(** X6.  [GetCurrentDNSRecord] answers from the same single listing as
    [GetAllDNSRecords]: it returns the content of the first of the records
    [GetAllDNSRecords] returns, the same error when the listing fails, and
    the no-record-of-type error when [GetAllDNSRecords] returns the empty
    list without error. *)
Theorem X6_current_record_is_head_of_all
        (zoneID recordName recordType : string) (st : State W) :
  let cur := GetCurrentDNSRecord net zoneID recordName recordType st in
  let all := GetAllDNSRecords net zoneID recordName recordType st in
  final cur = final all
  /\ trace cur = [Called (CallList zoneID recordName)]
  /\ trace all = [Called (CallList zoneID recordName)]
  /\ value cur = match value all with
                 | (_, Some e) => ("", Some e)
                 | ([], None) => ("", Some (ErrNoRecordOfType recordType))
                 | (r :: _, None) => (Content r, None)
                 end.
Proof.
  intros cur all. subst cur all. unfold GetCurrentDNSRecord, GetAllDNSRecords.
  destruct (ListDNSRecords_spec net zoneID recordName st) as ([recs err] & st1 & E & Hc).
  rewrite !(bind_run _ _ _ _ _ _ E).
  destruct err as [e|]; [cbn; auto|].
  rewrite find_is_head_of_filter.
  destruct (filter (hasType recordType) recs) as [|r l]; cbn; auto.
Qed.

Lemma find_some_filter {A} (f g : A -> bool) (l : list A) (x : A) :
  find g (filter f l) = Some x -> f x = true /\ g x = true /\ In x l.
Proof.
  intros H. apply find_some in H. destruct H as [Hin Hg].
  apply filter_In in Hin. tauto.
Qed.

(** X7.  [FindOrCreateDNSRecord] never updates: it sends no write, or the
    one create request for the content asked.  When the records of the type
    are listed and one holds the content, that record, the first such, is
    returned and nothing is written; when the listing fails it creates all
    the same.  Whenever it returns no error the record returned is not
    nil. *)
Theorem X7_find_or_create
        (zoneID recordName recordType content : string) (ttl : Z) (st : State W) :
  let all := GetAllDNSRecords net zoneID recordName recordType st in
  let run := FindOrCreateDNSRecord net zoneID recordName recordType content ttl st in
  let create := CallPost zoneID (mkCreateReq recordType recordName content ttl) in
  (mutations (trace run) = [] \/ mutations (trace run) = [create])
  /\ (snd (value run) = None -> fst (value run) <> None)
  /\ (forall r,
         snd (value all) = None ->
         find (hasContent content) (fst (value all)) = Some r ->
         value run = (Some r, None) /\ mutations (trace run) = []
         /\ Type_ r = recordType /\ Content r = content)
  /\ (snd (value all) <> None -> mutations (trace run) = [create])
  /\ currentIP (final run) = currentIP st.
Proof.
  intros all run create. subst all run create. unfold FindOrCreateDNSRecord.
  pose proof (GetAllDNSRecords_spec net zoneID recordName recordType st)
    as ([recs err] & st1 & E & Hc & Herr).
  assert (Hfilter : snd (recs, err) = None ->
                    recs = filter (hasType recordType) recs).
  { unfold GetAllDNSRecords in E.
    destruct (ListDNSRecords_spec net zoneID recordName st) as ([l e] & s1 & El & _).
    rewrite (bind_run _ _ _ _ _ _ El) in E. destruct e; cbn in E.
    - inversion E; subst. discriminate.
    - inversion E; subst. intros _.
      clear. induction l as [|x l IH]; [reflexivity|]. cbn.
      destruct (hasType recordType x) eqn:Ex; cbn; [rewrite Ex; now f_equal|exact IH]. }
  rewrite (bind_run _ _ _ _ _ _ E). rewrite E. cbn [value final trace fst snd] in *.
  destruct (CreateDNSRecord_spec net zoneID recordName recordType content ttl st1)
    as ([rec cerr] & st2 & Ec & Hc2).
  assert (Hnil : snd (rec, cerr) = None -> fst (rec, cerr) <> None).
  { unfold CreateDNSRecord, bind, request in Ec.
    destruct (apiPost net zoneID _ (world st1)) as [resp w']. cbn in Ec.
    destruct resp as [e|status raw json]; cbn in Ec; [inversion Ec; subst; discriminate|].
    destruct (negb (status =? 200)); cbn in Ec; [inversion Ec; subst; discriminate|].
    destruct json as [e|result]; cbn in Ec; [inversion Ec; subst; discriminate|].
    destruct (negb (Success result)); cbn in Ec; inversion Ec; subst; discriminate. }
  destruct err as [e|].
  - rewrite Ec. cbn [value final trace fst snd] in *.
    split; [now right|]. split; [exact Hnil|].
    split; [intros r H; discriminate|]. split; [reflexivity|congruence].
  - destruct (find (hasContent content) recs) as [r|] eqn:Ef.
    + cbn. split; [now left|]. split; [discriminate|].
      split; [|split; [intros H; now contradiction H|exact Hc]].
      intros r' _ Hr'. inversion Hr'; subst r'.
      rewrite (Hfilter eq_refl) in Ef.
      destruct (find_some_filter _ _ _ _ Ef) as (Ht & Hcn & _).
      repeat split; auto; now apply String.eqb_eq.
    + rewrite Ec. cbn [value final trace fst snd] in *.
      split; [now right|]. split; [exact Hnil|].
      split; [intros r _ H; discriminate|].
      split; [intros H; now contradiction H|congruence].
Qed.

(** ** Writes: how many, and what they carry *)

Lemma writing_bind {A B} (zoneID recordType recordName content : string)
      (n1 n2 : nat) (c : M A) (k : A -> M B) (st : State W) :
  writing zoneID recordType recordName content n1 st (c st) ->
  (forall v s, currentIP s = currentIP st ->
               writing zoneID recordType recordName content n2 s (k v s)) ->
  writing zoneID recordType recordName content (n1 + n2) st (bind c k st).
Proof.
  intros (Hf1 & Hl1 & Hc1) Hk.
  destruct (Hk (value (c st)) (final (c st)) Hc1) as (Hf2 & Hl2 & Hc2).
  unfold writing, bind; cbn [trace final]. rewrite mutations_app, length_app.
  split; [now apply Forall_app|]. split; [lia|congruence].
Qed.

Lemma writing_silent {A} (zoneID recordType recordName content : string) (n : nat)
      (a : A) (st : State W) (t : list Event) :
  mutations t = [] -> writing zoneID recordType recordName content n st (mkRun a st t).
Proof.
  intros H. unfold writing. cbn [trace final]. rewrite H.
  split; [constructor|]. split; [cbn; lia|reflexivity].
Qed.

Lemma writing_weaken {A} (zoneID recordType recordName content : string) (n m : nat)
      (st : State W) (r : Run W A) :
  (n <= m)%nat ->
  writing zoneID recordType recordName content n st r ->
  writing zoneID recordType recordName content m st r.
Proof. intros Hle (Hf & Hl & Hc). split; [exact Hf|]. split; [lia|exact Hc]. Qed.

Lemma writing_GetAllDNSRecords (zoneID recordType recordName content : string)
      (zone name type : string) (st : State W) :
  writing zoneID recordType recordName content 0 st
          (GetAllDNSRecords net zone name type st).
Proof.
  destruct (GetAllDNSRecords_spec net zone name type st) as (v & st1 & E & Hc & _).
  rewrite E. unfold writing. cbn. split; [constructor|]. split; [lia|exact Hc].
Qed.

Lemma writing_CreateDNSRecord (zone name type content : string) (ttl : Z)
      (st : State W) :
  writing zone type name content 1 st
          (CreateDNSRecord net zone name type content ttl st).
Proof.
  destruct (CreateDNSRecord_spec net zone name type content ttl st) as (v & st1 & E & Hc).
  rewrite E. unfold writing. cbn.
  split; [constructor; [cbn; auto|constructor]|]. split; [lia|exact Hc].
Qed.

Lemma writing_UpdateDNSRecord (zone name type content : string) (st : State W) :
  writing zone type name content 1 st (UpdateDNSRecord net zone name type content st).
Proof.
  destruct (UpdateDNSRecord_writes zone name type content st)
    as ([Hm|(target & _ & _ & _ & Hm)] & _ & Hc);
    unfold writing; rewrite Hm; cbn.
  - split; [constructor|]. split; [lia|exact Hc].
  - split; [constructor; [cbn; auto|constructor]|]. split; [lia|exact Hc].
Qed.

Lemma writing_UpdateOrCreateDNSRecord (zone name type content : string) (ttl : Z)
      (oldIP : string) (st : State W) :
  writing zone type name content 1 st
          (UpdateOrCreateDNSRecord net zone name type content ttl oldIP st).
Proof.
  unfold UpdateOrCreateDNSRecord.
  change 1%nat with (0 + 1)%nat.
  apply writing_bind; [apply writing_GetAllDNSRecords|].
  intros [records err] s1 _.
  destruct (negb (isNil err) || (List.length records =? 0)%nat)%bool.
  { change 1%nat with (1 + 0)%nat.
    apply writing_bind; [apply writing_CreateDNSRecord|].
    intros [? ?] s2 _. now apply writing_silent. }
  destruct (existsb (hasContent content) records); [now apply writing_silent|].
  destruct (negb (String.eqb oldIP "") && existsb (hasContent oldIP) records)%bool.
  { apply writing_UpdateDNSRecord. }
  change 1%nat with (1 + 0)%nat.
  apply writing_bind; [apply writing_CreateDNSRecord|].
  intros [? ?] s2 _. now apply writing_silent.
Qed.

(** X8.  One call of [UpdateOrCreateDNSRecord] sends at most one write,
    and a write it sends, update or create, carries the zone, type, name
    and content it was given. *)
Theorem X8_update_or_create_writes_once
        (zoneID recordName recordType content : string) (ttl : Z) (oldIP : string)
        (st : State W) :
  let run := UpdateOrCreateDNSRecord net zoneID recordName recordType content ttl
                                     oldIP st in
  Forall (carries zoneID recordType recordName content) (mutations (trace run))
  /\ (List.length (mutations (trace run)) <= 1)%nat
  /\ currentIP (final run) = currentIP st.
Proof.
  exact (writing_UpdateOrCreateDNSRecord zoneID recordName recordType content ttl
           oldIP st).
Qed.

(** X9.  When the records of the type are listed and one of them already
    holds the content, [UpdateOrCreateDNSRecord] returns no error and sends
    nothing but that listing, whatever the old address. *)
Theorem X9_update_or_create_is_noop_when_present
        (zoneID recordName recordType content : string) (ttl : Z) (oldIP : string)
        (st : State W) :
  let all := GetAllDNSRecords net zoneID recordName recordType st in
  let run := UpdateOrCreateDNSRecord net zoneID recordName recordType content ttl
                                     oldIP st in
  snd (value all) = None ->
  existsb (hasContent content) (fst (value all)) = true ->
  value run = None /\ trace run = trace all /\ final run = final all.
Proof.
  intros all run. subst all run. unfold UpdateOrCreateDNSRecord.
  destruct (GetAllDNSRecords_spec net zoneID recordName recordType st)
    as ([recs err] & st1 & E & _).
  rewrite (bind_run _ _ _ _ _ _ E), E. cbn [value final trace fst snd].
  intros -> Hex.
  assert (Hlen : (List.length recs =? 0)%nat = false).
  { destruct recs; [discriminate|reflexivity]. }
  cbn [isNil negb orb]. rewrite Hlen, Hex. cbn. auto.
Qed.

(** X10.  With an empty old address, or when no listed record holds the
    old address, [UpdateOrCreateDNSRecord] never updates a record: it sends
    no write or the one create request. *)
Theorem X10_update_or_create_without_old_record_only_creates
        (zoneID recordName recordType content : string) (ttl : Z) (oldIP : string)
        (st : State W) :
  let all := GetAllDNSRecords net zoneID recordName recordType st in
  let run := UpdateOrCreateDNSRecord net zoneID recordName recordType content ttl
                                     oldIP st in
  oldIP = "" \/ existsb (hasContent oldIP) (fst (value all)) = false ->
  mutations (trace run) = []
  \/ mutations (trace run)
     = [CallPost zoneID (mkCreateReq recordType recordName content ttl)].
Proof.
  intros all run. subst all run. unfold UpdateOrCreateDNSRecord.
  destruct (GetAllDNSRecords_spec net zoneID recordName recordType st)
    as ([recs err] & st1 & E & _).
  rewrite (bind_run _ _ _ _ _ _ E), E. cbn [value final trace fst snd].
  intros Hold.
  assert (Hno : (negb (String.eqb oldIP "") && existsb (hasContent oldIP) recs)%bool
                = false).
  { destruct Hold as [-> | ->]; [reflexivity|apply andb_false_r]. }
  destruct (CreateDNSRecord_spec net zoneID recordName recordType content ttl st1)
    as ([rec cerr] & st2 & Ec & _).
  destruct (negb (isNil err) || (List.length recs =? 0)%nat)%bool.
  { rewrite (bind_run _ _ _ _ _ _ Ec). cbn. now right. }
  destruct (existsb (hasContent content) recs); [cbn; now left|].
  rewrite Hno, (bind_run _ _ _ _ _ _ Ec). cbn. now right.
Qed.

(** ** Measures on traces *)

Lemma sleptOf_app (a b : list Event) : sleptOf (a ++ b) = sleptOf a + sleptOf b.
Proof.
  unfold sleptOf. induction a as [|e a IH]; cbn; [reflexivity|].
  destruct e; rewrite IH; lia.
Qed.

Lemma queriesTo_app (url : string) (a b : list Event) :
  queriesTo url (a ++ b) = (queriesTo url a + queriesTo url b)%nat.
Proof. unfold queriesTo. now rewrite callsOf_app, filter_app, length_app. Qed.

Lemma callsOnly_sleptOf (t : list Event) : callsOnly t -> sleptOf t = 0.
Proof.
  unfold callsOnly. induction 1 as [|e t He _ IH]; [reflexivity|].
  destruct e; cbn; [exact IH|contradiction|contradiction].
Qed.

Lemma callsOnly_app (a b : list Event) : callsOnly a -> callsOnly b -> callsOnly (a ++ b).
Proof. intros Ha Hb. apply Forall_app. now split. Qed.

Lemma callsOnly_bind {A B} (c : M A) (k : A -> M B) (st : State W) :
  callsOnly (trace (c st)) ->
  (forall v s, callsOnly (trace (k v s))) ->
  callsOnly (trace (bind c k st)).
Proof. intros Hc Hk. unfold bind; cbn [trace]. apply callsOnly_app; auto. Qed.

Lemma callsOnly_one (c : Call) : callsOnly [Called c].
Proof. constructor; [exact I|constructor]. Qed.

Lemma callsOnly_GetAllDNSRecords (zone name type : string) (st : State W) :
  callsOnly (trace (GetAllDNSRecords net zone name type st)).
Proof.
  destruct (GetAllDNSRecords_spec net zone name type st) as (v & st1 & E & _).
  rewrite E. apply callsOnly_one.
Qed.

Lemma callsOnly_CreateDNSRecord (zone name type content : string) (ttl : Z)
      (st : State W) :
  callsOnly (trace (CreateDNSRecord net zone name type content ttl st)).
Proof.
  destruct (CreateDNSRecord_spec net zone name type content ttl st) as (v & st1 & E & _).
  rewrite E. apply callsOnly_one.
Qed.

Lemma callsOnly_UpdateDNSRecord (zone name type content : string) (st : State W) :
  callsOnly (trace (UpdateDNSRecord net zone name type content st)).
Proof.
  unfold UpdateDNSRecord.
  destruct (ListDNSRecords_spec net zone name st) as ([recs err] & st1 & E & _).
  rewrite (bind_run _ _ _ _ _ _ E). cbn [trace].
  apply callsOnly_app; [apply callsOnly_one|].
  destruct err; [constructor|].
  destruct (List.length recs =? 0)%nat; [constructor|].
  destruct (find (hasType type) recs) as [target|]; [|constructor].
  destruct (String.eqb (Content target) content); [constructor|].
  unfold bind, request.
  destruct (apiPut net zone (ID target) _ (world st1)) as [resp w']. cbn [value final trace].
  apply callsOnly_app; [apply callsOnly_one|].
  destruct resp as [e|status raw json]; [constructor|].
  destruct (negb (status =? 200)); [constructor|].
  destruct json as [e|result]; [constructor|].
  destruct (negb (Success result)); [constructor|].
  destruct (negb (String.eqb (res_Content (Result result)) content)); constructor.
Qed.

Lemma callsOnly_UpdateOrCreateDNSRecord (zone name type content : string) (ttl : Z)
      (oldIP : string) (st : State W) :
  callsOnly (trace (UpdateOrCreateDNSRecord net zone name type content ttl oldIP st)).
Proof.
  unfold UpdateOrCreateDNSRecord.
  apply callsOnly_bind; [apply callsOnly_GetAllDNSRecords|].
  intros [records err] s1.
  destruct (negb (isNil err) || (List.length records =? 0)%nat)%bool.
  { apply callsOnly_bind; [apply callsOnly_CreateDNSRecord|].
    intros [? ?] s2. constructor. }
  destruct (existsb (hasContent content) records); [constructor|].
  destruct (negb (String.eqb oldIP "") && existsb (hasContent oldIP) records)%bool.
  { apply callsOnly_UpdateDNSRecord. }
  apply callsOnly_bind; [apply callsOnly_CreateDNSRecord|].
  intros [? ?] s2. constructor.
Qed.

Section MoreCycle.

Variable config : Config.
Variable ipChecker : IPChecker.

(** ** The session address *)

Lemma applyChange_currentIP (ip : string) (allRecords : list DNSRecord) (st : State W) :
  currentIP (final (applyChange net config ip allRecords st)) = currentIP st
  \/ currentIP (final (applyChange net config ip allRecords st)) = ip.
Proof.
  unfold applyChange.
  destruct (creating_mutate net config ip allRecords st) as [_ Hc].
  destruct (mutate net config ip allRecords st) as [[ok lastErr] s t] eqn:Em.
  rewrite (bind_run _ _ _ _ _ _ Em). cbn [final currentIP] in *.
  destruct ok; cbn [negb].
  - right. destruct (verify_spec net config ip s) as (s1 & l & Ev & _).
    rewrite (bind_run _ _ _ _ _ _ Ev). reflexivity.
  - left. exact Hc.
Qed.

Lemma reconcile_currentIP (ip : string) (st : State W) :
  currentIP (final (reconcile net config ip st)) = currentIP st
  \/ currentIP (final (reconcile net config ip st)) = ip.
Proof.
  unfold reconcile.
  destruct (inspect_spec net config ip st) as ([recs err] & st1 & E & Hc & _).
  rewrite (bind_run _ _ _ _ _ _ E). cbn [final].
  destruct err as [e|].
  - rewrite (bind_run (logInfo _) _ st1 st1 tt _ eq_refl). cbn [final].
    rewrite <- Hc. apply applyChange_currentIP.
  - rewrite (bind_run (logInfo _) _ st1 st1 tt _ eq_refl). cbn [final].
    destruct (existsb (hasContent ip) recs).
    + right. reflexivity.
    + rewrite (bind_run (logInfo _) _ st1 st1 tt _ eq_refl). cbn [final].
      rewrite <- Hc. apply applyChange_currentIP.
Qed.

(** X11.  A cycle leaves the last applied address as it was, or sets it to
    the address its first resolution returned; that address is not empty,
    passes [isValidIPv4], differs from the previous last applied address,
    and was returned again by the confirmation. *)
Theorem X11_cycle_sets_only_the_confirmed_address (st : State W) :
  let run := checkAndUpdate net config ipChecker st in
  let ob := observe net ipChecker st in
  currentIP (final run) = currentIP st
  \/ (exists svc svc2,
         value ob = (currentIP (final run), svc, None)
         /\ value (confirm net ipChecker (currentIP (final run)) (final ob))
            = (currentIP (final run), svc2, None)
         /\ currentIP (final run) <> ""
         /\ isValidIPv4 (currentIP (final run)) = true
         /\ currentIP (final run) <> currentIP st).
Proof.
  intros run ob. subst run ob.
  pose proof (quiet_observe net ipChecker st) as [_ Hc1].
  pose proof (observe_success net ipChecker st) as Hok.
  destruct (observe net ipChecker st) as [[[ip svc] err] st1 t1] eqn:Eo.
  cbn [value final] in *.
  unfold checkAndUpdate. rewrite (bind_run _ _ _ _ _ _ Eo). cbn [final].
  destruct err as [e|]; [now left|].
  rewrite (bind_run (logInfo _) _ st1 st1 tt _ eq_refl). cbn [final].
  rewrite (bind_run getCurrentIP _ st1 st1 (currentIP st1) [] eq_refl). cbn [final].
  destruct (String.eqb ip (currentIP st1)) eqn:Ecur; [now left|].
  apply String.eqb_neq in Ecur.
  pose proof (quiet_confirm net ipChecker ip st1) as [_ Hc2].
  destruct (confirm net ipChecker ip st1) as [[[ip2 svc2] err2] st2 t2] eqn:Ec.
  rewrite (bind_run _ _ _ _ _ _ Ec). cbn [final] in *.
  destruct err2 as [e|]; [left; cbn; congruence|].
  destruct (String.eqb ip2 ip) eqn:E2; cbn [negb]; [|left; cbn; congruence].
  apply String.eqb_eq in E2. subst ip2.
  destruct (reconcile_currentIP ip st2) as [H|H]; [left; congruence|].
  right. rewrite H. exists svc, svc2.
  destruct (Hok ip svc eq_refl) as [Hne Hv].
  rewrite Ec. cbn [value]. repeat split; auto. congruence.
Qed.

(** ** Writes of a cycle *)

Lemma writing_applyLoop (ip : string) (ttl : Z) (remaining : nat) :
  forall (i : Z) (last : option error) (st : State W),
    writing (ZoneID config) (RecordType config) (RecordName config) ip remaining st
            (applyLoop net config ip ttl remaining i last st).
Proof.
  induction remaining as [|k IH]; intros i last st; cbn [applyLoop].
  - now apply writing_silent.
  - change (S k) with (0 + (1 + k))%nat.
    apply writing_bind; [now apply writing_silent|]. intros cur s1 _.
    apply writing_bind; [apply writing_UpdateOrCreateDNSRecord|].
    intros err s2 _. destruct err; [|now apply writing_silent].
    change k with (0 + k)%nat.
    apply writing_bind.
    + destruct (i <? maxRetries - 1); [|now apply writing_silent].
      change 0%nat with (0 + 0)%nat.
      apply writing_bind; intros; now apply writing_silent.
    + intros _ s3 _. apply IH.
Qed.

Lemma writing_mutate (ip : string) (allRecords : list DNSRecord) (st : State W) :
  writing (ZoneID config) (RecordType config) (RecordName config) ip 3 st
          (mutate net config ip allRecords st).
Proof.
  unfold mutate. change 3%nat with (0 + 3)%nat.
  apply writing_bind; [now apply writing_silent|].
  intros _ s _. change (Z.to_nat maxRetries) with 3%nat. apply writing_applyLoop.
Qed.

Lemma applyChange_writes (ip : string) (allRecords : list DNSRecord) (st : State W) :
  Forall (carries (ZoneID config) (RecordType config) (RecordName config) ip)
         (mutations (trace (applyChange net config ip allRecords st)))
  /\ (List.length (mutations (trace (applyChange net config ip allRecords st))) <= 3)%nat.
Proof.
  unfold applyChange.
  destruct (writing_mutate ip allRecords st) as (Hf & Hl & _).
  destruct (mutate net config ip allRecords st) as [[ok lastErr] s t] eqn:Em.
  rewrite (bind_run _ _ _ _ _ _ Em). cbn [trace] in *.
  assert (Hrest : forall t', mutations t' = [] ->
            Forall (carries (ZoneID config) (RecordType config) (RecordName config) ip)
                   (mutations (t ++ t'))
            /\ (List.length (mutations (t ++ t')) <= 3)%nat).
  { intros t' Ht'. rewrite mutations_app, Ht', app_nil_r. now split. }
  apply Hrest. destruct ok; cbn [negb].
  - destruct (verify_spec net config ip s) as (s1 & l & Ev & _).
    rewrite (bind_run _ _ _ _ _ _ Ev). cbn. reflexivity.
  - reflexivity.
Qed.

Lemma reconcile_writes (ip : string) (st : State W) :
  Forall (carries (ZoneID config) (RecordType config) (RecordName config) ip)
         (mutations (trace (reconcile net config ip st)))
  /\ (List.length (mutations (trace (reconcile net config ip st))) <= 3)%nat.
Proof.
  unfold reconcile.
  destruct (inspect_spec net config ip st) as ([recs err] & st1 & E & _).
  rewrite (bind_run _ _ _ _ _ _ E). cbn [trace].
  assert (Hrest : forall pre t', mutations pre = [] ->
            Forall (carries (ZoneID config) (RecordType config) (RecordName config) ip)
                   (mutations t')
            /\ (List.length (mutations t') <= 3)%nat ->
            Forall (carries (ZoneID config) (RecordType config) (RecordName config) ip)
                   (mutations (pre ++ t'))
            /\ (List.length (mutations (pre ++ t')) <= 3)%nat).
  { intros pre t' Hpre H. now rewrite mutations_app, Hpre. }
  apply Hrest; [reflexivity|].
  destruct err as [e|].
  - rewrite (bind_run (logInfo _) _ st1 st1 tt _ eq_refl). cbn [trace].
    apply Hrest; [reflexivity|apply applyChange_writes].
  - rewrite (bind_run (logInfo _) _ st1 st1 tt _ eq_refl). cbn [trace].
    apply Hrest; [reflexivity|].
    destruct (existsb (hasContent ip) recs).
    + cbn. split; [constructor|lia].
    + rewrite (bind_run (logInfo _) _ st1 st1 tt _ eq_refl). cbn [trace].
      apply Hrest; [reflexivity|apply applyChange_writes].
Qed.

(** X12.  A cycle sends at most three writes, and each write it sends,
    update or create, is for the configured zone, type and name and carries
    the address returned by the cycle's first resolution. *)
Theorem X12_cycle_writes_only_the_observed_address (st : State W) :
  let run := checkAndUpdate net config ipChecker st in
  let ip := fst (fst (value (observe net ipChecker st))) in
  Forall (carries (ZoneID config) (RecordType config) (RecordName config) ip)
         (mutations (trace run))
  /\ (List.length (mutations (trace run)) <= 3)%nat.
Proof.
  intros run ip. subst run ip.
  pose proof (quiet_observe net ipChecker st) as [Hq1 _].
  destruct (observe net ipChecker st) as [[[ip svc] err] st1 t1] eqn:Eo.
  cbn [value final trace fst] in *.
  assert (Hrest : forall pre t', providerCalls pre = [] ->
            Forall (carries (ZoneID config) (RecordType config) (RecordName config) ip)
                   (mutations t')
            /\ (List.length (mutations t') <= 3)%nat ->
            Forall (carries (ZoneID config) (RecordType config) (RecordName config) ip)
                   (mutations (pre ++ t'))
            /\ (List.length (mutations (pre ++ t')) <= 3)%nat).
  { intros pre t' Hpre H.
    now rewrite mutations_app, (no_provider_call_no_mutation _ Hpre). }
  assert (Hnone : Forall (carries (ZoneID config) (RecordType config)
                                  (RecordName config) ip) (mutations [])
                  /\ (List.length (mutations []) <= 3)%nat).
  { cbn. split; [constructor|lia]. }
  unfold checkAndUpdate. rewrite (bind_run _ _ _ _ _ _ Eo). cbn [trace].
  apply Hrest; [exact Hq1|].
  destruct err as [e|]; [exact Hnone|].
  rewrite (bind_run (logInfo _) _ st1 st1 tt _ eq_refl). cbn [trace].
  apply Hrest; [reflexivity|].
  rewrite (bind_run getCurrentIP _ st1 st1 (currentIP st1) [] eq_refl). cbn [trace app].
  destruct (String.eqb ip (currentIP st1)); [exact Hnone|].
  pose proof (quiet_confirm net ipChecker ip st1) as [Hq2 _].
  destruct (confirm net ipChecker ip st1) as [[[ip2 svc2] err2] st2 t2] eqn:Ec.
  rewrite (bind_run _ _ _ _ _ _ Ec). cbn [trace] in *.
  apply Hrest; [exact Hq2|].
  destruct err2 as [e|]; [exact Hnone|].
  destruct (negb (String.eqb ip2 ip)); [exact Hnone|].
  apply reconcile_writes.
Qed.

(** ** Retries *)

Lemma GetPublicIPWithService_attempt (st : State W) :
  queriesTo (primaryService ipChecker)
            (trace (GetPublicIPWithService net ipChecker st)) = 1%nat
  /\ sleptOf (trace (GetPublicIPWithService net ipChecker st)) = 0.
Proof.
  destruct (GetPublicIPWithService_requests ipChecker st)
    as (tried & rest & Ht & _ & _ & Hq & _).
  split; [exact Hq|]. rewrite Ht. apply callsOnly_sleptOf.
  constructor; [exact I|]. clear. induction tried; constructor; auto.
Qed.

Lemma resolveLoop_attempts (k : nat) :
  forall (i : Z) r (st : State W),
    i = 3 - Z.of_nat k ->
    let run := resolveLoop net ipChecker k i r st in
    let n := queriesTo (primaryService ipChecker) (trace run) in
    (n <= k)%nat
    /\ (k <> 0%nat -> 1 <= n)%nat
    /\ sleptOf (trace run) = Z.of_nat (n - 1)
    /\ (k <> 0%nat -> snd (value run) <> None -> n = k).
Proof.
  induction k as [|k IH]; intros i r st Hi run n; subst run n.
  - cbn. repeat split; auto; intros H; now contradiction H.
  - cbn [resolveLoop].
    destruct (GetPublicIPWithService_attempt st) as [Hq Hs].
    destruct (GetPublicIPWithService net ipChecker st) as [[[ip svc] err] s1 t1] eqn:E.
    cbn [trace] in Hq, Hs.
    rewrite (bind_run _ _ _ _ _ _ E). cbn [snd value trace].
    destruct err as [e|].
    + set (pause := if i <? maxRetries - 1
                    then bind (logError (ErrorResolveRetry (i + 1) maxRetries (Some e)))
                              (fun _ => Sleep 1)
                    else ret tt).
      assert (Ep : exists tp, pause s1 = mkRun tt s1 tp
                              /\ queriesTo (primaryService ipChecker) tp = 0%nat
                              /\ sleptOf tp = if (k =? 0)%nat then 0 else 1).
      { subst pause. unfold maxRetries.
        destruct (i <? 3 - 1) eqn:Ei.
        - apply Z.ltb_lt in Ei. destruct k; [lia|].
          eexists. split; [reflexivity|]. split; reflexivity.
        - apply Z.ltb_ge in Ei. destruct k; [|lia].
          eexists. split; [reflexivity|]. split; reflexivity. }
      destruct Ep as (tp & Ep & Hqp & Hsp).
      rewrite (bind_run _ _ _ _ _ _ Ep). cbn [value final trace].
      assert (Hi' : i + 1 = 3 - Z.of_nat k) by lia.
      destruct (IH (i + 1) (ip, svc, Some e) s1 Hi') as (H1 & H2 & H3 & H4).
      rewrite !queriesTo_app, !sleptOf_app, Hq, Hqp, Hs, Hsp, H3.
      set (n' := queriesTo (primaryService ipChecker)
                   (trace (resolveLoop net ipChecker k (i + 1) (ip, svc, Some e) s1)))
        in *.
      destruct k as [|k'].
      * cbn in *. assert (n' = 0)%nat by lia.
        repeat split; try lia.
      * assert (1 <= n')%nat by (apply H2; discriminate).
        cbn [Nat.eqb].
        repeat split; try lia.
        intros _ Herr. rewrite (H4 ltac:(discriminate) Herr). lia.
    + cbn. rewrite app_nil_r, Hq, Hs. repeat split; try lia.
      intros _ H. now contradiction H.
Qed.

(** X13.  The first resolution of a cycle is attempted at least once and
    at most three times, with a pause of one second between two attempts
    and none after the last; it gives up with an error only after the third
    attempt. *)
Theorem X13_resolution_is_retried_three_times (st : State W) :
  let run := observe net ipChecker st in
  let n := queriesTo (primaryService ipChecker) (trace run) in
  (1 <= n <= 3)%nat
  /\ sleptOf (trace run) = Z.of_nat n - 1
  /\ (snd (value run) <> None -> n = 3%nat /\ sleptOf (trace run) = 2).
Proof.
  intros run n. subst run n. unfold observe.
  rewrite (bind_run (logInfo _) _ st st tt _ eq_refl). cbn [value trace].
  change (Z.to_nat maxRetries) with 3%nat.
  destruct (resolveLoop_attempts 3 0 ("", "", None) st eq_refl) as (H1 & H2 & H3 & H4).
  rewrite queriesTo_app, sleptOf_app, H3.
  change (queriesTo (primaryService ipChecker) [Logged InfoChecking]) with 0%nat.
  change (sleptOf [Logged InfoChecking]) with 0.
  specialize (H2 ltac:(discriminate)).
  split; [lia|]. split; [lia|].
  intros Herr. specialize (H4 ltac:(discriminate) Herr). lia.
Qed.

Lemma confirm_attempt (ip : string) (st : State W) :
  queriesTo (primaryService ipChecker) (trace (confirm net ipChecker ip st)) = 1%nat
  /\ sleptOf (trace (confirm net ipChecker ip st)) = 3.
Proof.
  unfold confirm.
  rewrite (bind_run getCurrentIP _ st st (currentIP st) [] eq_refl).
  rewrite (bind_run (logInfo _) _ st st tt _ eq_refl).
  rewrite (bind_run (Sleep 3) _ st st tt _ eq_refl).
  cbn [trace]. destruct (GetPublicIPWithService_attempt st) as [Hq Hs].
  rewrite !queriesTo_app, !sleptOf_app, Hq, Hs. split; reflexivity.
Qed.

(** X14.  The confirmation is a single resolution after a pause of three
    seconds, not retried: when it fails the cycle ends there, with the
    failure logged, nothing sent to the provider and the last applied
    address unchanged. *)
Theorem X14_failed_confirmation_aborts
        (st st1 : State W) (ip svc : string) (t1 : list Event) :
  observe net ipChecker st = mkRun (ip, svc, None) st1 t1 ->
  ip <> currentIP st ->
  let co := confirm net ipChecker ip st1 in
  snd (value co) <> None ->
  let run := checkAndUpdate net config ipChecker st in
  providerCalls (trace run) = []
  /\ currentIP (final run) = currentIP st
  /\ queriesTo (primaryService ipChecker) (trace co) = 1%nat
  /\ sleptOf (trace co) = 3
  /\ trace run = t1 ++ [Logged (InfoCurrentIP ip svc)] ++ trace co
                    ++ [Logged (ErrorConfirmFailed (snd (value co)))].
Proof.
  intros Hobs Hne co Herr run. subst co run.
  destruct (quiet_run _ _ _ _ _ (quiet_observe net ipChecker st) Hobs) as [Hq1 Hc1].
  destruct (quiet_confirm net ipChecker ip st1) as [Hq2 Hc2].
  destruct (confirm_attempt ip st1) as [Hn Hs].
  destruct (confirm net ipChecker ip st1) as [[[ip2 svc2] err2] st2 t2] eqn:Ec.
  cbn [value final trace snd] in *.
  destruct err2 as [e|]; [|now contradiction Herr].
  assert (E : checkAndUpdate net config ipChecker st
              = mkRun tt st2 (t1 ++ [Logged (InfoCurrentIP ip svc)] ++ t2
                                 ++ [Logged (ErrorConfirmFailed (Some e))])).
  { unfold checkAndUpdate. rewrite (bind_run _ _ _ _ _ _ Hobs).
    rewrite (bind_run (logInfo _) _ st1 st1 tt _ eq_refl).
    rewrite (bind_run getCurrentIP _ st1 st1 (currentIP st1) [] eq_refl).
    rewrite Hc1, (eqb_neq_false _ _ Hne), (bind_run _ _ _ _ _ _ Ec). reflexivity. }
  rewrite E. cbn [final trace].
  split; [|split; [congruence|split; [exact Hn|split; [exact Hs|reflexivity]]]].
  rewrite !providerCalls_app, Hq1, Hq2. reflexivity.
Qed.

Lemma applyLoop_failure (ip : string) (ttl : Z) (k : nat) :
  forall (i : Z) (last : option error) (st : State W),
    i = 3 - Z.of_nat k ->
    let run := applyLoop net config ip ttl k i last st in
    fst (value run) = false ->
    (k <> 0%nat -> snd (value run) <> None)
    /\ sleptOf (trace run) = 2 * Z.of_nat (k - 1).
Proof.
  induction k as [|k IH]; intros i last st Hi run; subst run.
  - cbn. intros _. split; [intros H; now contradiction H|reflexivity].
  - cbn [applyLoop].
    rewrite (bind_run getCurrentIP _ st st (currentIP st) [] eq_refl).
    pose proof (callsOnly_UpdateOrCreateDNSRecord (ZoneID config) (RecordName config)
                  (RecordType config) ip ttl (currentIP st) st) as Hcalls.
    destruct (UpdateOrCreateDNSRecord net (ZoneID config) (RecordName config)
                (RecordType config) ip ttl (currentIP st) st) as [err s1 t1] eqn:E.
    cbn [trace] in Hcalls. apply callsOnly_sleptOf in Hcalls.
    rewrite (bind_run _ _ _ _ _ _ E). cbn [value final trace].
    destruct err as [e|]; [|cbn; discriminate].
    set (pause := if i <? maxRetries - 1
                  then bind (logError (ErrorApplyRetry (i + 1) maxRetries (Some e)))
                            (fun _ => Sleep 2)
                  else ret tt).
    assert (Ep : exists tp, pause s1 = mkRun tt s1 tp
                            /\ sleptOf tp = if (k =? 0)%nat then 0 else 2).
    { subst pause. unfold maxRetries.
      destruct (i <? 3 - 1) eqn:Ei.
      - apply Z.ltb_lt in Ei. destruct k; [lia|]. eexists. split; reflexivity.
      - apply Z.ltb_ge in Ei. destruct k; [|lia]. eexists. split; reflexivity. }
    destruct Ep as (tp & Ep & Hsp).
    rewrite (bind_run _ _ _ _ _ _ Ep). cbn [value final trace].
    assert (Hi' : i + 1 = 3 - Z.of_nat k) by lia.
    intros Hfail. destruct (IH (i + 1) (Some e) s1 Hi' Hfail) as [H1 H2].
    rewrite !sleptOf_app, Hcalls, Hsp, H2. cbn [app sleptOf fold_right].
    destruct k as [|k'].
    + cbn in *. split; [intros _; discriminate|reflexivity].
    + split; [intros _; apply H1; discriminate|]. cbn [Nat.eqb]. lia.
Qed.

(** X15.  When the update-or-create call fails on each of its three
    attempts, two seconds apart, the cycle logs the last error and ends:
    the records are not listed again and the last applied address is
    unchanged, so the next cycle starts over. *)
Theorem X15_failed_mutation_keeps_last_applied
        (st st1 st2 st3 : State W) (ip svc svc2 : string) (t1 t2 t3 : list Event)
        (allRecords : list DNSRecord) (err : option error) :
  observe net ipChecker st = mkRun (ip, svc, None) st1 t1 ->
  ip <> currentIP st ->
  confirm net ipChecker ip st1 = mkRun (ip, svc2, None) st2 t2 ->
  inspect net config ip st2 = mkRun (allRecords, err) st3 t3 ->
  err <> None \/ existsb (hasContent ip) allRecords = false ->
  let mu := mutate net config ip allRecords st3 in
  fst (value mu) = false ->
  let run := checkAndUpdate net config ipChecker st in
  currentIP (final run) = currentIP st
  /\ snd (value mu) <> None
  /\ sleptOf (trace mu) = 4
  /\ final run = final mu
  /\ exists l,
      callsOf l = []
      /\ trace run = t1 ++ [Logged (InfoCurrentIP ip svc)] ++ t2 ++ t3 ++ l
                        ++ trace mu ++ [Logged (ErrorApplyFailed (snd (value mu)))].
Proof.
  intros Hobs Hne Hconf Hins Hmiss mu Hfail run. subst mu run.
  destruct (quiet_run _ _ _ _ _ (quiet_observe net ipChecker st) Hobs) as [_ Hc1].
  destruct (quiet_run _ _ _ _ _ (quiet_confirm net ipChecker ip st1) Hconf) as [_ Hc2].
  destruct (inspect_trace net config _ _ _ _ _ Hins) as [_ Hc3].
  destruct (cycle_reaches_apply net config ipChecker _ _ _ _ _ _ _ _ _ _ _ _
              Hobs Hne Hconf Hins Hmiss) as (l & Hl & E).
  destruct (creating_mutate net config ip allRecords st3) as [_ Hc4].
  assert (Hmu : snd (value (mutate net config ip allRecords st3)) <> None
                /\ sleptOf (trace (mutate net config ip allRecords st3)) = 4).
  { revert Hfail. unfold mutate.
    rewrite (bind_run (logInfo _) _ st3 st3 tt _ eq_refl). cbn [value trace].
    change (Z.to_nat maxRetries) with 3%nat. intros Hfail.
    destruct (applyLoop_failure ip (defaultTTLOf allRecords) 3 0 None st3 eq_refl Hfail)
      as [H1 H2].
    split; [apply H1; discriminate|].
    rewrite sleptOf_app, H2. reflexivity. }
  destruct Hmu as (Hm1 & Hm2).
  destruct (mutate net config ip allRecords st3) as [[ok lastErr] st4 t4] eqn:Em.
  cbn [value final trace fst snd] in *. subst ok.
  assert (Ea : applyChange net config ip allRecords st3
               = mkRun tt st4 (t4 ++ [Logged (ErrorApplyFailed lastErr)])).
  { unfold applyChange. rewrite (bind_run _ _ _ _ _ _ Em). reflexivity. }
  rewrite E, Ea. cbn [final trace].
  split; [congruence|]. split; [exact Hm1|]. split; [exact Hm2|].
  split; [reflexivity|]. exists l. split; [exact Hl|reflexivity].
Qed.

End MoreCycle.

(** ** [verifyConfig] and [updateDNSNow] *)

(** X16.  [verifyConfig] checks the four fields before it talks to the
    provider: when the token, the zone or the name is empty, or the type is
    neither A nor AAAA, it returns the error without sending anything.  It
    returns no error exactly when the fields pass and the listing of the
    configured name succeeds; it sends that one listing at most and never
    writes. *)
Theorem X16_verifyConfig_checks_fields_first (g : Globals) (st : State W) :
  let config := g_config g in
  let run := verifyConfig net g st in
  let fieldsOk := (negb (incomplete config) && knownRecordType config)%bool in
  (fieldsOk = false -> fst (value run) <> None /\ trace run = [] /\ final run = st)
  /\ (fst (value run) = None <->
      fieldsOk = true
      /\ snd (value (ListDNSRecords net (ZoneID config) (RecordName config) st)) = None)
  /\ (fieldsOk = true ->
      trace run = [Called (CallList (ZoneID config) (RecordName config))]
      /\ exists client, g_cfClient (snd (value run)) = Some client
                        /\ (g_cfClient g = None -> apiToken client = APIToken config))
  /\ mutations (trace run) = []
  /\ currentIP (final run) = currentIP st.
Proof.
  intros config run fieldsOk. subst run fieldsOk. unfold verifyConfig.
  fold config. unfold incomplete, knownRecordType.
  destruct (String.eqb (APIToken config) "") eqn:Et.
  { cbn. repeat split; try discriminate; try tauto.
    intros [H _]; discriminate. }
  destruct (String.eqb (ZoneID config) "") eqn:Ez.
  { cbn. repeat split; try discriminate; try tauto.
    intros [H _]; discriminate. }
  destruct (String.eqb (RecordName config) "") eqn:En.
  { cbn. repeat split; try discriminate; try tauto.
    intros [H _]; discriminate. }
  destruct (String.eqb (RecordType config) "A") eqn:Ea;
    destruct (String.eqb (RecordType config) "AAAA") eqn:E4; cbn [negb andb orb];
    try (cbn; repeat split; try discriminate; try tauto;
         intros [H _]; discriminate).
  all: destruct (ListDNSRecords_spec net (ZoneID config) (RecordName config) st)
      as ([recs err] & st1 & E & Hc).
  all: assert (Hclient : exists client,
                  g_cfClient (fst (match g_cfClient g with
                                   | Some _ => (g, @None setupError)
                                   | None =>
                                       let (client, err) :=
                                         NewCloudflareClient (APIToken config) in
                                       (mkGlobals config client, err)
                                   end)) = Some client
                  /\ (g_cfClient g = None -> apiToken client = APIToken config)
                  /\ snd (match g_cfClient g with
                          | Some _ => (g, @None setupError)
                          | None =>
                              let (client, err) :=
                                NewCloudflareClient (APIToken config) in
                              (mkGlobals config client, err)
                          end) = None).
  all: try (destruct (g_cfClient g) as [c|] eqn:Eg;
            [exists c; cbn; rewrite Eg; repeat split; auto; discriminate
            |unfold NewCloudflareClient; rewrite Et; cbn; eexists;
             repeat split; reflexivity]).
  all: destruct Hclient as (client & Hcl & Htok & Hnone); rewrite Hnone;
    rewrite (bind_run _ _ _ _ _ _ E), E; cbn [value final trace fst snd];
    destruct err as [e|]; cbn [value final trace fst snd app];
    (split; [discriminate|]);
    (split; [split; [intros H; try discriminate; split; auto
                    |intros [_ H]; try discriminate; reflexivity]|]);
    (split; [intros _; split; [reflexivity|exists client; split; assumption]|]);
    (split; [reflexivity|exact Hc]).
Qed.

(** X17.  The manual update acts on one resolution, without confirmation
    and without pause.  It never creates a record and sends at most one
    update, carrying the resolved address.  The last applied address
    changes only when the resolution and [UpdateDNSRecord] both returned no
    error, and then to the resolved address, which passes [isValidIPv4]. *)
Theorem X17_updateDNSNow (config : Config) (ipChecker : IPChecker) (st : State W) :
  let run := updateDNSNow net config ipChecker st in
  let res := GetPublicIPWithService net ipChecker st in
  let ip := fst (fst (value res)) in
  queriesTo (primaryService ipChecker) (trace run) = 1%nat
  /\ sleptOf (trace run) = 0
  /\ filter isPost (callsOf (trace run)) = []
  /\ (List.length (mutations (trace run)) <= 1)%nat
  /\ Forall (carries (ZoneID config) (RecordType config) (RecordName config) ip)
            (mutations (trace run))
  /\ (currentIP (final run) = currentIP st
      \/ (currentIP (final run) = ip
          /\ snd (value res) = None
          /\ isValidIPv4 ip = true
          /\ value (UpdateDNSRecord net (ZoneID config) (RecordName config)
                                    (RecordType config) ip (final res)) = None)).
Proof.
  intros run res ip. subst run res ip. unfold updateDNSNow.
  destruct (GetPublicIPWithService_attempt ipChecker st) as [Hq Hs].
  destruct (quiet_GetPublicIPWithService net ipChecker st) as [Hp Hc].
  pose proof (GetPublicIPWithService_success net ipChecker st) as Hok.
  destruct (GetPublicIPWithService net ipChecker st) as [[[ip svc] err] s1 t1] eqn:E.
  cbn [value final trace fst snd] in *.
  rewrite (bind_run _ _ _ _ _ _ E).
  destruct err as [e|].
  - cbn [value final trace]. rewrite app_nil_r.
    rewrite (no_provider_call_no_post _ Hp), (no_provider_call_no_mutation _ Hp).
    repeat split; auto; try (cbn; lia).
  - destruct (Hok ip svc eq_refl) as [_ Hv].
    destruct (writing_UpdateDNSRecord (ZoneID config) (RecordName config)
                (RecordType config) ip s1) as (Hf & Hl & Hcu).
    pose proof (callsOnly_UpdateDNSRecord (ZoneID config) (RecordName config)
                  (RecordType config) ip s1) as Hcalls.
    destruct (UpdateDNSRecord_spec net (ZoneID config) (RecordName config)
                (RecordType config) ip s1) as (v & s2 & t2 & Eu & Hcu2 & Hnp).
    rewrite Eu in Hf, Hl, Hcalls. cbn [value final trace] in Hf, Hl, Hcalls.
    rewrite (bind_run _ _ _ _ _ _ Eu).
    assert (Hq2 : queriesTo (primaryService ipChecker) t2 = 0%nat).
    { unfold queriesTo. clear - Hnp Eu.
      pose proof (UpdateDNSRecord_writes (ZoneID config) (RecordName config)
                    (RecordType config) ip s1) as _.
      unfold UpdateDNSRecord in Eu.
      destruct (ListDNSRecords_spec net (ZoneID config) (RecordName config) s1)
        as ([recs err] & s' & El & _).
      rewrite (bind_run _ _ _ _ _ _ El) in Eu. cbn [value final trace] in Eu.
      destruct err; [inversion Eu; reflexivity|].
      destruct (List.length recs =? 0)%nat; [inversion Eu; reflexivity|].
      destruct (find (hasType (RecordType config)) recs) as [target|];
        [|inversion Eu; reflexivity].
      destruct (String.eqb (Content target) ip); [inversion Eu; reflexivity|].
      unfold bind, request in Eu.
      destruct (apiPut net (ZoneID config) (ID target) _ (world s')) as [resp w'].
      cbn [value final trace] in Eu.
      destruct resp as [e|status raw json]; [inversion Eu; reflexivity|].
      destruct (negb (status =? 200)); [inversion Eu; reflexivity|].
      destruct json as [e|result]; [inversion Eu; reflexivity|].
      destruct (negb (Success result)); [inversion Eu; reflexivity|].
      destruct (negb (String.eqb (res_Content (Result result)) ip));
        inversion Eu; reflexivity. }
    apply callsOnly_sleptOf in Hcalls.
    assert (Hshape : forall (fin : State W) (t3 : list Event),
               t3 = [] ->
               queriesTo (primaryService ipChecker) (t1 ++ t2 ++ t3) = 1%nat
               /\ sleptOf (t1 ++ t2 ++ t3) = 0
               /\ filter isPost (callsOf (t1 ++ t2 ++ t3)) = []
               /\ (List.length (mutations (t1 ++ t2 ++ t3)) <= 1)%nat
               /\ Forall (carries (ZoneID config) (RecordType config)
                                  (RecordName config) ip)
                         (mutations (t1 ++ t2 ++ t3))).
    { intros fin t3 ->. rewrite app_nil_r.
      rewrite queriesTo_app, sleptOf_app, callsOf_app, filter_app, mutations_app.
      rewrite Hq, Hq2, Hs, Hcalls, (no_provider_call_no_post _ Hp), Hnp,
        (no_provider_call_no_mutation _ Hp).
      repeat split; auto. }
    destruct v as [e|]; cbn [value final trace].
    + destruct (Hshape s2 [] eq_refl) as (H1 & H2 & H3 & H4 & H5).
      repeat split; auto. left. cbn. congruence.
    + unfold bind at 1. cbn [setCurrentIP value final trace ret app].
      destruct (Hshape s2 [] eq_refl) as (H1 & H2 & H3 & H4 & H5).
      repeat split; auto. right. cbn. rewrite Eu. repeat split; auto.
Qed.

End MoreProperties.

(* ===================================================================== *)
(** * Further properties of the configuration code *)
(* ===================================================================== *)

Section ConfigProperties.

Variable FS : Type.
Variable UserHomeDir : string * option string.
Variable MkdirAll : string -> Z -> FS -> option string * FS.
Variable ReadFile : string -> FS -> string * option string.
Variable WriteFile : string -> string -> Z -> FS -> option string * FS.
Variable Remove : string -> FS -> option string * FS.
Variable Stat : string -> FS -> StatResult.
Variable filepath_Join : list string -> string.
Variable filepath_Dir : string -> string.
Variable json_MarshalIndent : Config -> string * option string.
Variable json_Unmarshal : string -> Config -> Config * option string.

Local Abbreviation path := (configPath UserHomeDir filepath_Join).
Local Abbreviation load :=
  (LoadConfigIn FS UserHomeDir MkdirAll ReadFile filepath_Join filepath_Dir
                json_Unmarshal).
Local Abbreviation save :=
  (SaveConfig FS UserHomeDir MkdirAll WriteFile filepath_Join filepath_Dir
              json_MarshalIndent).
Local Abbreviation delete := (DeleteConfig FS UserHomeDir Remove Stat filepath_Join).
Local Abbreviation reload :=
  (reloadConfig FS UserHomeDir MkdirAll ReadFile filepath_Join filepath_Dir
                json_Unmarshal).

Lemma LoadConfig_returns_config
      (mkdir : string -> option string) (read : string -> string * option string) :
  exists c,
    fst (LoadConfig UserHomeDir mkdir read filepath_Join filepath_Dir json_Unmarshal)
    = Some c.
Proof.
  unfold LoadConfig.
  destruct (read _) as [data [e|]]; [now eexists|].
  destruct (json_Unmarshal data zeroConfig) as [parsed [e|]]; now eexists.
Qed.

(** What [LoadConfigIn] returns when the file cannot be read, and when it
    holds a configuration. *)
Lemma LoadConfigIn_unreadable (fs : FS) :
  snd (ReadFile path (snd (MkdirAll (filepath_Dir path) 493 fs))) <> None ->
  fst (fst (load fs)) = Some (mkConfig "" "" "" "A").
Proof.
  unfold LoadConfigIn, LoadConfig, configPath. cbn [fst snd].
  destruct (ReadFile _ _) as [data [e|]]; cbn [fst snd]; [reflexivity|].
  intros H; now contradiction H.
Qed.

Lemma LoadConfigIn_readable (fs : FS) (data : string) (c : Config) :
  ReadFile path (snd (MkdirAll (filepath_Dir path) 493 fs)) = (data, None) ->
  json_Unmarshal data zeroConfig = (c, None) ->
  fst (fst (load fs))
  = Some (if String.eqb (RecordType c) "" then setRecordType c "A" else c).
Proof.
  unfold LoadConfigIn, LoadConfig, configPath. cbn [fst snd].
  intros -> ->. reflexivity.
Qed.

(** X18.  Saving then loading gives the configuration back.  On a file
    system where a file that was written reads back as written and creating
    a directory changes no file, and with a JSON encoding of the
    configuration that decodes to it: when [SaveConfig] returns no error,
    [LoadConfig] returns the saved configuration, with the record type "A"
    in place of an empty one. *)
Theorem X18_config_save_then_load (config : Config) (fs fs' : FS) :
  (forall p d perm s s', WriteFile p d perm s = (None, s') -> ReadFile p s' = (d, None)) ->
  (forall d perm s p, ReadFile p (snd (MkdirAll d perm s)) = ReadFile p s) ->
  (forall data, json_MarshalIndent config = (data, None) ->
                json_Unmarshal data zeroConfig = (config, None)) ->
  save config fs = (None, fs') ->
  fst (fst (load fs'))
  = Some (if String.eqb (RecordType config) "" then setRecordType config "A"
          else config).
Proof.
  intros Hrw Hmk Hjson Hsave. unfold SaveConfig in Hsave.
  destruct (MkdirAll (filepath_Dir path) 493 fs) as [[e|] fs1]; [discriminate|].
  destruct (json_MarshalIndent config) as [data [e|]] eqn:Em; [discriminate|].
  destruct (WriteFile path data 384 fs1) as [[e|] fs2] eqn:Ew; [discriminate|].
  inversion Hsave; subst fs2.
  apply (LoadConfigIn_readable fs' data config).
  - rewrite Hmk. exact (Hrw _ _ _ _ _ Ew).
  - now apply Hjson.
Qed.

(** X19.  [DeleteConfig] on a missing file, and loading after a delete.
    When the file is reported missing, [DeleteConfig] returns no error and
    leaves the file system as it is.  On a file system where a removed
    file, and a file reported missing, cannot be read, and creating a
    directory changes no file: whenever [DeleteConfig] returns no error,
    [LoadConfig] then returns the configuration with empty token, zone and
    name and record type "A". *)
Theorem X19_config_delete_then_load (fs : FS) :
  (forall p s s', Remove p s = (None, s') -> snd (ReadFile p s') <> None) ->
  (forall p s, Stat p s = StatNotExist -> snd (ReadFile p s) <> None) ->
  (forall d perm s p, ReadFile p (snd (MkdirAll d perm s)) = ReadFile p s) ->
  (Stat path fs = StatNotExist -> delete fs = (None, fs))
  /\ (forall fs', delete fs = (None, fs') ->
                  fst (fst (load fs')) = Some (mkConfig "" "" "" "A")).
Proof.
  intros Hrm Hst Hmk. split.
  - intros Es. unfold DeleteConfig. rewrite Es. reflexivity.
  - intros fs' Hdel. unfold DeleteConfig in Hdel.
    apply LoadConfigIn_unreadable. rewrite Hmk.
    destruct (Stat path fs) eqn:Es.
    + destruct (Remove path fs) as [[e|] fs1] eqn:Er; [discriminate|].
      inversion Hdel; subst. exact (Hrm _ _ _ Er).
    + inversion Hdel; subst. exact (Hst _ _ Es).
    + destruct (Remove path fs) as [[e|] fs1] eqn:Er; [discriminate|].
      inversion Hdel; subst. exact (Hrm _ _ _ Er).
Qed.

(** X20.  [reloadConfig] never fails on a nil configuration and never
    takes its client-initialisation error branch.  It installs the
    configuration of the file exactly when its token, zone and name are all
    non-empty, and otherwise leaves the package variables as they are; so a
    complete configuration stays complete, and a client that holds the
    configured token still does afterwards. *)
Theorem X20_reloadConfig_keeps_globals_sound (g : Globals) (fs : FS) :
  exists loaded g' logs,
    fst (fst (load fs)) = Some loaded
    /\ fst (reload g fs) = Some (g', logs)
    /\ (incomplete loaded = true -> g' = g)
    /\ (incomplete loaded = false -> g_config g' = loaded)
    /\ (forall e, ~ In (ReloadClientInitFailed e) logs)
    /\ (incomplete (g_config g) = false -> incomplete (g_config g') = false)
    /\ (clientMatches g -> clientMatches g').
Proof.
  unfold reloadConfig.
  destruct (load fs) as [[loaded warnings] fs1] eqn:El.
  assert (Hsome : exists c, loaded = Some c).
  { unfold LoadConfigIn in El. inversion El as [[Hl Hw Hf]].
    destruct (LoadConfig_returns_config
                (fun dir => fst (MkdirAll dir 493 fs))
                (fun p => ReadFile p (snd (MkdirAll (filepath_Dir path) 493 fs))))
      as (c & Hc).
    exists c. unfold configPath in *.
    destruct (LoadConfig _ _ _ _ _ _) as [o w]. cbn in Hc, Hl. congruence. }
  destruct Hsome as (c & ->). cbn [fst snd].
  exists c. unfold reloadConfigWith.
  destruct (incomplete c) eqn:Einc.
  { exists g, [ReloadInvalidKeptOld]. repeat split; auto; try discriminate.
    intros e [H|[]]. discriminate. }
  assert (Htok : String.eqb (APIToken c) "" = false).
  { unfold incomplete in Einc. apply orb_false_elim in Einc. destruct Einc as [Einc _].
    apply orb_false_elim in Einc. tauto. }
  destruct (String.eqb (APIToken c) (APIToken (g_config g))) eqn:Esame; cbn [negb].
  - apply String.eqb_eq in Esame.
    exists (mkGlobals c (g_cfClient g)), [ReloadDone].
    repeat split; auto; try discriminate.
    + intros e [H|[]]. discriminate.
    + intros (client & Hcl & Ht). exists client. cbn. split; [exact Hcl|congruence].
  - unfold NewCloudflareClient. rewrite Htok.
    eexists; eexists. split; [reflexivity|]. split; [reflexivity|].
    repeat split; auto; try discriminate.
    + intros e [H|[H|[]]]; discriminate.
    + intros _. eexists. split; reflexivity.
Qed.

End ConfigProperties.

(* ===================================================================== *)
(** * The resolved address is a trimmed, parseable string *)
(* ===================================================================== *)

Lemma trimLeft_headClean (n : nat) :
  forall s, (List.length s <= n)%nat -> headClean (GoLib.trimLeft s).
Proof.
  induction n as [|n IH]; intros s Hn.
  - destruct s; [exact I|cbn in Hn; lia].
  - destruct s as [|a r]; [exact I|]. cbn [GoLib.trimLeft]. cbn in Hn.
    destruct (GoLib.asciiSpace a) eqn:Ea; [apply IH; lia|].
    destruct r as [|b r2]; [cbn; auto|]. cbn in Hn.
    destruct (GoLib.space2 a b) eqn:E2; [apply IH; lia|].
    destruct r2 as [|c r3]; [cbn; auto|]. cbn in Hn.
    destruct (GoLib.space3 a b c) eqn:E3; [apply IH; lia|].
    cbn. auto.
Qed.

Lemma trimLeftRev_tailClean (n : nat) :
  forall s, (List.length s <= n)%nat -> tailClean (GoLib.trimLeftRev s).
Proof.
  induction n as [|n IH]; intros s Hn.
  - destruct s; [exact I|cbn in Hn; lia].
  - destruct s as [|a r]; [exact I|]. cbn [GoLib.trimLeftRev]. cbn in Hn.
    destruct (GoLib.asciiSpace a) eqn:Ea; [apply IH; lia|].
    destruct r as [|b r2]; [cbn; auto|]. cbn in Hn.
    destruct (GoLib.space2 b a) eqn:E2; [apply IH; lia|].
    destruct r2 as [|c r3]; [cbn; auto|]. cbn in Hn.
    destruct (GoLib.space3 c b a) eqn:E3; [apply IH; lia|].
    cbn. auto.
Qed.

Lemma headClean_fixed (s : GoLib.bytes) : headClean s -> GoLib.trimLeft s = s.
Proof.
  destruct s as [|a [|b [|c r]]]; cbn; auto.
  - intros [-> _]. reflexivity.
  - intros [-> [-> _]]. reflexivity.
  - intros [-> [-> ->]]. reflexivity.
Qed.

Lemma tailClean_fixed (s : GoLib.bytes) : tailClean s -> GoLib.trimLeftRev s = s.
Proof.
  destruct s as [|a [|b [|c r]]]; cbn; auto.
  - intros [-> _]. reflexivity.
  - intros [-> [-> _]]. reflexivity.
  - intros [-> [-> ->]]. reflexivity.
Qed.

Lemma headClean_prefix (z w : GoLib.bytes) : headClean (z ++ w) -> headClean z.
Proof.
  destruct z as [|a [|b [|c r]]]; cbn; auto.
  - intros [H _]. auto.
  - intros [H [H2 _]]. auto.
Qed.

Lemma trimLeftRev_suffix (n : nat) :
  forall s, (List.length s <= n)%nat -> exists pre, s = pre ++ GoLib.trimLeftRev s.
Proof.
  induction n as [|n IH]; intros s Hn.
  - destruct s; [now exists []|cbn in Hn; lia].
  - destruct s as [|a r]; [now exists []|]. cbn [GoLib.trimLeftRev]. cbn in Hn.
    destruct (GoLib.asciiSpace a).
    { destruct (IH r ltac:(lia)) as (pre & Hp). exists (a :: pre). cbn. now f_equal. }
    destruct r as [|b r2]; [now exists []|]. cbn in Hn.
    destruct (GoLib.space2 b a).
    { destruct (IH r2 ltac:(lia)) as (pre & Hp). exists (a :: b :: pre). cbn.
      now do 2 f_equal. }
    destruct r2 as [|c r3]; [now exists []|]. cbn in Hn.
    destruct (GoLib.space3 c b a).
    { destruct (IH r3 ltac:(lia)) as (pre & Hp). exists (a :: b :: c :: pre). cbn.
      now do 3 f_equal. }
    now exists [].
Qed.

(** Trimming what is trimmed changes nothing. *)
Lemma TrimSpace_idempotent (s : string) :
  GoLib.TrimSpace (GoLib.TrimSpace s) = GoLib.TrimSpace s.
Proof.
  unfold GoLib.TrimSpace. rewrite list_ascii_of_string_of_list_ascii.
  set (y := GoLib.trimLeft (list_ascii_of_string s)).
  assert (Hy : headClean y) by (eapply trimLeft_headClean; reflexivity).
  unfold GoLib.trimRight.
  set (u := GoLib.trimLeftRev (rev y)).
  assert (Hu : tailClean u) by (eapply trimLeftRev_tailClean; reflexivity).
  destruct (trimLeftRev_suffix _ (rev y) (le_n _)) as (pre & Hpre). fold u in Hpre.
  assert (Hz : headClean (rev u)).
  { apply (headClean_prefix (rev u) (rev pre)).
    rewrite <- rev_app_distr, <- Hpre, rev_involutive. exact Hy. }
  rewrite (headClean_fixed _ Hz), rev_involutive, (tailClean_fixed _ Hu).
  reflexivity.
Qed.

Section ResolvedAddress.

Context {W : Type}.
Variable net : Net W.

Lemma getIPFromService_trimmed (url ip : string) (st : State W) :
  value (getIPFromService net url st) = (ip, None) -> GoLib.TrimSpace ip = ip.
Proof.
  intros H.
  destruct (getIPFromService_accepts_only_validated net url ip st H) as (b & _ & -> & _).
  apply TrimSpace_idempotent.
Qed.

Lemma tryServices_trimmed (primary : string) (svcs : list string) :
  forall (last : option error) (st : State W) ip svc,
    value (tryServices net primary svcs last st) = (ip, svc, None) ->
    GoLib.TrimSpace ip = ip.
Proof.
  induction svcs as [|s svcs IH]; intros last st ip svc; cbn [tryServices].
  - cbn. discriminate.
  - destruct (String.eqb s primary); [apply IH|].
    pose proof (getIPFromService_trimmed s) as Htrim.
    destruct (getIPFromService_spec net s st) as ([ip' err'] & st1 & E & _).
    rewrite (bind_run _ _ _ _ _ _ E). cbn [value].
    unfold accepted. destruct err' as [e|]; cbn [isNil andb].
    + apply IH.
    + destruct (negb (String.eqb ip' "") && isValidIPv4 ip')%bool; [|apply IH].
      cbn. intros H. inversion H; subst. apply (Htrim ip st). now rewrite E.
Qed.

(** X21.  An address that a resolution returns without error has no white
    space around it and is itself a string [net.ParseIP] reads, with a
    non-nil [To4]: what is later compared with the record contents and sent
    to the provider is the validated string, not a string that only
    validates after trimming. *)
Theorem X21_resolved_address_is_trimmed_and_parses
        (ic : IPChecker) (st : State W) (ip svc : string) :
  value (GetPublicIPWithService net ic st) = (ip, svc, None) ->
  GoLib.TrimSpace ip = ip
  /\ (exists b q, GoLib.ParseIP ip = Some b /\ GoLib.To4 (Some b) = Some q).
Proof.
  intros H.
  destruct (GetPublicIPWithService_success net ic st ip svc H) as [_ Hv].
  assert (Htrim : GoLib.TrimSpace ip = ip).
  { unfold GetPublicIPWithService in H.
    pose proof (getIPFromService_trimmed (primaryService ic)) as Hp.
    destruct (getIPFromService_spec net (primaryService ic) st)
      as ([ip' err'] & st1 & E & _).
    rewrite (bind_run _ _ _ _ _ _ E) in H. cbn [value] in H.
    unfold accepted in H. destruct err' as [e|]; cbn [isNil andb] in H.
    - exact (tryServices_trimmed _ _ _ _ _ _ H).
    - destruct (negb (String.eqb ip' "") && isValidIPv4 ip')%bool.
      + cbn in H. inversion H; subst. apply (Hp ip st). now rewrite E.
      + exact (tryServices_trimmed _ _ _ _ _ _ H). }
  split; [exact Htrim|].
  unfold isValidIPv4 in Hv. rewrite Htrim in Hv.
  destruct (GoLib.ParseIP ip) as [b|]; [|discriminate].
  destruct (GoLib.To4 (Some b)) as [q|] eqn:E4; [|discriminate].
  exists b, q. split; [reflexivity|exact E4].
Qed.

End ResolvedAddress.

(** X22.  [isValidIPv4] trims its argument itself: it gives the same
    verdict on a string and on the string trimmed, as [getIPFromService]
    passes it, and it accepts no string that is empty or all white space. *)
Theorem X22_validation_ignores_surrounding_space (s : string) :
  isValidIPv4 (GoLib.TrimSpace s) = isValidIPv4 s
  /\ (isValidIPv4 s = true -> GoLib.TrimSpace s <> "").
Proof.
  split.
  - unfold isValidIPv4. rewrite TrimSpace_idempotent. reflexivity.
  - unfold isValidIPv4. intros H E. rewrite E in H. vm_compute in H. discriminate.
Qed.

(* ===================================================================== *)
(** * The further properties on concrete runs *)
(* ===================================================================== *)

(** The first A record holds 1.2.3.4 and the provider stores and echoes
    what it is sent. *)
Lemma X5_witness :
  let st := Sim.start [] [Sim.A "r1" "1.2.3.4" 600] "" in
  let listing := ListDNSRecords Sim.net "zone" "host.example.com" st in
  let run := UpdateDNSRecord Sim.net "zone" "host.example.com" "A" "5.6.7.8" st in
  value run = None
  /\ exists target,
      snd (value listing) = None
      /\ find (hasType "A") (fst (value listing)) = Some target
      /\ ((Content target = "5.6.7.8" /\ trace run = trace listing)
          \/ (exists raw env w',
                 apiPut Sim.net "zone" (ID target)
                        (mkUpdateReq "A" "host.example.com" "5.6.7.8" (TTL target))
                        (world (final listing))
                 = (ApiResponse 200 raw (inr env), w')
                 /\ Success env = true
                 /\ res_Content (Result env) = "5.6.7.8"
                 /\ final run = mkState w' (currentIP st))).
Proof.
  intros st listing run.
  assert (H : value run = None) by evaluate.
  split; [exact H|].
  exact (X5_update_nil_means_content_in_place Sim.net "zone" "host.example.com" "A"
           "5.6.7.8" st H).
Defined.

(** A record with the new address is already there, beside the old one. *)
Lemma X9_witness :
  let st := Sim.start [] [Sim.A "r1" "1.2.3.4" 600; Sim.A "r2" "5.6.7.8" 300] "" in
  let all := GetAllDNSRecords Sim.net "zone" "host.example.com" "A" st in
  let run := UpdateOrCreateDNSRecord Sim.net "zone" "host.example.com" "A" "5.6.7.8"
                                     600 "1.2.3.4" st in
  (snd (value all) = None
   /\ existsb (hasContent "5.6.7.8") (fst (value all)) = true)
  /\ value run = None /\ trace run = trace all /\ final run = final all.
Proof.
  intros st all run.
  assert (H1 : snd (value all) = None) by evaluate.
  assert (H2 : existsb (hasContent "5.6.7.8") (fst (value all)) = true) by evaluate.
  split; [now split|].
  exact (X9_update_or_create_is_noop_when_present Sim.net "zone" "host.example.com"
           "A" "5.6.7.8" 600 "1.2.3.4" st H1 H2).
Defined.

(** The first run of a session: no old address. *)
Lemma X10_witness :
  let st := Sim.start [] [Sim.A "r1" "1.2.3.4" 600] "" in
  let all := GetAllDNSRecords Sim.net "zone" "host.example.com" "A" st in
  let run := UpdateOrCreateDNSRecord Sim.net "zone" "host.example.com" "A" "5.6.7.8"
                                     600 "" st in
  ("" = "" \/ existsb (hasContent "") (fst (value all)) = false)
  /\ (mutations (trace run) = []
      \/ mutations (trace run)
         = [CallPost "zone" (mkCreateReq "A" "host.example.com" "5.6.7.8" 600)]).
Proof.
  intros st all run.
  assert (H : "" = "" \/ existsb (hasContent "") (fst (value all)) = false)
    by (left; reflexivity).
  split; [exact H|].
  exact (X10_update_or_create_without_old_record_only_creates Sim.net "zone"
           "host.example.com" "A" "5.6.7.8" 600 "" st H).
Defined.

(** The address changes to 5.6.7.8, and no service answers the
    confirmation. *)
Lemma X14_witness :
  let st := Sim.start [Sim.answers "5.6.7.8"] [Sim.A "r1" "1.2.3.4" 600] "1.2.3.4" in
  let ob := observe Sim.net NewIPChecker st in
  let co := confirm Sim.net NewIPChecker "5.6.7.8" (final ob) in
  let run := Sim.cycle st in
  (ob = mkRun ("5.6.7.8", "https://api.ipify.org", None) (final ob) (trace ob)
   /\ "5.6.7.8" <> currentIP st
   /\ snd (value co) <> None)
  /\ providerCalls (trace run) = []
  /\ currentIP (final run) = currentIP st
  /\ queriesTo "https://api.ipify.org" (trace co) = 1%nat
  /\ sleptOf (trace co) = 3
  /\ trace run = trace ob ++ [Logged (InfoCurrentIP "5.6.7.8" "https://api.ipify.org")]
                    ++ trace co ++ [Logged (ErrorConfirmFailed (snd (value co)))].
Proof.
  intros st ob co run.
  assert (H1 : ob = mkRun ("5.6.7.8", "https://api.ipify.org", None)
                          (final ob) (trace ob)) by evaluate.
  assert (H2 : "5.6.7.8" <> currentIP st) by evaluate.
  assert (H3 : snd (value co) <> None) by evaluate.
  split; [now repeat split|].
  exact (X14_failed_confirmation_aborts Sim.net Sim.config NewIPChecker
           st _ _ _ _ H1 H2 H3).
Defined.

(** The provider answers every update with the content 0.0.0.0 and stores
    nothing. *)
Lemma X15_witness :
  let r1 := Sim.A "r1" "1.2.3.4" 600 in
  let st := mkState (Sim.mkWorld [Sim.answers "5.6.7.8"; Sim.answers "5.6.7.8"]
                                 [r1] false (Some "0.0.0.0")) "1.2.3.4" in
  let ob := observe Sim.net NewIPChecker st in
  let co := confirm Sim.net NewIPChecker "5.6.7.8" (final ob) in
  let ins := inspect Sim.net Sim.config "5.6.7.8" (final co) in
  let mu := mutate Sim.net Sim.config "5.6.7.8" [r1] (final ins) in
  let run := Sim.cycle st in
  (ob = mkRun ("5.6.7.8", "https://api.ipify.org", None) (final ob) (trace ob)
   /\ "5.6.7.8" <> currentIP st
   /\ co = mkRun ("5.6.7.8", "https://api.ipify.org", None) (final co) (trace co)
   /\ ins = mkRun ([r1], None) (final ins) (trace ins)
   /\ (@None error <> None \/ existsb (hasContent "5.6.7.8") [r1] = false)
   /\ fst (value mu) = false)
  /\ currentIP (final run) = currentIP st
  /\ snd (value mu) <> None
  /\ sleptOf (trace mu) = 4
  /\ final run = final mu
  /\ exists l,
      callsOf l = []
      /\ trace run = trace ob ++ [Logged (InfoCurrentIP "5.6.7.8" "https://api.ipify.org")]
                        ++ trace co ++ trace ins ++ l
                        ++ trace mu ++ [Logged (ErrorApplyFailed (snd (value mu)))].
Proof.
  intros r1 st ob co ins mu run.
  assert (H1 : ob = mkRun ("5.6.7.8", "https://api.ipify.org", None)
                          (final ob) (trace ob)) by evaluate.
  assert (H2 : "5.6.7.8" <> currentIP st) by evaluate.
  assert (H3 : co = mkRun ("5.6.7.8", "https://api.ipify.org", None)
                          (final co) (trace co)) by evaluate.
  assert (H4 : ins = mkRun ([r1], None) (final ins) (trace ins)) by evaluate.
  assert (H5 : @None error <> None \/ existsb (hasContent "5.6.7.8") [r1] = false)
    by (right; reflexivity).
  assert (H6 : fst (value mu) = false) by evaluate.
  split; [now repeat split|].
  exact (X15_failed_mutation_keeps_last_applied Sim.net Sim.config NewIPChecker
           st _ _ _ _ _ _ _ _ _ _ _ H1 H2 H3 H4 H5 H6).
Defined.

(** The in-memory file system: a written file reads back, and the codec
    decodes what it encodes. *)
Lemma X18_witness :
  let save := SaveConfig SimFS.FS SimFS.home SimFS.MkdirAll SimFS.WriteFile SimFS.Join
                         SimFS.Dir SimFS.MarshalIndent in
  let load := LoadConfigIn SimFS.FS SimFS.home SimFS.MkdirAll SimFS.ReadFile SimFS.Join
                           SimFS.Dir SimFS.Unmarshal in
  let fs' := snd (save SimFS.sample SimFS.empty) in
  save SimFS.sample SimFS.empty = (None, fs')
  /\ fst (fst (load fs')) = Some (mkConfig "token" "zone" "host.example.com" "A").
Proof.
  intros save load fs'.
  assert (H : save SimFS.sample SimFS.empty = (None, fs')) by reflexivity.
  split; [exact H|].
  refine (X18_config_save_then_load SimFS.FS SimFS.home SimFS.MkdirAll SimFS.ReadFile
            SimFS.WriteFile SimFS.Join SimFS.Dir SimFS.MarshalIndent SimFS.Unmarshal
            SimFS.sample SimFS.empty fs' _ _ _ H).
  - intros p d perm s s' Hw. inversion Hw; subst. unfold SimFS.ReadFile.
    rewrite String.eqb_refl. reflexivity.
  - reflexivity.
  - intros data Hm. inversion Hm; subst. reflexivity.
Defined.

(** The same file system: deleting when there is no configuration file,
    and deleting the file that holds the sample configuration. *)
Lemma X19_witness :
  let path := configPath SimFS.home SimFS.Join in
  let delete := DeleteConfig SimFS.FS SimFS.home SimFS.Remove SimFS.Stat SimFS.Join in
  let load := LoadConfigIn SimFS.FS SimFS.home SimFS.MkdirAll SimFS.ReadFile SimFS.Join
                           SimFS.Dir SimFS.Unmarshal in
  let fs := snd (SimFS.WriteFile path "{sample}" 384 SimFS.empty) in
  let fs' := snd (delete fs) in
  (SimFS.Stat path SimFS.empty = StatNotExist
   /\ delete fs = (None, fs'))
  /\ delete SimFS.empty = (None, SimFS.empty)
  /\ fst (fst (load SimFS.empty)) = Some (mkConfig "" "" "" "A")
  /\ fst (fst (load fs)) = Some (mkConfig "token" "zone" "host.example.com" "A")
  /\ fst (fst (load fs')) = Some (mkConfig "" "" "" "A").
Proof.
  intros path delete load fs fs'.
  assert (H0 : SimFS.Stat path SimFS.empty = StatNotExist) by reflexivity.
  assert (H : delete fs = (None, fs')) by reflexivity.
  assert (Hrm : forall p s s', SimFS.Remove p s = (None, s') ->
                               snd (SimFS.ReadFile p s') <> None).
  { intros p s s' Hr. unfold SimFS.Remove in Hr.
    destruct (s p); inversion Hr; subst. unfold SimFS.ReadFile.
    rewrite String.eqb_refl. discriminate. }
  assert (Hst : forall p s, SimFS.Stat p s = StatNotExist ->
                            snd (SimFS.ReadFile p s) <> None).
  { intros p s Hs. unfold SimFS.Stat in Hs. unfold SimFS.ReadFile.
    destruct (s p); [discriminate Hs|discriminate]. }
  assert (Hmk : forall d perm s p,
             SimFS.ReadFile p (snd (SimFS.MkdirAll d perm s)) = SimFS.ReadFile p s)
    by reflexivity.
  destruct (X19_config_delete_then_load SimFS.FS SimFS.home SimFS.MkdirAll
              SimFS.ReadFile SimFS.Remove SimFS.Stat SimFS.Join SimFS.Dir
              SimFS.Unmarshal SimFS.empty Hrm Hst Hmk) as [Pmissing Pempty].
  destruct (X19_config_delete_then_load SimFS.FS SimFS.home SimFS.MkdirAll
              SimFS.ReadFile SimFS.Remove SimFS.Stat SimFS.Join SimFS.Dir
              SimFS.Unmarshal fs Hrm Hst Hmk) as [_ Pfile].
  split; [now split|].
  split; [exact (Pmissing H0)|].
  split; [exact (Pempty _ (Pmissing H0))|].
  split; [reflexivity|].
  exact (Pfile fs' H).
Defined.

(** The service answers with blanks around the address. *)
Lemma X21_witness :
  let st := Sim.start [Sim.answers "  5.6.7.8 "] [] "" in
  value (GetPublicIPWithService Sim.net NewIPChecker st)
  = ("5.6.7.8", "https://api.ipify.org", None)
  /\ GoLib.TrimSpace "5.6.7.8" = "5.6.7.8"
  /\ (exists b q, GoLib.ParseIP "5.6.7.8" = Some b /\ GoLib.To4 (Some b) = Some q).
Proof.
  intros st.
  assert (H : value (GetPublicIPWithService Sim.net NewIPChecker st)
              = ("5.6.7.8", "https://api.ipify.org", None)) by evaluate.
  split; [exact H|].
  exact (X21_resolved_address_is_trimmed_and_parses Sim.net NewIPChecker st _ _ H).
Defined.
